(** * Headless agent wrappers: session protocol and stream decoding

    A shallow embedding of the Python scripts under [docs/claude-headless]
    and [docs/codex-headless]:

    - [templates/python-wrapper.py]            (module [Wrapper])
    - [examples/basic/agent.py]                (module [Agent])
    - [examples/streaming/stream-parser.py]    (modules [ClaudeStream], [CodexStream])
    - [examples/multi-turn/stateful-agent.py]  (module [Stateful])
    - [examples/production/agent-service.py]   (module [Service])

    Python values that come out of [json.loads] are kept dynamically typed
    (type [json]); exceptions are explicit ([res]); the file system, the
    subprocesses and the registered callbacks are explicit state, oracle
    and trace. *)

From Stdlib Require Import ZArith QArith String Ascii List Bool Lia DecimalString.
From stdpp Require Import gmap strings.
Import ListNotations.

Local Open Scope string_scope.
Local Open Scope list_scope.

(** ** Python values *)

(** A Python number: [int] or [float].  Floats are idealised as the exact
    rational they denote, so arithmetic on them does not round. *)
Inductive number : Type :=
| NInt (z : Z)
| NFloat (q : Q).

(** What [json.loads] can return.  An object is a [dict]: keys are unique
    and keep their insertion order. *)
#[local] Unset Elimination Schemes.
Inductive json : Type :=
| JNull
| JBool (b : bool)
| JNum (n : number)
| JStr (s : string)
| JArr (xs : list json)
| JObj (kvs : list (string * json)).
#[local] Set Elimination Schemes.

Inductive exn : Type :=
| JSONDecodeError (msg : string)
| AttributeError
| TypeError
| KeyError (key : string)
| RuntimeError (msg : string)
| OSError (msg : string)
| RecursionError
| OverflowError.

(** The outcome of a call: a value or a raised exception. *)
Inductive res (A : Type) : Type :=
| Ok (a : A)
| Raise (e : exn).
Arguments Ok {A} a.
Arguments Raise {A} e.

Definition raises {A} (r : res A) : bool :=
  match r with Ok _ => false | Raise _ => true end.

(** Methods of an object with state [S]: they read and update the state
    and return or raise.  The state reached is kept when a call raises. *)
Definition M (S A : Type) : Type := S -> S * res A.

Definition ret {S A} (a : A) : M S A := fun s => (s, Ok a).

Definition raise {S A} (e : exn) : M S A := fun s => (s, Raise e).

Definition bind {S A B} (m : M S A) (k : A -> M S B) : M S B :=
  fun s =>
    match m s with
    | (s', Ok a) => k a s'
    | (s', Raise e) => (s', Raise e)
    end.

Definition lift {S A} (r : res A) : M S A := fun s => (s, r).

Definition get {S} : M S S := fun s => (s, Ok s).

Definition modify {S} (f : S -> S) : M S unit := fun s => (f s, Ok tt).

(** [try: m  except Exception as e: h e]. *)
Definition try_except {S A} (m : M S A) (h : exn -> M S A) : M S A :=
  fun s =>
    match m s with
    | (s', Ok a) => (s', Ok a)
    | (s', Raise e) => h e s'
    end.

Notation "'let*' x ':=' m 'in' k" := (bind m (fun x => k))
  (at level 10, x name, m at level 100, k at level 200).
Notation "m ';;' k" := (bind m (fun _ => k))
  (at level 100, k at level 200, right associativity).

(** [if c: m] with no [else]. *)
Definition when {S} (c : bool) (m : M S unit) : M S unit :=
  if c then m else ret tt.

(** [d[k]], [d.get(k)] and [d[k] = v] on the association list of a dict. *)
Fixpoint dict_get (k : string) (kvs : list (string * json)) : option json :=
  match kvs with
  | [] => None
  | (k', v) :: rest => if String.eqb k k' then Some v else dict_get k rest
  end.

Fixpoint dict_set (k : string) (v : json) (kvs : list (string * json))
  : list (string * json) :=
  match kvs with
  | [] => [(k, v)]
  | (k', v') :: rest =>
      if String.eqb k k' then (k', v) :: rest else (k', v') :: dict_set k v rest
  end.

Definition dict_get_or (k : string) (kvs : list (string * json))
  (default : json) : json :=
  match dict_get k kvs with Some v => v | None => default end.

(** [x.get(k, default)]: only a dict has [get]. *)
Definition py_get (x : json) (k : string) (default : json) : res json :=
  match x with
  | JObj kvs => Ok (dict_get_or k kvs default)
  | _ => Raise AttributeError
  end.

(** [x[k]] for a string key. *)
Definition py_index (x : json) (k : string) : res json :=
  match x with
  | JObj kvs =>
      match dict_get k kvs with Some v => Ok v | None => Raise (KeyError k) end
  | _ => Raise TypeError
  end.

(** Truth value of [x] in an [if]. *)
Definition py_truthy (x : json) : bool :=
  match x with
  | JNull => false
  | JBool b => b
  | JNum (NInt z) => negb (z =? 0)%Z
  | JNum (NFloat q) => negb (Qeq_bool q 0)
  | JStr s => negb (String.eqb s "")
  | JArr xs => match xs with [] => false | _ => true end
  | JObj kvs => match kvs with [] => false | _ => true end
  end.

(** [x == s] for a string literal [s]. *)
Definition py_eq_str (x : json) (s : string) : bool :=
  match x with
  | JStr t => String.eqb t s
  | _ => false
  end.

Fixpoint chars_of (s : string) : list json :=
  match s with
  | EmptyString => []
  | String c rest => JStr (String c EmptyString) :: chars_of rest
  end.

(** [for b in x]: the items a loop visits. *)
Definition py_iter (x : json) : res (list json) :=
  match x with
  | JArr xs => Ok xs
  | JStr s => Ok (chars_of s)
  | JObj kvs => Ok (map (fun kv => JStr (fst kv)) kvs)
  | _ => Raise TypeError
  end.

Definition as_number (x : json) : option number :=
  match x with
  | JNum n => Some n
  | JBool b => Some (NInt (if b then 1 else 0))
  | _ => None
  end.

Definition number_value (n : number) : Q :=
  match n with
  | NInt z => inject_Z z
  | NFloat q => q
  end.

(** [float(z)]: an [int] becomes a float when it rounds to a double in
    range, and the conversion raises [OverflowError] otherwise. *)
Definition fits_float (z : Z) : bool := (Z.abs z <? 2 ^ 1024 - 2 ^ 970)%Z.

(** [a + b] on numbers: two ints give an int; with a float the other
    operand is converted to a float first. *)
Definition number_add (a b : number) : res number :=
  match a, b with
  | NInt x, NInt y => Ok (NInt (x + y))
  | NFloat p, NFloat q => Ok (NFloat (Qred (p + q)))
  | NInt x, NFloat q =>
      if fits_float x then Ok (NFloat (Qred (inject_Z x + q)))
      else Raise OverflowError
  | NFloat p, NInt y =>
      if fits_float y then Ok (NFloat (Qred (p + inject_Z y)))
      else Raise OverflowError
  end.

(** [x + y]. *)
Definition py_add (x y : json) : res json :=
  match x, y with
  | JStr a, JStr b => Ok (JStr (a ++ b))
  | JArr a, JArr b => Ok (JArr (a ++ b))
  | _, _ =>
      match as_number x, as_number y with
      | Some a, Some b =>
          match number_add a b with
          | Ok n => Ok (JNum n)
          | Raise e => Raise e
          end
      | _, _ => Raise TypeError
      end
  end.

(** ** Text *)

(** Characters stand for the code points 0..255.  [str.isspace] on them. *)
Definition is_space (c : ascii) : bool :=
  let n := nat_of_ascii c in
  ((9 <=? n) && (n <=? 13) || (28 <=? n) && (n <=? 32)
   || (n =? 133) || (n =? 160))%nat.

Fixpoint lstrip (s : string) : string :=
  match s with
  | EmptyString => EmptyString
  | String c rest => if is_space c then lstrip rest else s
  end.

Fixpoint rstrip (s : string) : string :=
  match s with
  | EmptyString => EmptyString
  | String c rest =>
      match rstrip rest with
      | EmptyString => if is_space c then EmptyString else String c EmptyString
      | r => String c r
      end
  end.

(** [s.strip()]. *)
Definition strip (s : string) : string := rstrip (lstrip s).

(** [sep.join(parts)] for the empty separator. *)
Definition join (parts : list string) : string :=
  fold_right String.append "" parts.

(** [sep.join(parts)] for the empty separator, when the parts come from
    JSON: every part must be a [str]. *)
Fixpoint py_join (parts : list json) : res string :=
  match parts with
  | [] => Ok ""
  | JStr s :: rest =>
      match py_join rest with
      | Ok t => Ok (s ++ t)%string
      | Raise e => Raise e
      end
  | _ :: _ => Raise TypeError
  end.

(** [str(n)] for an [int]. *)
Definition str_of_Z (z : Z) : string := NilZero.string_of_int (Z.to_int z).

(** The double quote character, and a JSON line written with single
    quotes in place of double quotes. *)
Definition dquote : ascii := "034"%char.

Fixpoint jsonl (s : string) : string :=
  match s with
  | EmptyString => EmptyString
  | String c rest =>
      String (if Ascii.eqb c "'"%char then dquote else c) (jsonl rest)
  end.

(** ** [json.loads]

    A recursive-descent reader for the JSON grammar, as [json.loads] applies
    it to a [str]: one value, surrounded by optional white space.  It
    is written to follow the library on the texts whose characters and
    escapes stay within code points 0..255 and whose nesting stays below
    the interpreter's recursion limit.  Outside that range it does not
    follow it: the library also accepts the literals NaN, Infinity and
    -Infinity and every escape up to FFFF, all of which are rejected
    here, and it raises [RecursionError] on nesting that is too deep,
    where this reader goes on.  The message of a [JSONDecodeError] is
    kept short.  Statements that must hold for whatever the library
    does take the decoder as a parameter ([parse_line_with]). *)

Definition is_json_ws (c : ascii) : bool :=
  let n := nat_of_ascii c in
  ((n =? 32) || (n =? 9) || (n =? 10) || (n =? 13))%nat.

Fixpoint skip_ws (s : string) : string :=
  match s with
  | EmptyString => EmptyString
  | String c rest => if is_json_ws c then skip_ws rest else s
  end.

Definition is_digit (c : ascii) : bool :=
  let n := nat_of_ascii c in ((48 <=? n) && (n <=? 57))%nat.

Definition digit_val (c : ascii) : Z := Z.of_nat (nat_of_ascii c) - 48.

(** A maximal run of digits: its value, its length and what follows. *)
Fixpoint digits (s : string) (acc : Z) (n : nat) : Z * nat * string :=
  match s with
  | EmptyString => (acc, n, s)
  | String c rest =>
      if is_digit c then digits rest (10 * acc + digit_val c) (S n)
      else (acc, n, s)
  end.

Definition parse_int_part (s : string) : option (Z * string) :=
  match s with
  | EmptyString => None
  | String c rest =>
      if Ascii.eqb c "0" then Some (0%Z, rest)
      else if is_digit c then let '(v, _, r) := digits s 0 0 in Some (v, r)
      else None
  end.

Definition parse_frac (s : string) : option (Z * nat * string) :=
  match s with
  | String c rest =>
      if Ascii.eqb c "." then
        match digits rest 0 0 with
        | (_, O, _) => None
        | r => Some r
        end
      else None
  | EmptyString => None
  end.

Definition parse_exp (s : string) : option (Z * string) :=
  match s with
  | String c rest =>
      if Ascii.eqb c "e" || Ascii.eqb c "E" then
        let '(sign, rest1) :=
          match rest with
          | String d r =>
              if Ascii.eqb d "+" then (1%Z, r)
              else if Ascii.eqb d "-" then ((-1)%Z, r)
              else (1%Z, rest)
          | EmptyString => (1%Z, rest)
          end in
        match digits rest1 0 0 with
        | (_, O, _) => None
        | (v, _, r) => Some ((sign * v)%Z, r)
        end
      else None
  | EmptyString => None
  end.

(** The rational [m * 10^e], in lowest terms. *)
Definition decimal (m e : Z) : Q :=
  if (0 <=? e)%Z then inject_Z (m * 10 ^ e)
  else Qred (Qmake m (Z.to_pos (10 ^ (- e)))).

Definition parse_number (s : string) : option (number * string) :=
  let '(neg, s1) :=
    match s with
    | String c r => if Ascii.eqb c "-" then (true, r) else (false, s)
    | EmptyString => (false, s)
    end in
  match parse_int_part s1 with
  | None => None
  | Some (i, s2) =>
      let '(f, s3) :=
        match parse_frac s2 with
        | Some (fv, fn, r) => (Some (fv, fn), r)
        | None => (None, s2)
        end in
      let '(e, s4) :=
        match parse_exp s3 with
        | Some (ev, r) => (Some ev, r)
        | None => (None, s3)
        end in
      match f, e with
      | None, None => Some (NInt (if neg then - i else i)%Z, s4)
      | _, _ =>
          let '(fv, fn) := match f with Some p => p | None => (0%Z, O) end in
          let ev := match e with Some v => v | None => 0%Z end in
          let m := (i * 10 ^ Z.of_nat fn + fv)%Z in
          Some (NFloat (decimal (if neg then - m else m) (ev - Z.of_nat fn)), s4)
      end
  end.

Definition hex_val (c : ascii) : option nat :=
  let n := nat_of_ascii c in
  if ((48 <=? n) && (n <=? 57))%nat then Some (n - 48)%nat
  else if ((65 <=? n) && (n <=? 70))%nat then Some (n - 55)%nat
  else if ((97 <=? n) && (n <=? 102))%nat then Some (n - 87)%nat
  else None.

Definition hex4 (a b c d : ascii) : option nat :=
  match hex_val a, hex_val b, hex_val c, hex_val d with
  | Some x, Some y, Some z, Some w => Some (((x * 16 + y) * 16 + z) * 16 + w)%nat
  | _, _, _, _ => None
  end.

Definition unescape (c : ascii) : option ascii :=
  if Ascii.eqb c dquote then Some dquote
  else if Ascii.eqb c "\" then Some "\"%char
  else if Ascii.eqb c "/" then Some "/"%char
  else if Ascii.eqb c "b" then Some "008"%char
  else if Ascii.eqb c "f" then Some "012"%char
  else if Ascii.eqb c "n" then Some "010"%char
  else if Ascii.eqb c "r" then Some "013"%char
  else if Ascii.eqb c "t" then Some "009"%char
  else None.

Definition push_char (c : ascii) (r : option (string * string))
  : option (string * string) :=
  match r with
  | Some (body, rest) => Some (String c body, rest)
  | None => None
  end.

(** The text of a string after its opening quote, and what follows the
    closing quote. *)
Fixpoint parse_string_body (s : string) : option (string * string) :=
  match s with
  | EmptyString => None
  | String c rest =>
      if Ascii.eqb c dquote then Some (EmptyString, rest)
      else if Ascii.eqb c "\" then
        match rest with
        | EmptyString => None
        | String e rest1 =>
            if Ascii.eqb e "u" then
              match rest1 with
              | String h1 (String h2 (String h3 (String h4 rest2))) =>
                  match hex4 h1 h2 h3 h4 with
                  | Some n =>
                      if (n <? 256)%nat
                      then push_char (ascii_of_nat n) (parse_string_body rest2)
                      else None
                  | None => None
                  end
              | _ => None
              end
            else
              match unescape e with
              | Some c' => push_char c' (parse_string_body rest1)
              | None => None
              end
        end
      else if (nat_of_ascii c <? 32)%nat then None
      else push_char c (parse_string_body rest)
  end.

Fixpoint drop_prefix (p s : string) : option string :=
  match p, s with
  | EmptyString, _ => Some s
  | String a p', String b s' => if Ascii.eqb a b then drop_prefix p' s' else None
  | String _ _, EmptyString => None
  end.

Definition starts_with (c : ascii) (s : string) : option string :=
  match s with
  | String d rest => if Ascii.eqb c d then Some rest else None
  | EmptyString => None
  end.

Fixpoint parse_value (fuel : nat) (s : string) {struct fuel}
  : option (json * string) :=
  match fuel with
  | O => None
  | S n =>
      match s with
      | EmptyString => None
      | String c rest =>
          if Ascii.eqb c "{" then
            match starts_with "}" (skip_ws rest) with
            | Some rest' => Some (JObj [], rest')
            | None => parse_members n (skip_ws rest) []
            end
          else if Ascii.eqb c "[" then
            match starts_with "]" (skip_ws rest) with
            | Some rest' => Some (JArr [], rest')
            | None => parse_elems n (skip_ws rest) []
            end
          else if Ascii.eqb c dquote then
            match parse_string_body rest with
            | Some (body, rest') => Some (JStr body, rest')
            | None => None
            end
          else
            match drop_prefix "null" s, drop_prefix "true" s, drop_prefix "false" s with
            | Some rest', _, _ => Some (JNull, rest')
            | _, Some rest', _ => Some (JBool true, rest')
            | _, _, Some rest' => Some (JBool false, rest')
            | None, None, None =>
                match parse_number s with
                | Some (x, rest') => Some (JNum x, rest')
                | None => None
                end
            end
      end
  end

with parse_elems (fuel : nat) (s : string) (acc : list json) {struct fuel}
  : option (json * string) :=
  match fuel with
  | O => None
  | S n =>
      match parse_value n s with
      | None => None
      | Some (v, rest) =>
          let rest := skip_ws rest in
          match starts_with "," rest, starts_with "]" rest with
          | Some rest', _ => parse_elems n (skip_ws rest') (acc ++ [v])
          | None, Some rest' => Some (JArr (acc ++ [v]), rest')
          | None, None => None
          end
      end
  end

with parse_members (fuel : nat) (s : string) (acc : list (string * json))
  {struct fuel} : option (json * string) :=
  match fuel with
  | O => None
  | S n =>
      match starts_with dquote s with
      | None => None
      | Some s1 =>
          match parse_string_body s1 with
          | None => None
          | Some (key, s2) =>
              match starts_with ":" (skip_ws s2) with
              | None => None
              | Some s3 =>
                  match parse_value n (skip_ws s3) with
                  | None => None
                  | Some (v, rest) =>
                      let rest := skip_ws rest in
                      match starts_with "," rest, starts_with "}" rest with
                      | Some rest', _ =>
                          parse_members n (skip_ws rest') (dict_set key v acc)
                      | None, Some rest' => Some (JObj (dict_set key v acc), rest')
                      | None, None => None
                      end
                  end
              end
          end
      end
  end.

Definition json_loads (s : string) : res json :=
  match parse_value (2 * String.length s + 2) (skip_ws s) with
  | None => Raise (JSONDecodeError "Expecting value")
  | Some (v, rest) =>
      match skip_ws rest with
      | EmptyString => Ok v
      | _ => Raise (JSONDecodeError "Extra data")
      end
  end.

(** ** [claude-headless/examples/streaming/stream-parser.py] *)

Module ClaudeStream.

Inductive EventType : Type :=
| INIT | TEXT | TOOL_USE | TOOL_RESULT | THINKING | RESULT | ERROR.

Record Event : Type := mkEvent {
  type : EventType;
  data : json;
  raw : json
}.

Record StreamStats : Type := mkStats {
  text_chunks : Z;
  tool_uses : Z;
  total_tokens : json;
  cost_usd : json;
  duration_ms : json;
  session_id : json;
  is_error : json
}.

(** [StreamStats()] with the defaults of the dataclass. *)
Definition new_stats : StreamStats :=
  {| text_chunks := 0; tool_uses := 0; total_tokens := JNum (NInt 0);
     cost_usd := JNum (NFloat 0); duration_ms := JNum (NInt 0);
     session_id := JStr ""; is_error := JBool false |}.

(** One invocation of a registered callback, with its arguments. *)
Inductive call : Type :=
| OnText (text : json)
| OnToolUse (name input : json)
| OnToolResult (name result : json)
| OnThinking (text : json)
| OnError (msg : json).

(** A [StreamParser]: its statistics, which callbacks are set, and the
    calls made to them so far, oldest first. *)
Record StreamParser : Type := mkParser {
  stats : StreamStats;
  on_text : bool;
  on_tool_use : bool;
  on_tool_result : bool;
  on_thinking : bool;
  on_error : bool;
  calls : list call
}.

(** [StreamParser()]: no callback set. *)
Definition new_parser : StreamParser :=
  {| stats := new_stats; on_text := false; on_tool_use := false;
     on_tool_result := false; on_thinking := false; on_error := false;
     calls := [] |}.

Definition set_stats (f : StreamStats -> StreamStats) : M StreamParser unit :=
  modify (fun p =>
    {| stats := f (stats p); on_text := on_text p;
       on_tool_use := on_tool_use p; on_tool_result := on_tool_result p;
       on_thinking := on_thinking p; on_error := on_error p;
       calls := calls p |}).

Definition fire (c : call) : M StreamParser unit :=
  modify (fun p =>
    {| stats := stats p; on_text := on_text p;
       on_tool_use := on_tool_use p; on_tool_result := on_tool_result p;
       on_thinking := on_thinking p; on_error := on_error p;
       calls := calls p ++ [c] |}).

(** [if self.on_x: self.on_x(...)]. *)
Definition fire_if (registered : StreamParser -> bool) (c : call)
  : M StreamParser unit :=
  let* p := get in when (registered p) (fire c).

(** The loop [for block in message.get("content", [])] of [parse_line],
    over the blocks still to visit; [None] when the loop runs out. *)
Fixpoint scan_blocks (data : json) (blocks : list json)
  : M StreamParser (option Event) :=
  match blocks with
  | [] => ret None
  | block :: rest =>
      let* block_type := lift (py_get block "type" (JStr "")) in
      if py_eq_str block_type "text" then
        let* text := lift (py_get block "text" (JStr "")) in
        if py_truthy text then
          set_stats (fun s =>
            {| text_chunks := text_chunks s + 1; tool_uses := tool_uses s;
               total_tokens := total_tokens s; cost_usd := cost_usd s;
               duration_ms := duration_ms s; session_id := session_id s;
               is_error := is_error s |});;
          fire_if on_text (OnText text);;
          ret (Some (mkEvent TEXT text data))
        else scan_blocks data rest
      else if py_eq_str block_type "tool_use" then
        let* tool_name := lift (py_get block "name" (JStr "unknown")) in
        let* tool_input := lift (py_get block "input" (JObj [])) in
        set_stats (fun s =>
          {| text_chunks := text_chunks s; tool_uses := tool_uses s + 1;
             total_tokens := total_tokens s; cost_usd := cost_usd s;
             duration_ms := duration_ms s; session_id := session_id s;
             is_error := is_error s |});;
        fire_if on_tool_use (OnToolUse tool_name tool_input);;
        ret (Some (mkEvent TOOL_USE
                     (JObj [("name", tool_name); ("input", tool_input)]) data))
      else if py_eq_str block_type "tool_result" then
        let* tool_name := lift (py_get block "name" (JStr "unknown")) in
        let* result := lift (py_get block "content" (JStr "")) in
        fire_if on_tool_result (OnToolResult tool_name result);;
        ret (Some (mkEvent TOOL_RESULT
                     (JObj [("name", tool_name); ("result", result)]) data))
      else if py_eq_str block_type "thinking" then
        let* thinking := lift (py_get block "thinking" (JStr "")) in
        let* p := get in
        when (py_truthy thinking && on_thinking p) (fire (OnThinking thinking));;
        ret (Some (mkEvent THINKING thinking data))
      else scan_blocks data rest
  end.

(** [parse_line] from [msg_type = data.get("type", "")] on. *)
Definition classify (data : json) : M StreamParser (option Event) :=
  let* msg_type := lift (py_get data "type" (JStr "")) in
  if py_eq_str msg_type "init" then
    let* sid := lift (py_get data "session_id" (JStr "")) in
    set_stats (fun s =>
      {| text_chunks := text_chunks s; tool_uses := tool_uses s;
         total_tokens := total_tokens s; cost_usd := cost_usd s;
         duration_ms := duration_ms s; session_id := sid;
         is_error := is_error s |});;
    ret (Some (mkEvent INIT data data))
  else if py_eq_str msg_type "assistant" then
    let* message := lift (py_get data "message" (JObj [])) in
    let* content := lift (py_get message "content" (JArr [])) in
    let* blocks := lift (py_iter content) in
    scan_blocks data blocks
  else if py_eq_str msg_type "result" then
    let* cost := lift (py_get data "total_cost_usd" (JNum (NInt 0))) in
    let* duration := lift (py_get data "duration_ms" (JNum (NInt 0))) in
    let* err := lift (py_get data "is_error" (JBool false)) in
    set_stats (fun s =>
      {| text_chunks := text_chunks s; tool_uses := tool_uses s;
         total_tokens := total_tokens s; cost_usd := cost;
         duration_ms := duration; session_id := session_id s;
         is_error := err |});;
    let* usage := lift (py_get data "usage" (JObj [])) in
    let* tin := lift (py_get usage "input_tokens" (JNum (NInt 0))) in
    let* tout := lift (py_get usage "output_tokens" (JNum (NInt 0))) in
    let* total := lift (py_add tin tout) in
    set_stats (fun s =>
      {| text_chunks := text_chunks s; tool_uses := tool_uses s;
         total_tokens := total; cost_usd := cost_usd s;
         duration_ms := duration_ms s; session_id := session_id s;
         is_error := is_error s |});;
    let* p := get in
    when (py_truthy (is_error (stats p)) && on_error p)
         (let* msg := lift (py_get data "result" (JStr "Unknown error")) in
          fire (OnError msg));;
    ret (Some (mkEvent RESULT data data))
  else ret None.

(** [StreamParser.parse_line], over the decoder it calls: [loads]
    stands for [json.loads].  Only a [JSONDecodeError] is caught. *)
Definition parse_line_with (loads : string -> res json) (line : string)
  : M StreamParser (option Event) :=
  let line := strip line in
  if String.eqb line "" then ret None
  else
    match loads line with
    | Raise (JSONDecodeError e) =>
        ret (Some (mkEvent ERROR (JStr ("JSON parse error: " ++ e)) (JObj [])))
    | Raise e => raise e
    | Ok data => classify data
    end.

(** [StreamParser.parse_line]. *)
Definition parse_line : string -> M StreamParser (option Event) :=
  parse_line_with json_loads.

(** [StreamParser.parse_stream], drained: the events it yields. *)
Fixpoint parse_stream (stream : list string) : M StreamParser (list Event) :=
  match stream with
  | [] => ret []
  | line :: rest =>
      let* event := parse_line line in
      let* events := parse_stream rest in
      ret (match event with Some ev => ev :: events | None => events end)
  end.

(** The quiet mode of [main]: the [data] of the TEXT events, joined. *)
Fixpoint collected_text (events : list Event) : list json :=
  match events with
  | [] => []
  | ev :: rest =>
      match type ev with
      | TEXT => data ev :: collected_text rest
      | _ => collected_text rest
      end
  end.


Section Display.
(** [str(x)] for a value that is not a [str]: the text Python prints
    for a number, a list, a dict, a truth value or [None]. *)
Variable py_str : json -> string.

(** A value inside an f-string. *)
Definition fmt (v : json) : string :=
  match v with
  | JStr s => s
  | _ => py_str v
  end.

(** [x[:50]] and [len(x)], the items of a string being its
    characters.  Numbers, truth values and [None] have neither; a
    dict has no slice (the exception is [TypeError], or [KeyError]
    from Python 3.12 on). *)
Definition py_slice50 (x : json) : res json :=
  match x with
  | JStr s => Ok (JStr (substring 0 50 s))
  | JArr xs => Ok (JArr (firstn 50 xs))
  | _ => Raise TypeError
  end.

Definition py_len (x : json) : res nat :=
  match x with
  | JStr s => Ok (String.length s)
  | JArr xs => Ok (length xs)
  | JObj kvs => Ok (length kvs)
  | _ => Raise TypeError
  end.

(** [name.startswith(prefix)]: only a [str] has it. *)
Definition py_startswith (x : json) (prefix : string) : res bool :=
  match x with
  | JStr s =>
      Ok (match drop_prefix prefix s with Some _ => true | None => false end)
  | _ => Raise AttributeError
  end.

Definition rbind {A B} (r : res A) (k : A -> res B) : res B :=
  match r with Ok a => k a | Raise e => Raise e end.

(** [format_tool_use]. *)
Definition format_tool_use (name input_data : json) : res string :=
  if py_eq_str name "Read" then
    rbind (py_get input_data "file_path" (JStr "?")) (fun v =>
    Ok ("[Reading: " ++ fmt v ++ "]")%string)
  else if py_eq_str name "Write" then
    rbind (py_get input_data "file_path" (JStr "?")) (fun v =>
    Ok ("[Writing: " ++ fmt v ++ "]")%string)
  else if py_eq_str name "Edit" then
    rbind (py_get input_data "file_path" (JStr "?")) (fun v =>
    Ok ("[Editing: " ++ fmt v ++ "]")%string)
  else if py_eq_str name "Bash" then
    rbind (py_get input_data "command" (JStr "")) (fun cmd =>
    rbind (py_slice50 cmd) (fun shown =>
    rbind (py_len cmd) (fun n =>
    Ok ("[Running: " ++ fmt shown
        ++ (if (50 <? n)%nat then "..." else "") ++ "]")%string)))
  else if py_eq_str name "Glob" then
    rbind (py_get input_data "pattern" (JStr "?")) (fun v =>
    Ok ("[Searching: " ++ fmt v ++ "]")%string)
  else if py_eq_str name "Grep" then
    rbind (py_get input_data "pattern" (JStr "?")) (fun v =>
    Ok ("[Grep: " ++ fmt v ++ "]")%string)
  else
    rbind (py_startswith name "mcp__") (fun is_mcp =>
    if is_mcp then Ok ("[MCP: " ++ fmt name ++ "]")%string
    else Ok ("[Tool: " ++ fmt name ++ "]")%string).

End Display.

End ClaudeStream.

(** ** [codex-headless/examples/streaming/stream-parser.py] *)

Module CodexStream.

Inductive EventType : Type :=
| THREAD_STARTED | ITEM_COMPLETED | TURN_COMPLETED | TURN_FAILED | ERROR.

Record Event : Type := mkEvent {
  type : EventType;
  data : json;
  raw : json
}.

Record Stats : Type := mkStats {
  text_chunks : Z;
  tool_uses : Z;
  total_tokens : json;
  duration_ms : json;
  thread_id : json;
  is_error : bool
}.

Definition new_stats : Stats :=
  {| text_chunks := 0; tool_uses := 0; total_tokens := JNum (NInt 0);
     duration_ms := JNum (NInt 0); thread_id := JStr ""; is_error := false |}.

(** A call to a registered callback.  [on_tool] and [on_error] receive
    [str(x)]; the trace records [x]. *)
Inductive call : Type :=
| OnText (text : json)
| OnTool (name : json)
| OnError (msg : json).

Record StreamParser : Type := mkParser {
  stats : Stats;
  on_text : bool;
  on_tool : bool;
  on_error : bool;
  calls : list call
}.

Definition new_parser : StreamParser :=
  {| stats := new_stats; on_text := false; on_tool := false;
     on_error := false; calls := [] |}.

Definition set_stats (f : Stats -> Stats) : M StreamParser unit :=
  modify (fun p =>
    {| stats := f (stats p); on_text := on_text p; on_tool := on_tool p;
       on_error := on_error p; calls := calls p |}).

Definition fire (c : call) : M StreamParser unit :=
  modify (fun p =>
    {| stats := stats p; on_text := on_text p; on_tool := on_tool p;
       on_error := on_error p; calls := calls p ++ [c] |}).

Definition fire_if (registered : StreamParser -> bool) (c : call)
  : M StreamParser unit :=
  let* p := get in when (registered p) (fire c).

(** [a or b]. *)
Definition py_or (a b : json) : json := if py_truthy a then a else b.

(** [parse_line] from [msg_type = data.get("type", "")] on. *)
Definition classify (data : json) : M StreamParser (option Event) :=
  let* msg_type := lift (py_get data "type" (JStr "")) in
  if py_eq_str msg_type "thread.started" then
    let* tid := lift (py_get data "thread_id" (JStr "")) in
    set_stats (fun s =>
      {| text_chunks := text_chunks s; tool_uses := tool_uses s;
         total_tokens := total_tokens s; duration_ms := duration_ms s;
         thread_id := tid; is_error := is_error s |});;
    ret (Some (mkEvent THREAD_STARTED data data))
  else if py_eq_str msg_type "item.completed" then
    let* item := lift (py_get data "item" (JObj [])) in
    let* item_type := lift (py_get item "type" JNull) in
    (if py_eq_str item_type "agent_message" then
       let* text := lift (py_get item "text" (JStr "")) in
       when (py_truthy text)
         (set_stats (fun s =>
            {| text_chunks := text_chunks s + 1; tool_uses := tool_uses s;
               total_tokens := total_tokens s; duration_ms := duration_ms s;
               thread_id := thread_id s; is_error := is_error s |});;
          fire_if on_text (OnText text))
     else if py_eq_str item_type "tool_call"
             || py_eq_str item_type "command_execution" then
       let* tool := lift (py_get item "tool" JNull) in
       let* command := lift (py_get item "command" JNull) in
       set_stats (fun s =>
         {| text_chunks := text_chunks s; tool_uses := tool_uses s + 1;
            total_tokens := total_tokens s; duration_ms := duration_ms s;
            thread_id := thread_id s; is_error := is_error s |});;
       fire_if on_tool (OnTool (py_or (py_or tool command) (JStr "tool")))
     else ret tt);;
    ret (Some (mkEvent ITEM_COMPLETED data data))
  else if py_eq_str msg_type "turn.completed"
          || py_eq_str msg_type "turn.failed" then
    let* duration := lift (py_get data "duration_ms" (JNum (NInt 0))) in
    set_stats (fun s =>
      {| text_chunks := text_chunks s; tool_uses := tool_uses s;
         total_tokens := total_tokens s; duration_ms := duration;
         thread_id := thread_id s; is_error := is_error s |});;
    let* usage := lift (py_get data "usage" (JObj [])) in
    let* tin := lift (py_get usage "input_tokens" (JNum (NInt 0))) in
    let* tout := lift (py_get usage "output_tokens" (JNum (NInt 0))) in
    let* total := lift (py_add tin tout) in
    let failed := py_eq_str msg_type "turn.failed" in
    set_stats (fun s =>
      {| text_chunks := text_chunks s; tool_uses := tool_uses s;
         total_tokens := total; duration_ms := duration_ms s;
         thread_id := thread_id s; is_error := failed |});;
    let* p := get in
    when (failed && on_error p)
         (let* err := lift (py_get data "error" (JObj [])) in
          let* msg := lift (py_get err "message" JNull) in
          fire (OnError (py_or msg (JStr "Unknown error"))));;
    ret (Some (mkEvent (if failed then TURN_FAILED else TURN_COMPLETED)
                       data data))
  else if py_eq_str msg_type "error" then
    let* p := get in
    when (on_error p)
         (let* msg := lift (py_get data "message" JNull) in
          fire (OnError (py_or msg (JStr "Error"))));;
    ret (Some (mkEvent ERROR data data))
  else ret None.

(** [StreamParser.parse_line], over the decoder it calls: [loads]
    stands for [json.loads].  Only a [JSONDecodeError] is caught. *)
Definition parse_line_with (loads : string -> res json) (line : string)
  : M StreamParser (option Event) :=
  let line := strip line in
  if String.eqb line "" then ret None
  else
    match loads line with
    | Raise (JSONDecodeError _) => ret None
    | Raise e => raise e
    | Ok data => classify data
    end.

(** [StreamParser.parse_line]. *)
Definition parse_line : string -> M StreamParser (option Event) :=
  parse_line_with json_loads.


(** [StreamParser.parse_stream], drained: the events it yields. *)
Fixpoint parse_stream (stream : list string) : M StreamParser (list Event) :=
  match stream with
  | [] => ret []
  | line :: rest =>
      let* event := parse_line line in
      let* events := parse_stream rest in
      ret (match event with Some ev => ev :: events | None => events end)
  end.

End CodexStream.

(** ** Subprocesses

    The external CLI is an oracle: the [n]-th launch with arguments [argv]
    either fails to start or runs to completion with an exit code, the
    lines it wrote on standard output and its error text. *)

Record Completed : Type := mkCompleted {
  returncode : Z;
  stdout : list string;
  stderr : string
}.

Definition environment : Type := nat -> list string -> res Completed.

(** [proc.stdout] read as one text. *)
Definition stdout_text (p : Completed) : string := join (stdout p).

(** The argument list handed to [subprocess]: every item must be a [str]. *)
Fixpoint argv_strings (cmd : list json) : res (list string) :=
  match cmd with
  | [] => Ok []
  | JStr s :: rest =>
      match argv_strings rest with
      | Ok l => Ok (s :: l)
      | Raise e => Raise e
      end
  | _ :: _ => Raise TypeError
  end.

(** [sep.join(items)] for a list of [str]. *)
Fixpoint join_with (sep : string) (items : list string) : string :=
  match items with
  | [] => ""
  | [x] => x
  | x :: rest => (x ++ sep ++ join_with sep rest)%string
  end.

(** ** [claude-headless/templates/python-wrapper.py] *)

Module Wrapper.

Record Result : Type := mkResult {
  text : json;
  cost_usd : json;
  duration_ms : json;
  session_id : json;
  is_error : json
}.

(** A [ClaudeWrapper] together with the file at [session_file]
    ([None]: no such file) and the launches made so far. *)
Record ClaudeWrapper : Type := mkWrapper {
  session_file : option string;
  permission_mode : string;
  allowed_tools : option (list string);
  _session_id : json;
  launches : list (list string)
}.

Definition set_session_id (v : json) : M ClaudeWrapper unit :=
  modify (fun w =>
    {| session_file := session_file w; permission_mode := permission_mode w;
       allowed_tools := allowed_tools w; _session_id := v;
       launches := launches w |}).

Definition set_session_file (f : option string) : M ClaudeWrapper unit :=
  modify (fun w =>
    {| session_file := f; permission_mode := permission_mode w;
       allowed_tools := allowed_tools w; _session_id := _session_id w;
       launches := launches w |}).

Definition log_launch (argv : list string) : M ClaudeWrapper unit :=
  modify (fun w =>
    {| session_file := session_file w; permission_mode := permission_mode w;
       allowed_tools := allowed_tools w; _session_id := _session_id w;
       launches := launches w ++ [argv] |}).

(** [path.write_text(x)]. *)
Definition write_text (x : json) : M ClaudeWrapper unit :=
  match x with
  | JStr s => set_session_file (Some s)
  | _ => raise TypeError
  end.

Section WithCli.
Variable cli : environment.

(** [subprocess.run(cmd, capture_output=True, text=True)]. *)
Definition subprocess_run (cmd : list json) : M ClaudeWrapper Completed :=
  let* argv := lift (argv_strings cmd) in
  let* w := get in
  log_launch argv;;
  lift (cli (length (launches w)) argv).

Definition _execute (prompt : string) : M ClaudeWrapper Result :=
  let* w := get in
  let cmd :=
    [JStr "claude"; JStr "-p"; JStr "--output-format"; JStr "json";
     JStr "--permission-mode"; JStr (permission_mode w)]
    ++ (if py_truthy (_session_id w)
        then [JStr "--resume"; _session_id w] else [])
    ++ (match allowed_tools w with
        | Some (t :: ts) =>
            [JStr "--allowedTools"; JStr (join_with "," (t :: ts))]
        | _ => []
        end)
    ++ [JStr prompt] in
  let* proc := subprocess_run cmd in
  let* data := lift (json_loads (stdout_text proc)) in
  let* r_text := lift (py_get data "result" (JStr "")) in
  let* r_cost := lift (py_get data "total_cost_usd" (JNum (NInt 0))) in
  let* r_duration := lift (py_get data "duration_ms" (JNum (NInt 0))) in
  let* r_sid := lift (py_get data "session_id" (JStr "")) in
  let* r_err := lift (py_get data "is_error" (JBool false)) in
  ret (mkResult r_text r_cost r_duration r_sid r_err).

(** The property [session_id]. *)
Definition get_session_id : M ClaudeWrapper json :=
  let* w := get in
  if py_truthy (_session_id w) then ret (_session_id w)
  else
    (match session_file w with
     | Some content => set_session_id (JStr (strip content))
     | None =>
         let* result := _execute "Initialize" in
         set_session_id (session_id result);;
         write_text (session_id result)
     end);;
    let* w' := get in
    ret (_session_id w').

Definition run (prompt : string) : M ClaudeWrapper Result :=
  get_session_id;;
  _execute prompt.

End WithCli.

Definition reset : M ClaudeWrapper unit :=
  let* w := get in
  when (match session_file w with Some _ => true | None => false end)
       (set_session_file None);;
  set_session_id JNull.

End Wrapper.

(** ** [claude-headless/examples/basic/agent.py] *)

Module Agent.

Record AgentResult : Type := mkAgentResult {
  text : json;
  cost_usd : json;
  duration_ms : json;
  session_id : json;
  is_error : json;
  num_turns : json;
  raw_output : json
}.

Record StreamEvent : Type := mkStreamEvent {
  type : json;
  data : json
}.

(** A [ClaudeAgent] together with the file at [session_file], the
    launches made so far and the texts passed to [on_text]. *)
Record ClaudeAgent : Type := mkAgent {
  session_file : option string;
  mcp_config : option string;
  permission_mode : string;
  allowed_tools : option (list string);
  disallowed_tools : option (list string);
  system_prompt : option string;
  max_turns : option Z;
  _session_id : json;
  launches : list (list string);
  on_text_calls : list json
}.

Definition set_session_id (v : json) : M ClaudeAgent unit :=
  modify (fun a =>
    {| session_file := session_file a; mcp_config := mcp_config a;
       permission_mode := permission_mode a; allowed_tools := allowed_tools a;
       disallowed_tools := disallowed_tools a; system_prompt := system_prompt a;
       max_turns := max_turns a; _session_id := v; launches := launches a;
       on_text_calls := on_text_calls a |}).

Definition set_session_file (f : option string) : M ClaudeAgent unit :=
  modify (fun a =>
    {| session_file := f; mcp_config := mcp_config a;
       permission_mode := permission_mode a; allowed_tools := allowed_tools a;
       disallowed_tools := disallowed_tools a; system_prompt := system_prompt a;
       max_turns := max_turns a; _session_id := _session_id a;
       launches := launches a; on_text_calls := on_text_calls a |}).

Definition log_launch (argv : list string) : M ClaudeAgent unit :=
  modify (fun a =>
    {| session_file := session_file a; mcp_config := mcp_config a;
       permission_mode := permission_mode a; allowed_tools := allowed_tools a;
       disallowed_tools := disallowed_tools a; system_prompt := system_prompt a;
       max_turns := max_turns a; _session_id := _session_id a;
       launches := launches a ++ [argv]; on_text_calls := on_text_calls a |}).

Definition call_on_text (t : json) : M ClaudeAgent unit :=
  modify (fun a =>
    {| session_file := session_file a; mcp_config := mcp_config a;
       permission_mode := permission_mode a; allowed_tools := allowed_tools a;
       disallowed_tools := disallowed_tools a; system_prompt := system_prompt a;
       max_turns := max_turns a; _session_id := _session_id a;
       launches := launches a; on_text_calls := on_text_calls a ++ [t] |}).

Definition write_text (x : json) : M ClaudeAgent unit :=
  match x with
  | JStr s => set_session_file (Some s)
  | _ => raise TypeError
  end.

(** [cmd.extend([flag, value])] under [if value:], for an optional
    path (true whenever it is set), [str], list and [int]. *)
Definition flag_path (flag : string) (value : option string) : list json :=
  match value with
  | Some v => [JStr flag; JStr v]
  | None => []
  end.

Definition flag_str (flag : string) (value : option string) : list json :=
  match value with
  | Some v => if String.eqb v "" then [] else [JStr flag; JStr v]
  | None => []
  end.

Definition flag_int (flag : string) (value : option Z) : list json :=
  match value with
  | Some n => if (n =? 0)%Z then [] else [JStr flag; JStr (str_of_Z n)]
  | None => []
  end.

Definition flag_list (flag : string) (value : option (list string))
  : list json :=
  match value with
  | Some (t :: ts) => [JStr flag; JStr (join_with "," (t :: ts))]
  | _ => []
  end.

Section WithCli.
Variable cli : environment.

(** Launch a process and wait for it: [subprocess.run], or [Popen]
    drained to the end. *)
Definition launch (cmd : list json) : M ClaudeAgent Completed :=
  let* argv := lift (argv_strings cmd) in
  let* a := get in
  log_launch argv;;
  lift (cli (length (launches a)) argv).

(** [_build_command] and [_run_once], with the property [session_id]
    they read passed in. *)
Definition _build_command_with (sid : M ClaudeAgent json)
  (prompt : string) (stream : bool) : M ClaudeAgent (list json) :=
  let* a := get in
  let* id := sid in
  ret ([JStr "claude"; JStr "-p"; JStr "--output-format";
        JStr (if stream then "stream-json" else "json");
        JStr "--permission-mode"; JStr (permission_mode a);
        JStr "--resume"; id]
       ++ flag_path "--mcp-config" (mcp_config a)
       ++ flag_list "--allowedTools" (allowed_tools a)
       ++ flag_list "--disallowedTools" (disallowed_tools a)
       ++ flag_str "--append-system-prompt" (system_prompt a)
       ++ flag_int "--max-turns" (max_turns a)
       ++ [JStr prompt]).

Definition _run_once_with (sid : M ClaudeAgent json) (prompt : string)
  : M ClaudeAgent AgentResult :=
  let* cmd := _build_command_with sid prompt false in
  let* result := launch cmd in
  if negb (returncode result =? 0)%Z then
    raise (RuntimeError ("Claude CLI failed: " ++ stderr result))
  else
    let* data := lift (json_loads (stdout_text result)) in
    let* r_text := lift (py_get data "result" (JStr "")) in
    let* r_cost := lift (py_get data "total_cost_usd" (JNum (NInt 0))) in
    let* r_duration := lift (py_get data "duration_ms" (JNum (NInt 0))) in
    let* r_sid := lift (py_get data "session_id" (JStr "")) in
    let* r_err := lift (py_get data "is_error" (JBool false)) in
    let* r_turns := lift (py_get data "num_turns" (JNum (NInt 0))) in
    ret (mkAgentResult r_text r_cost r_duration r_sid r_err r_turns data).

(** The property [session_id].  It calls [_run_once], which calls
    [_build_command], which reads the property again: [depth] is the
    number of such nested calls the interpreter's recursion limit
    still allows. *)
Fixpoint get_session_id (depth : nat) : M ClaudeAgent json :=
  let* a := get in
  if py_truthy (_session_id a) then ret (_session_id a)
  else
    (match session_file a with
     | Some content => set_session_id (JStr (strip content))
     | None =>
         let* result :=
           match depth with
           | O => raise RecursionError
           | S d =>
               _run_once_with (get_session_id d) "Initialize agent session"
           end in
         set_session_id (session_id result);;
         write_text (session_id result)
     end);;
    let* a' := get in
    ret (_session_id a').

Definition _build_command (depth : nat) :=
  _build_command_with (get_session_id depth).

Definition _run_once (depth : nat) := _run_once_with (get_session_id depth).

Definition reset_session (depth : nat) : M ClaudeAgent json :=
  let* a := get in
  when (match session_file a with Some _ => true | None => false end)
       (set_session_file None);;
  set_session_id JNull;;
  get_session_id depth.

(** The loop [for block in message.get("content", [])] of [run]. *)
Fixpoint text_blocks (blocks : list json) (full_text : list json)
  : M ClaudeAgent (list json) :=
  match blocks with
  | [] => ret full_text
  | block :: rest =>
      let* block_type := lift (py_get block "type" JNull) in
      if py_eq_str block_type "text" then
        let* text := lift (py_index block "text") in
        call_on_text text;;
        text_blocks rest (full_text ++ [text])
      else text_blocks rest full_text
  end.

(** The loop [for event in self.stream(prompt)] of [run], fused with the
    loop [for line in proc.stdout] of the generator [stream] that feeds
    it: each line is decoded, yielded and handled before the next. *)
Fixpoint consume (lines : list string) (full_text : list json)
  (final_result : option json) : M ClaudeAgent (list json * option json) :=
  match lines with
  | [] => ret (full_text, final_result)
  | line :: rest =>
      let line := strip line in
      if String.eqb line "" then consume rest full_text final_result
      else
        let* data := lift (json_loads line) in
        let* etype := lift (py_get data "type" (JStr "unknown")) in
        if py_eq_str etype "assistant" then
          let* message := lift (py_get data "message" (JObj [])) in
          let* content := lift (py_get message "content" (JArr [])) in
          let* blocks := lift (py_iter content) in
          let* full_text' := text_blocks blocks full_text in
          consume rest full_text' final_result
        else if py_eq_str etype "result" then
          consume rest full_text (Some data)
        else consume rest full_text final_result
  end.

(** [run(prompt, on_text)]; [on_text] tells whether a callback is given. *)
Definition run (depth : nat) (prompt : string) (on_text : bool)
  : M ClaudeAgent AgentResult :=
  if negb on_text then _run_once depth prompt
  else
    let* cmd := _build_command depth prompt true in
    let* proc := launch cmd in
    let* seen := consume (stdout proc) [] None in
    if negb (returncode proc =? 0)%Z then
      raise (RuntimeError ("Claude CLI failed with code "
                           ++ str_of_Z (returncode proc)))
    else
      match snd seen with
      | None => raise (RuntimeError "No result event received")
      | Some final_result =>
          let* r_text := lift (py_join (fst seen)) in
          let* r_cost :=
            lift (py_get final_result "total_cost_usd" (JNum (NInt 0))) in
          let* r_duration :=
            lift (py_get final_result "duration_ms" (JNum (NInt 0))) in
          let* current := get_session_id depth in
          let* r_sid := lift (py_get final_result "session_id" current) in
          let* r_err := lift (py_get final_result "is_error" (JBool false)) in
          let* r_turns := lift (py_get final_result "num_turns" (JNum (NInt 0))) in
          ret (mkAgentResult (JStr r_text) r_cost r_duration r_sid r_err
                             r_turns final_result)
      end.

End WithCli.

End Agent.

(** ** [claude-headless/examples/multi-turn/stateful-agent.py] *)

Module Stateful.

(** The dataclasses.  Python does not check the declared type of a
    field: a [Turn] or a [Session] holds whatever it is given, and
    what the program takes from the CLI's reply or from a session file
    is any JSON value.  Only the name of a session, which also names
    its file, is kept a [str] here. *)
Record Turn : Type := mkTurn {
  timestamp : json;
  prompt : json;
  response : json;
  cost_usd : json;
  duration_ms : json
}.

Record Session : Type := mkSession {
  session_id : json;
  name : string;
  created_at : json;
  turns : list Turn;
  total_cost_usd : json;
  parent_session_id : json
}.

(** [Session(session_id=.., name=.., created_at=.., parent_session_id=..)]:
    the other fields take their defaults, and [None] is the JSON null. *)
Definition new_session (sid : json) (nm created : string) (parent : json)
  : Session :=
  {| session_id := sid; name := nm; created_at := JStr created; turns := [];
     total_cost_usd := JNum (NFloat 0); parent_session_id := parent |}.

(** [x += y]: a list is extended by the items of any iterable; the
    other values have no addition in place and [x + y] is taken. *)
Definition py_iadd (x y : json) : res json :=
  match x with
  | JArr xs =>
      match py_iter y with
      | Ok ys => Ok (JArr (xs ++ ys))
      | Raise e => Raise e
      end
  | _ => py_add x y
  end.

Definition append_turn (s : Session) (turn : Turn) : Session :=
  {| session_id := session_id s; name := name s; created_at := created_at s;
     turns := turns s ++ [turn]; total_cost_usd := total_cost_usd s;
     parent_session_id := parent_session_id s |}.

Definition set_total (s : Session) (total : json) : Session :=
  {| session_id := session_id s; name := name s; created_at := created_at s;
     turns := turns s; total_cost_usd := total;
     parent_session_id := parent_session_id s |}.

(** [Session.add_turn]: the turn is appended, and then its cost is
    added to the total; when the addition raises the turn stays. *)
Definition add_turn (turn : Turn) : M Session unit :=
  modify (fun s => append_turn s turn);;
  let* s := get in
  let* total := lift (py_iadd (total_cost_usd s) (cost_usd turn)) in
  modify (fun s => set_total s total).

(** [asdict] on a [Turn] and on a [Session]. *)
Definition turn_to_dict (t : Turn) : json :=
  JObj [("timestamp", timestamp t); ("prompt", prompt t);
        ("response", response t); ("cost_usd", cost_usd t);
        ("duration_ms", duration_ms t)].

Definition to_dict (s : Session) : json :=
  JObj [("session_id", session_id s); ("name", JStr (name s));
        ("created_at", created_at s);
        ("turns", JArr (map turn_to_dict (turns s)));
        ("total_cost_usd", total_cost_usd s);
        ("parent_session_id", parent_session_id s)].

(** The name of a session is kept a [str]: a record that holds another
    value there, which Python would store as it is, is reported as a
    [TypeError]. *)
Definition expect_str (v : json) : res string :=
  match v with JStr s => Ok s | _ => Raise TypeError end.

(** Keyword arguments [**d]: every key must name a parameter, and a
    parameter without default must be given. *)
Definition known_keys (allowed : list string) (kvs : list (string * json))
  : bool :=
  forallb (fun kv => existsb (String.eqb (fst kv)) allowed) kvs.

Definition required (k : string) (kvs : list (string * json)) : res json :=
  match dict_get k kvs with Some v => Ok v | None => Raise TypeError end.

Definition rbind {A B} (r : res A) (k : A -> res B) : res B :=
  match r with Ok a => k a | Raise e => Raise e end.

(** [Turn] called with the items of the dict [t] as keyword arguments. *)
Definition turn_from_dict (t : json) : res Turn :=
  match t with
  | JObj kvs =>
      if known_keys ["timestamp"; "prompt"; "response"; "cost_usd"; "duration_ms"] kvs
      then
        rbind (required "timestamp" kvs) (fun ts =>
        rbind (required "prompt" kvs) (fun pr =>
        rbind (required "response" kvs) (fun rs =>
        rbind (required "cost_usd" kvs) (fun c =>
        rbind (required "duration_ms" kvs) (fun d =>
        Ok (mkTurn ts pr rs c d))))))
      else Raise TypeError
  | _ => Raise TypeError
  end.

Fixpoint turns_from_list (ts : list json) : res (list Turn) :=
  match ts with
  | [] => Ok []
  | t :: rest =>
      rbind (turn_from_dict t) (fun t' =>
      rbind (turns_from_list rest) (fun rest' => Ok (t' :: rest')))
  end.

(** [d.pop(k)] on the association list of a dict. *)
Fixpoint dict_remove (k : string) (kvs : list (string * json))
  : list (string * json) :=
  match kvs with
  | [] => []
  | (k', v) :: rest =>
      if String.eqb k k' then rest else (k', v) :: dict_remove k rest
  end.

(** [Session.from_dict]. *)
Definition from_dict (data : json) : res Session :=
  match data with
  | JObj kvs =>
      let popped := dict_get_or "turns" kvs (JArr []) in
      let kvs := dict_remove "turns" kvs in
      rbind (py_iter popped) (fun items =>
      rbind (turns_from_list items) (fun ts =>
      if known_keys ["session_id"; "name"; "created_at"; "total_cost_usd";
                     "parent_session_id"] kvs
      then
        rbind (required "session_id" kvs) (fun sid =>
        rbind (rbind (required "name" kvs) expect_str) (fun nm =>
        rbind (required "created_at" kvs) (fun cr =>
        Ok (mkSession sid nm cr ts
                      (dict_get_or "total_cost_usd" kvs (JNum (NFloat 0)))
                      (dict_get_or "parent_session_id" kvs JNull)))))
      else Raise TypeError))
  | JArr _ => Raise TypeError
  | _ => Raise AttributeError
  end.

(** A [StatefulAgent] and its surroundings: the JSON documents held by
    the files of [storage_dir] (by file name; the text of a file is
    identified with the document [json.dump] writes and [json.load] reads
    back), the [Session] objects alive (by reference), the reference held
    by [_current_session], and the launches made so far. *)
Record StatefulAgent : Type := mkStateful {
  storage : gmap string json;
  heap : gmap nat Session;
  _current_session : option nat;
  launches : list (list string)
}.

Definition _session_path (nm : string) : string := (nm ++ ".json")%string.

Definition write_file (path : string) (doc : json) : M StatefulAgent unit :=
  modify (fun a =>
    {| storage := <[path := doc]> (storage a); heap := heap a;
       _current_session := _current_session a; launches := launches a |}).

Definition set_current (r : option nat) : M StatefulAgent unit :=
  modify (fun a =>
    {| storage := storage a; heap := heap a; _current_session := r;
       launches := launches a |}).

Definition log_launch (argv : list string) : M StatefulAgent unit :=
  modify (fun a =>
    {| storage := storage a; heap := heap a;
       _current_session := _current_session a;
       launches := launches a ++ [argv] |}).

Definition store_object (r : nat) (s : Session) : M StatefulAgent unit :=
  modify (fun a =>
    {| storage := storage a; heap := <[r := s]> (heap a);
       _current_session := _current_session a; launches := launches a |}).

(** A new object: its reference is not in use. *)
Definition allocate (s : Session) : M StatefulAgent nat :=
  let* a := get in
  let r := fresh (dom (heap a)) in
  store_object r s;;
  ret r.

(** Read the object behind a reference.  A reference held by the program
    always has its object; the last case does not arise. *)
Definition deref (r : nat) : M StatefulAgent Session :=
  let* a := get in
  match heap a !! r with
  | Some s => ret s
  | None => raise (RuntimeError "dangling reference")
  end.

(** [session.add_turn(turn)] on the object behind [r]: what the call
    has done to the object stays when it raises. *)
Definition add_turn_at (r : nat) (turn : Turn) : M StatefulAgent unit :=
  let* s := deref r in
  let out := add_turn turn s in
  store_object r (fst out);;
  lift (snd out).

Definition _save_session (r : nat) : M StatefulAgent unit :=
  let* s := deref r in
  write_file (_session_path (name s)) (to_dict s).

(** [_load_session]: a new object, or [None] when there is no file. *)
Definition _load_session (nm : string) : M StatefulAgent (option nat) :=
  let* a := get in
  match storage a !! _session_path nm with
  | Some doc =>
      let* s := lift (from_dict doc) in
      let* r := allocate s in
      ret (Some r)
  | None => ret None
  end.

(** [session_name or default]. *)
Definition name_or_default (session_name : option string) : string :=
  match session_name with
  | Some nm => if String.eqb nm "" then "default" else nm
  | None => "default"
  end.

Section WithCli.
Variable cli : environment.

Definition subprocess_run (cmd : list json) : M StatefulAgent Completed :=
  let* argv := lift (argv_strings cmd) in
  let* a := get in
  log_launch argv;;
  lift (cli (length (launches a)) argv).

(** [create_session]; [now1] and [now2] are the two readings of the
    clock.  The result is the reference to the new session. *)
Definition create_session (nm initial_prompt now1 now2 : string)
  : M StatefulAgent nat :=
  let* result :=
    subprocess_run
      [JStr "claude"; JStr "-p"; JStr initial_prompt;
       JStr "--output-format"; JStr "json"] in
  if negb (returncode result =? 0)%Z then
    raise (RuntimeError ("Failed to create session: " ++ stderr result))
  else
    let* data := lift (json_loads (stdout_text result)) in
    let* sid := lift (py_index data "session_id") in
    let* session := allocate (new_session sid nm now1 JNull) in
    let* rs := lift (py_get data "result" (JStr "")) in
    let* c := lift (py_get data "total_cost_usd" (JNum (NInt 0))) in
    let* d := lift (py_get data "duration_ms" (JNum (NInt 0))) in
    add_turn_at session (mkTurn (JStr now2) (JStr initial_prompt) rs c d);;
    _save_session session;;
    set_current (Some session);;
    ret session.

(** [load_or_create_session]: a [Session] object is always true. *)
Definition load_or_create_session (nm now1 now2 : string)
  : M StatefulAgent nat :=
  let* session := _load_session nm in
  match session with
  | Some r => set_current (Some r);; ret r
  | None => create_session nm "Initialize session" now1 now2
  end.

(** [run] from [session = self._current_session] on; [now] is the
    reading of the clock.  A current session is set by then: the
    first case does not arise. *)
Definition take_turn (prompt_text permission_mode now : string)
  : M StatefulAgent Turn :=
  let* a := get in
  match _current_session a with
  | None => raise AttributeError
  | Some r =>
      let* session := deref r in
      let* result :=
        subprocess_run
          [JStr "claude"; JStr "-p"; JStr "--resume";
           session_id session; JStr "--output-format"; JStr "json";
           JStr "--permission-mode"; JStr permission_mode;
           JStr prompt_text] in
      if negb (returncode result =? 0)%Z then
        raise (RuntimeError ("Claude failed: " ++ stderr result))
      else
        let* data := lift (json_loads (stdout_text result)) in
        let* rs := lift (py_get data "result" (JStr "")) in
        let* c := lift (py_get data "total_cost_usd" (JNum (NInt 0))) in
        let* d := lift (py_get data "duration_ms" (JNum (NInt 0))) in
        let turn := mkTurn (JStr now) (JStr prompt_text) rs c d in
        add_turn_at r turn;;
        _save_session r;;
        ret turn
  end.

(** [run]; [now1] and [now2] are the readings of the clock a new
    session takes, [now] the one of the turn. *)
Definition run (prompt_text : string) (session_name : option string)
  (permission_mode now1 now2 now : string) : M StatefulAgent Turn :=
  let nm := name_or_default session_name in
  let* a := get in
  let* stale :=
    match _current_session a with
    | None => ret true
    | Some r => let* s := deref r in ret (negb (String.eqb (name s) nm))
    end in
  when stale
    (let* r := load_or_create_session nm now1 now2 in
     set_current (Some r));;
  take_turn prompt_text permission_mode now.

(** [fork_session]; [now1] and [now2] are the two readings of the
    clock.  The result is the reference to the new session. *)
Definition fork_session (new_name prompt_text now1 now2 : string)
  : M StatefulAgent nat :=
  let* a := get in
  match _current_session a with
  | None => raise (RuntimeError "No current session to fork")
  | Some parent_ref =>
      let* parent := deref parent_ref in
      let* result :=
        subprocess_run
          [JStr "claude"; JStr "-p"; JStr "--resume";
           session_id parent; JStr "--fork-session";
           JStr "--output-format"; JStr "json"; JStr prompt_text] in
      if negb (returncode result =? 0)%Z then
        raise (RuntimeError ("Failed to fork: " ++ stderr result))
      else
        let* data := lift (json_loads (stdout_text result)) in
        let* sid := lift (py_index data "session_id") in
        let* parent' := deref parent_ref in
        let* forked :=
          allocate (new_session sid new_name now1 (session_id parent')) in
        let* parent'' := deref parent_ref in
        let* rs := lift (py_get data "result" (JStr "")) in
        let* c := lift (py_get data "total_cost_usd" (JNum (NInt 0))) in
        let* d := lift (py_get data "duration_ms" (JNum (NInt 0))) in
        add_turn_at forked
          (mkTurn (JStr now2)
                  (JStr ("[FORK from " ++ name parent'' ++ "] "
                         ++ prompt_text))
                  rs c d);;
        _save_session forked;;
        set_current (Some forked);;
        ret forked
  end.

End WithCli.

(** [get_history]. *)
Definition get_history (session_name : option string)
  : M StatefulAgent (list Turn) :=
  let* session := _load_session (name_or_default session_name) in
  match session with
  | Some r => let* s := deref r in ret (turns s)
  | None => ret []
  end.

(** [get_stats]. *)
Definition get_stats (session_name : option string) : M StatefulAgent json :=
  let* session := _load_session (name_or_default session_name) in
  match session with
  | None => ret (JObj [("error", JStr "Session not found")])
  | Some r =>
      let* s := deref r in
      ret (JObj [("name", JStr (name s));
                 ("session_id", session_id s);
                 ("created_at", created_at s);
                 ("turn_count", JNum (NInt (Z.of_nat (length (turns s)))));
                 ("total_cost_usd", total_cost_usd s);
                 ("parent", parent_session_id s)])
  end.

End Stateful.

(** ** [claude-headless/examples/production/agent-service.py] *)

Module Service.

Record Config : Type := mkConfig {
  mcp_config : string;
  permission_mode : string;
  max_turns : Z;
  max_retries : Z;
  budget_usd : option Q
}.

Inductive TaskStatus : Type :=
| PENDING | RUNNING | SUCCESS | FAILED | RETRYING.

Record TaskResult : Type := mkTaskResult {
  task_id : string;
  prompt : string;
  status : TaskStatus;
  output : string;
  cost_usd : json;
  duration_ms : json;
  attempts : Z;
  error : json;
  output_file : option string
}.

Record ServiceStats : Type := mkServiceStats {
  tasks_completed : Z;
  tasks_failed : Z;
  total_cost_usd : json;
  total_duration_ms : json
}.

Definition new_stats : ServiceStats :=
  {| tasks_completed := 0; tasks_failed := 0;
     total_cost_usd := JNum (NFloat 0); total_duration_ms := JNum (NInt 0) |}.

(** What the service does to the outside, in order: it launches a
    process with an argument list, or it sleeps for a delay. *)
Inductive event : Type :=
| Launched (argv : list string)
| Slept (delay : Z).

Definition is_launch (e : event) : bool :=
  match e with Launched _ => true | Slept _ => false end.

Definition launch_count (tr : list event) : nat :=
  length (List.filter is_launch tr).

(** An [AgentService] and its surroundings: the session file ([None]:
    no such file), whether the MCP configuration file exists, the files
    of [results_dir] (by name, as lines), the trace of launches and
    sleeps and the texts passed to [on_output], each oldest first.  Log
    messages are not kept. *)
Record AgentService : Type := mkService {
  config : Config;
  stats : ServiceStats;
  _session_id : json;
  _shutdown_requested : bool;
  session_file : option string;
  mcp_config_exists : bool;
  results_dir : gmap string (list string);
  trace : list event;
  on_output_calls : list json
}.

Definition set_stats (f : ServiceStats -> ServiceStats) : M AgentService unit :=
  modify (fun a =>
    {| config := config a; stats := f (stats a); _session_id := _session_id a;
       _shutdown_requested := _shutdown_requested a;
       session_file := session_file a;
       mcp_config_exists := mcp_config_exists a;
       results_dir := results_dir a; trace := trace a;
       on_output_calls := on_output_calls a |}).

Definition set_session_id (v : json) : M AgentService unit :=
  modify (fun a =>
    {| config := config a; stats := stats a; _session_id := v;
       _shutdown_requested := _shutdown_requested a;
       session_file := session_file a;
       mcp_config_exists := mcp_config_exists a;
       results_dir := results_dir a; trace := trace a;
       on_output_calls := on_output_calls a |}).

Definition set_session_file (f : option string) : M AgentService unit :=
  modify (fun a =>
    {| config := config a; stats := stats a; _session_id := _session_id a;
       _shutdown_requested := _shutdown_requested a;
       session_file := f;
       mcp_config_exists := mcp_config_exists a;
       results_dir := results_dir a; trace := trace a;
       on_output_calls := on_output_calls a |}).

Definition set_results (f : gmap string (list string) -> gmap string (list string))
  : M AgentService unit :=
  modify (fun a =>
    {| config := config a; stats := stats a; _session_id := _session_id a;
       _shutdown_requested := _shutdown_requested a;
       session_file := session_file a;
       mcp_config_exists := mcp_config_exists a;
       results_dir := f (results_dir a); trace := trace a;
       on_output_calls := on_output_calls a |}).

Definition log_launch (argv : list string) : M AgentService unit :=
  modify (fun a =>
    {| config := config a; stats := stats a; _session_id := _session_id a;
       _shutdown_requested := _shutdown_requested a;
       session_file := session_file a;
       mcp_config_exists := mcp_config_exists a;
       results_dir := results_dir a; trace := trace a ++ [Launched argv];
       on_output_calls := on_output_calls a |}).

(** [time.sleep(delay)]. *)
Definition sleep (delay : Z) : M AgentService unit :=
  modify (fun a =>
    {| config := config a; stats := stats a; _session_id := _session_id a;
       _shutdown_requested := _shutdown_requested a;
       session_file := session_file a;
       mcp_config_exists := mcp_config_exists a;
       results_dir := results_dir a; trace := trace a ++ [Slept delay];
       on_output_calls := on_output_calls a |}).

Definition call_on_output (t : json) : M AgentService unit :=
  modify (fun a =>
    {| config := config a; stats := stats a; _session_id := _session_id a;
       _shutdown_requested := _shutdown_requested a;
       session_file := session_file a;
       mcp_config_exists := mcp_config_exists a;
       results_dir := results_dir a; trace := trace a;
       on_output_calls := on_output_calls a ++ [t] |}).

Definition write_text (x : json) : M AgentService unit :=
  match x with
  | JStr s => set_session_file (Some s)
  | _ => raise TypeError
  end.

(** [open(output_file, "w")] and [f.write(line + newline)]. *)
Definition open_w (file : string) : M AgentService unit :=
  set_results (fun fs => <[file := []]> fs).

Definition write_line (file line : string) : M AgentService unit :=
  set_results (fun fs =>
    <[file := match fs !! file with Some ls => ls | None => [] end ++ [line]]> fs).

(** [str(e)] for a caught exception. *)
Definition exn_message (e : exn) : string :=
  match e with
  | JSONDecodeError msg => msg
  | AttributeError => "object has no attribute"
  | TypeError => "unsupported operand type"
  | KeyError k => k
  | RuntimeError msg => msg
  | OSError msg => msg
  | RecursionError => "maximum recursion depth exceeded"
  | OverflowError => "int too large to convert to float"
  end.

Section WithCli.
Variable cli : environment.

(** [subprocess.run], or [subprocess.Popen] drained to the end. *)
Definition launch (cmd : list json) : M AgentService Completed :=
  let* argv := lift (argv_strings cmd) in
  let* a := get in
  log_launch argv;;
  lift (cli (launch_count (trace a)) argv).

Definition _build_command_with (sid : M AgentService json)
  (prompt_text : string) (stream : bool) : M AgentService (list json) :=
  let* id := sid in
  let* a := get in
  ret ([JStr "claude"; JStr "-p"; JStr "--resume"; id;
        JStr "--output-format";
        JStr (if stream then "stream-json" else "json");
        JStr "--permission-mode"; JStr (permission_mode (config a));
        JStr "--max-turns"; JStr (str_of_Z (max_turns (config a)))]
       ++ (if mcp_config_exists a
           then [JStr "--mcp-config"; JStr (mcp_config (config a))] else [])
       ++ [JStr prompt_text]).

(** The loop over [proc.stdout] in the streaming branch of [_run_claude]. *)
Fixpoint collect_result (lines : list string) (output_lines : list string)
  (result_data : json) : res (list string * json) :=
  match lines with
  | [] => Ok (output_lines, result_data)
  | line :: rest =>
      let line := strip line in
      if String.eqb line "" then collect_result rest output_lines result_data
      else
        let output_lines := output_lines ++ [line] in
        match json_loads line with
        | Raise (JSONDecodeError _) =>
            collect_result rest output_lines result_data
        | Raise e => Raise e
        | Ok data =>
            match py_get data "type" JNull with
            | Raise e => Raise e
            | Ok t =>
                collect_result rest output_lines
                  (if py_eq_str t "result" then data else result_data)
            end
        end
  end.

Definition _run_claude_with (sid : M AgentService json)
  (prompt_text : string) (stream : bool) : M AgentService json :=
  let* cmd := _build_command_with sid prompt_text stream in
  if stream then
    let* proc := launch cmd in
    let* seen := lift (collect_result (stdout proc) [] (JObj [])) in
    match snd seen with
    | JObj kvs =>
        ret (JObj (dict_set "_output_lines" (JArr (map JStr (fst seen))) kvs))
    | _ => raise TypeError
    end
  else
    let* result := launch cmd in
    if negb (returncode result =? 0)%Z then
      raise (RuntimeError ("Claude failed: " ++ stderr result))
    else lift (json_loads (stdout_text result)).

(** The property [session_id].  It calls [_run_claude], which calls
    [_build_command], which reads the property again: [depth] is the
    number of such nested calls the interpreter's recursion limit
    still allows. *)
Fixpoint get_session_id (depth : nat) : M AgentService json :=
  let* a := get in
  if py_truthy (_session_id a) then ret (_session_id a)
  else
    (match session_file a with
     | Some content => set_session_id (JStr (strip content))
     | None =>
         let* result :=
           match depth with
           | O => raise RecursionError
           | S d =>
               _run_claude_with (get_session_id d)
                                "Initialize agent session" false
           end in
         let* sid := lift (py_get result "session_id" (JStr "")) in
         set_session_id sid;;
         write_text sid
     end);;
    let* a' := get in
    ret (_session_id a').

Definition _build_command (depth : nat) :=
  _build_command_with (get_session_id depth).

Definition _run_claude (depth : nat) :=
  _run_claude_with (get_session_id depth).

(** The loop over the content blocks of an assistant message in
    [run_task]. *)
Fixpoint text_blocks (on_output : bool) (blocks : list json)
  (text_output : list json) : M AgentService (list json) :=
  match blocks with
  | [] => ret text_output
  | block :: rest =>
      let* block_type := lift (py_get block "type" JNull) in
      if py_eq_str block_type "text" then
        let* text := lift (py_get block "text" (JStr "")) in
        when on_output (call_on_output text);;
        text_blocks on_output rest (text_output ++ [text])
      else text_blocks on_output rest text_output
  end.

(** What the inner [try] of [run_task] does with one decoded line. *)
Definition handle_data (on_output : bool) (data : json)
  (text_output : list json) (result_data : json)
  : M AgentService (list json * json) :=
  let* msg_type := lift (py_get data "type" (JStr "")) in
  if py_eq_str msg_type "assistant" then
    let* message := lift (py_get data "message" (JObj [])) in
    let* content := lift (py_get message "content" (JArr [])) in
    let* blocks := lift (py_iter content) in
    let* text_output' := text_blocks on_output blocks text_output in
    ret (text_output', result_data)
  else if py_eq_str msg_type "result" then ret (text_output, data)
  else ret (text_output, result_data).

(** The loop [for line in proc.stdout] of [run_task]. *)
Fixpoint consume (file : string) (on_output : bool) (lines : list string)
  (text_output : list json) (result_data : json)
  : M AgentService (list json * json) :=
  match lines with
  | [] => ret (text_output, result_data)
  | line :: rest =>
      let line := strip line in
      if String.eqb line "" then
        consume file on_output rest text_output result_data
      else
        write_line file line;;
        match json_loads line with
        | Raise (JSONDecodeError _) =>
            consume file on_output rest text_output result_data
        | Raise e => raise e
        | Ok data =>
            let* seen := handle_data on_output data text_output result_data in
            consume file on_output rest (fst seen) (snd seen)
        end
  end.

(** The body of the outer [try] of [run_task], at attempt [attempt]:
    it returns the task's result or raises. *)
Definition attempt_body (depth : nat) (prompt_text tid : string)
  (on_output : bool) (attempt : Z) : M AgentService TaskResult :=
  let file := (tid ++ ".jsonl")%string in
  let* cmd := _build_command depth prompt_text true in
  let* proc := launch cmd in
  open_w file;;
  let* seen := consume file on_output (stdout proc) [] (JObj []) in
  let text_output := fst seen in
  let result_data := snd seen in
  if negb (returncode proc =? 0)%Z then
    raise (RuntimeError ("CLI error: " ++ stderr proc))
  else
    let* is_error := lift (py_get result_data "is_error" (JBool false)) in
    let* cost := lift (py_get result_data "total_cost_usd" (JNum (NInt 0))) in
    let* duration := lift (py_get result_data "duration_ms" (JNum (NInt 0))) in
    let* a := get in
    let* total_cost := lift (py_add (total_cost_usd (stats a)) cost) in
    set_stats (fun s =>
      {| tasks_completed := tasks_completed s; tasks_failed := tasks_failed s;
         total_cost_usd := total_cost;
         total_duration_ms := total_duration_ms s |});;
    let* total_duration := lift (py_add (total_duration_ms (stats a)) duration) in
    set_stats (fun s =>
      {| tasks_completed := tasks_completed s; tasks_failed := tasks_failed s;
         total_cost_usd := total_cost_usd s;
         total_duration_ms := total_duration |});;
    (* the budget check that follows in the source only logs a warning *)
    if py_truthy is_error then
      set_stats (fun s =>
        {| tasks_completed := tasks_completed s;
           tasks_failed := tasks_failed s + 1;
           total_cost_usd := total_cost_usd s;
           total_duration_ms := total_duration_ms s |});;
      let* out := lift (py_join text_output) in
      let* err := lift (py_get result_data "result" (JStr "Unknown error")) in
      ret (mkTaskResult tid prompt_text FAILED out cost duration attempt err
                        (Some file))
    else
      set_stats (fun s =>
        {| tasks_completed := tasks_completed s + 1;
           tasks_failed := tasks_failed s;
           total_cost_usd := total_cost_usd s;
           total_duration_ms := total_duration_ms s |});;
      let* out := lift (py_join text_output) in
      ret (mkTaskResult tid prompt_text SUCCESS out cost duration attempt JNull
                        (Some file)).

(** The loop [while attempt < self.config.max_retries] of [run_task] and
    what follows it; [fuel] bounds the number of iterations. *)
Fixpoint retry_loop (fuel : nat) (depth : nat) (prompt_text tid : string)
  (on_output : bool) (attempt : Z) (last_error : json)
  : M AgentService TaskResult :=
  let* a := get in
  if (attempt <? max_retries (config a))%Z then
    match fuel with
    | O => raise RecursionError
    | S fuel' =>
        let attempt := (attempt + 1)%Z in
        when (1 <? attempt)%Z (sleep (2 ^ (attempt - 1)));;
        try_except
          (attempt_body depth prompt_text tid on_output attempt)
          (fun e =>
             retry_loop fuel' depth prompt_text tid on_output attempt
                        (JStr (exn_message e)))
    end
  else
    set_stats (fun s =>
      {| tasks_completed := tasks_completed s;
         tasks_failed := tasks_failed s + 1;
         total_cost_usd := total_cost_usd s;
         total_duration_ms := total_duration_ms s |});;
    ret (mkTaskResult tid prompt_text FAILED "" (JNum (NFloat 0))
                      (JNum (NInt 0)) attempt last_error
                      (Some (tid ++ ".jsonl")%string)).

(** [run_task(prompt, task_id, on_output)], with the task identifier
    already chosen; [on_output] tells whether a callback is given. *)
Definition run_task (depth : nat) (prompt_text tid : string)
  (on_output : bool) : M AgentService TaskResult :=
  let* a := get in
  retry_loop (Z.to_nat (max_retries (config a))) depth prompt_text tid
             on_output 0 JNull.

End WithCli.


(** [_handle_shutdown], the handler of SIGTERM and SIGINT. *)
Definition _handle_shutdown : M AgentService unit :=
  modify (fun a =>
    {| config := config a; stats := stats a; _session_id := _session_id a;
       _shutdown_requested := true;
       session_file := session_file a;
       mcp_config_exists := mcp_config_exists a;
       results_dir := results_dir a; trace := trace a;
       on_output_calls := on_output_calls a |}).

(** The service at work on a queue: the lines of the queue file
    ([None]: no such file) and the number of pauses of half a second
    made between tasks. *)
Record Worker : Type := mkWorker {
  service : AgentService;
  queue_file : option (list string);
  pauses : nat
}.

(** A method of the service, called by the worker. *)
Definition on_service {A} (m : M AgentService A) : M Worker A :=
  fun w =>
    let (s, r) := m (service w) in
    ({| service := s; queue_file := queue_file w; pauses := pauses w |}, r).

(** [time.sleep(0.5)]. *)
Definition pause : M Worker unit :=
  modify (fun w =>
    {| service := service w; queue_file := queue_file w;
       pauses := S (pauses w) |}).

(** [queue_path.rename(archive_path)], into [results_dir]. *)
Definition rename_queue (archive : string) : M Worker unit :=
  let* w := get in
  match queue_file w with
  | None => raise (OSError "No such file or directory")
  | Some lines =>
      on_service (set_results (fun fs => <[archive := lines]> fs));;
      modify (fun w =>
        {| service := service w; queue_file := None; pauses := pauses w |})
  end.

(** [n] formatted with [04d], for [n] not negative. *)
Definition zfill4 (s : string) : string :=
  (String.concat "" (repeat "0" (4 - String.length s)) ++ s)%string.

Definition queue_task_id (task_num now : Z) : string :=
  ("queue-" ++ zfill4 (str_of_Z task_num) ++ "-" ++ str_of_Z now)%string.

(** [line.startswith(prefix)]. *)
Definition startswith (prefix line : string) : bool :=
  match drop_prefix prefix line with Some _ => true | None => false end.

Section Queue.
Variable cli : environment.
(** Whether a shutdown signal arrives while the line of the queue at a
    given position is being processed, and the clock, in seconds, read
    for the task of a given number. *)
Variable signals : nat -> bool.
Variable clock : Z -> Z.

Definition deliver_signal (position : nat) : M Worker unit :=
  when (signals position) (on_service _handle_shutdown).

(** The loop [for line in f] of [process_queue]; it returns the
    results and the number of tasks. *)
Fixpoint queue_loop (depth : nat) (lines : list string) (position : nat)
  (task_num : Z) (results : list TaskResult)
  : M Worker (list TaskResult * Z) :=
  match lines with
  | [] => ret (results, task_num)
  | line :: rest =>
      let* w := get in
      if _shutdown_requested (service w) then ret (results, task_num)
      else
        let line := strip line in
        if String.eqb line "" || startswith "#" line then
          deliver_signal position;;
          queue_loop depth rest (S position) task_num results
        else
          let task_num := (task_num + 1)%Z in
          let tid := queue_task_id task_num (clock task_num) in
          let* result := on_service (run_task cli depth line tid false) in
          pause;;
          deliver_signal position;;
          queue_loop depth rest (S position) task_num (results ++ [result])
  end.

(** [process_queue]; [stamp] is the reading of the clock that names
    the archive. *)
Definition process_queue (depth : nat) (stamp : string)
  : M Worker (list TaskResult) :=
  let* w := get in
  match queue_file w with
  | None => ret []
  | Some lines =>
      let* out := queue_loop depth lines 0 0 [] in
      let* w' := get in
      when ((0 <? snd out)%Z && negb (_shutdown_requested (service w')))
           (rename_queue ("queue-" ++ stamp ++ ".txt"));;
      ret (fst out)
  end.

End Queue.

End Service.

(** ** [codex-headless/templates/python-wrapper.py] *)

Module CodexWrapper.

Record Result : Type := mkResult {
  text : json;
  duration_ms : json;
  thread_id : json;
  is_error : bool
}.

(** A [CodexWrapper] together with the file at [session_file] ([None]:
    no such file) and the launches made so far. *)
Record CodexWrapper : Type := mkWrapper {
  session_file : option string;
  sandbox : string;
  approval_policy : string;
  extra_config : list string;
  _thread_id : json;
  launches : list (list string)
}.

Definition set_thread_id (v : json) : M CodexWrapper unit :=
  modify (fun w =>
    {| session_file := session_file w; sandbox := sandbox w;
       approval_policy := approval_policy w; extra_config := extra_config w;
       _thread_id := v; launches := launches w |}).

Definition set_session_file (f : option string) : M CodexWrapper unit :=
  modify (fun w =>
    {| session_file := f; sandbox := sandbox w;
       approval_policy := approval_policy w; extra_config := extra_config w;
       _thread_id := _thread_id w; launches := launches w |}).

Definition log_launch (argv : list string) : M CodexWrapper unit :=
  modify (fun w =>
    {| session_file := session_file w; sandbox := sandbox w;
       approval_policy := approval_policy w; extra_config := extra_config w;
       _thread_id := _thread_id w; launches := launches w ++ [argv] |}).

Definition write_text (x : json) : M CodexWrapper unit :=
  match x with
  | JStr s => set_session_file (Some s)
  | _ => raise TypeError
  end.

Definition rbind {A B} (r : res A) (k : A -> res B) : res B :=
  match r with Ok a => k a | Raise e => Raise e end.

Definition _base_cmd (w : CodexWrapper) : list json :=
  map JStr (["codex"; "-a"; approval_policy w; "-s"; sandbox w]
            ++ flat_map (fun c => ["-c"; c]) (extra_config w)).

(** The list comprehension over the lines of the output that [strip]
    does not leave empty. *)
Fixpoint loads_lines (lines : list string) : res (list json) :=
  match lines with
  | [] => Ok []
  | l :: rest =>
      if String.eqb (strip l) "" then loads_lines rest
      else
        rbind (json_loads l) (fun e =>
        rbind (loads_lines rest) (fun es => Ok (e :: es)))
  end.

(** [next((e for e in events if e.get(type) in types), dict())]. *)
Fixpoint first_of (types : list string) (events : list json) : res json :=
  match events with
  | [] => Ok (JObj [])
  | e :: rest =>
      rbind (py_get e "type" JNull) (fun t =>
      if existsb (py_eq_str t) types then Ok e else first_of types rest)
  end.

(** The texts of the agent messages, in order. *)
Fixpoint agent_texts (events : list json) : res (list json) :=
  match events with
  | [] => Ok []
  | e :: rest =>
      rbind (py_get e "type" JNull) (fun t =>
      if py_eq_str t "item.completed" then
        rbind (py_get e "item" (JObj [])) (fun item =>
        rbind (py_get item "type" JNull) (fun item_type =>
        if py_eq_str item_type "agent_message" then
          rbind (py_get e "item" (JObj [])) (fun item' =>
          rbind (py_get item' "text" (JStr "")) (fun t' =>
          rbind (agent_texts rest) (fun ts => Ok (t' :: ts))))
        else agent_texts rest))
      else agent_texts rest)
  end.

(** The fallback: the text blocks of the assistant messages. *)
Fixpoint block_texts (blocks : list json) : res (list json) :=
  match blocks with
  | [] => Ok []
  | block :: rest =>
      rbind (py_get block "type" JNull) (fun t =>
      if py_eq_str t "text" then
        rbind (py_get block "text" (JStr "")) (fun t' =>
        rbind (block_texts rest) (fun ts => Ok (t' :: ts)))
      else block_texts rest)
  end.

Fixpoint assistant_texts (events : list json) : res (list json) :=
  match events with
  | [] => Ok []
  | e :: rest =>
      rbind (py_get e "type" JNull) (fun t =>
      if py_eq_str t "assistant" then
        rbind (py_get e "message" (JObj [])) (fun message =>
        rbind (py_get message "content" (JArr [])) (fun content =>
        rbind (py_iter content) (fun blocks =>
        rbind (block_texts blocks) (fun ts =>
        rbind (assistant_texts rest) (fun ts' => Ok (ts ++ ts'))))))
      else assistant_texts rest)
  end.

(** What [_execute] makes of the events of a run that exited with 0. *)
Definition result_of (current : json) (events : list json) : res Result :=
  rbind (first_of ["thread.started"] events) (fun thread =>
  rbind (first_of ["turn.completed"; "turn.failed"] (rev events))
        (fun turn_done =>
  rbind (rbind (agent_texts events) py_join) (fun assistant_text =>
  rbind (if String.eqb assistant_text ""
         then rbind (assistant_texts events) py_join
         else Ok assistant_text) (fun assistant_text =>
  rbind (if String.eqb (strip assistant_text) ""
         then py_get turn_done "message" (JStr "")
         else Ok (JStr (strip assistant_text))) (fun r_text =>
  rbind (py_get turn_done "duration_ms" (JNum (NInt 0))) (fun r_duration =>
  rbind (py_get thread "thread_id"
                (if py_truthy current then current else JStr ""))
        (fun r_thread =>
  rbind (py_get turn_done "type" JNull) (fun turn_type =>
  rbind (py_get turn_done "error" JNull) (fun turn_error =>
  Ok (mkResult r_text r_duration r_thread
               (py_eq_str turn_type "turn.failed" || py_truthy turn_error))))))))))).

Section WithCli.
Variable cli : environment.

Definition subprocess_run (cmd : list json) : M CodexWrapper Completed :=
  let* argv := lift (argv_strings cmd) in
  let* w := get in
  log_launch argv;;
  lift (cli (length (launches w)) argv).

Definition _execute (prompt : string) : M CodexWrapper Result :=
  let* w := get in
  let cmd :=
    _base_cmd w
    ++ [JStr "exec"; JStr "--json"; JStr "--skip-git-repo-check"]
    ++ (if py_truthy (_thread_id w)
        then [JStr "resume"; _thread_id w; JStr prompt]
        else [JStr prompt]) in
  let* proc := subprocess_run cmd in
  if negb (returncode proc =? 0)%Z then
    raise (RuntimeError (if String.eqb (strip (stderr proc)) ""
                         then "codex exec failed"
                         else strip (stderr proc)))
  else
    let* events := lift (loads_lines (stdout proc)) in
    lift (result_of (_thread_id w) events).

(** The property [thread_id]. *)
Definition get_thread_id : M CodexWrapper json :=
  let* w := get in
  if py_truthy (_thread_id w) then ret (_thread_id w)
  else
    (match session_file w with
     | Some content => set_thread_id (JStr (strip content))
     | None =>
         let* result := _execute "Initialize" in
         set_thread_id (thread_id result);;
         write_text (thread_id result)
     end);;
    let* w' := get in
    ret (_thread_id w').

Definition run (prompt : string) : M CodexWrapper Result :=
  get_thread_id;;
  _execute prompt.

End WithCli.

Definition reset : M CodexWrapper unit :=
  let* w := get in
  when (match session_file w with Some _ => true | None => false end)
       (set_session_file None);;
  set_thread_id JNull.

End CodexWrapper.

(** ** Inputs and predicates of the statements *)

(** The three lines of the end-to-end scenario. *)
Definition three_lines : list string :=
  [jsonl "{'type':'assistant','message':{'content':[{'type':'text','text':'Hi'}]}}";
   jsonl "{'type':'assistant','message':{'content':[{'type':'text','text':' there'}]}}";
   jsonl "{'type':'result','total_cost_usd':0.01,'duration_ms':120,'session_id':'abc','is_error':false}"].

(** A parser with every callback set. *)
Definition listening_parser : ClaudeStream.StreamParser :=
  {| ClaudeStream.stats := ClaudeStream.new_stats;
     ClaudeStream.on_text := true; ClaudeStream.on_tool_use := true;
     ClaudeStream.on_tool_result := true; ClaudeStream.on_thinking := true;
     ClaudeStream.on_error := true; ClaudeStream.calls := [] |}.

(** A line that is not JSON. *)
Definition bad_line : string := "{bad".

(** The content blocks on which the loop of [ClaudeStream.parse_line]
    returns: a tool_use, tool_result or thinking block, or a text block
    whose text is true (not empty). *)
Definition returns_on (block : json) : bool :=
  match block with
  | JObj kvs =>
      let t := dict_get_or "type" kvs (JStr "") in
      py_eq_str t "text" && py_truthy (dict_get_or "text" kvs (JStr ""))
      || py_eq_str t "tool_use" || py_eq_str t "tool_result"
      || py_eq_str t "thinking"
  | _ => false
  end.

(** The content blocks the loop passes over: a dict of another type, or a
    text block whose text is empty. *)
Definition passed_over (block : json) : bool :=
  match block with
  | JObj _ => negb (returns_on block)
  | _ => false
  end.

(** An assistant line whose first block is a text block with empty text
    and whose second block is a tool use. *)
Definition empty_text_then_tool : string :=
  jsonl "{'type':'assistant','message':{'content':[{'type':'text','text':''},{'type':'tool_use','name':'Read','input':{}}]}}".

(** The content blocks whose type is one of the four the loop knows. *)
Definition known_type (block : json) : bool :=
  match block with
  | JObj kvs =>
      let t := dict_get_or "type" kvs (JStr "") in
      py_eq_str t "text" || py_eq_str t "tool_use"
      || py_eq_str t "tool_result" || py_eq_str t "thinking"
  | _ => false
  end.

(** An assistant line decoded to [data], with content blocks [blocks]. *)
Definition assistant_line (line : string) (data : json) (blocks : list json)
  : Prop :=
  strip line <> ""
  /\ json_loads (strip line) = Ok data
  /\ exists kvs mkvs,
       data = JObj kvs
       /\ dict_get "type" kvs = Some (JStr "assistant")
       /\ dict_get "message" kvs = Some (JObj mkvs)
       /\ dict_get "content" mkvs = Some (JArr blocks).

(** Text chunks and tool uses counted so far, and callbacks called so far. *)
Definition counted (p : ClaudeStream.StreamParser) : Z :=
  (ClaudeStream.text_chunks (ClaudeStream.stats p)
   + ClaudeStream.tool_uses (ClaudeStream.stats p))%Z.

Definition called (p : ClaudeStream.StreamParser) : nat :=
  length (ClaudeStream.calls p).

(** The sum of the costs of a list of turns; there is none when a cost is
    not a number.  A truth value counts as 1 or 0, as it does for [sum]. *)
Fixpoint sum_costs (ts : list Stateful.Turn) : option Q :=
  match ts with
  | [] => Some 0%Q
  | t :: rest =>
      match as_number (Stateful.cost_usd t), sum_costs rest with
      | Some c, Some q => Some (number_value c + q)%Q
      | _, _ => None
      end
  end.







Definition sample_turn : Stateful.Turn :=
  Stateful.mkTurn (JStr "2025-01-01T10:00:00") (JStr "hello") (JStr "hi")
                  (JNum (NFloat (Qmake 1 100))) (JNum (NInt 120)).

Definition sample_session : Stateful.Session :=
  fst (Stateful.add_turn sample_turn
         (Stateful.new_session (JStr "sess-A") "A" "2025-01-01T09:59:00" JNull)).



(** An agent that holds [sample_session] as object 0 and has no files. *)
Definition sample_agent : Stateful.StatefulAgent :=
  {| Stateful.storage := ∅; Stateful.heap := {[ 0%nat := sample_session ]};
     Stateful._current_session := Some 0%nat; Stateful.launches := [] |}.

(** A CLI whose every launch exits with code 0 after printing one JSON
    object that reports a new session identifier. *)
Definition fork_cli : environment :=
  fun _ _ =>
    Ok (mkCompleted 0
          [jsonl "{'session_id':'sess-B','result':'ok','total_cost_usd':0.02,'duration_ms':50}"]
          "").

(** A wrapper whose session file holds an identifier. *)
Definition saved_wrapper : Wrapper.ClaudeWrapper :=
  {| Wrapper.session_file := Some "sess-1"; Wrapper.permission_mode := "default";
     Wrapper.allowed_tools := None; Wrapper._session_id := JNull;
     Wrapper.launches := [] |}.

(** A CLI whose every launch exits with code 1 after printing a JSON
    object. *)
Definition failing_cli : environment :=
  fun _ _ =>
    Ok (mkCompleted 1
          [jsonl "{'result':'partial','session_id':'sess-1','is_error':false}"]
          "boom").

(** A CLI whose every launch exits with code 0 and prints nothing. *)
Definition silent_cli : environment :=
  fun _ _ => Ok (mkCompleted 0 [] "").

(** An agent with no session file and no identifier in memory. *)
Definition fresh_agent : Agent.ClaudeAgent :=
  {| Agent.session_file := None; Agent.mcp_config := None;
     Agent.permission_mode := "default"; Agent.allowed_tools := None;
     Agent.disallowed_tools := None; Agent.system_prompt := None;
     Agent.max_turns := None; Agent._session_id := JNull;
     Agent.launches := []; Agent.on_text_calls := [] |}.

(** What the first two statements of [reset] and of [reset_session] leave:
    no session file, no identifier in memory, the rest as it was. *)
Definition wrapper_discarded (w : Wrapper.ClaudeWrapper) : Wrapper.ClaudeWrapper :=
  {| Wrapper.session_file := None;
     Wrapper.permission_mode := Wrapper.permission_mode w;
     Wrapper.allowed_tools := Wrapper.allowed_tools w;
     Wrapper._session_id := JNull;
     Wrapper.launches := Wrapper.launches w |}.

Definition agent_discarded (a : Agent.ClaudeAgent) : Agent.ClaudeAgent :=
  {| Agent.session_file := None; Agent.mcp_config := Agent.mcp_config a;
     Agent.permission_mode := Agent.permission_mode a;
     Agent.allowed_tools := Agent.allowed_tools a;
     Agent.disallowed_tools := Agent.disallowed_tools a;
     Agent.system_prompt := Agent.system_prompt a;
     Agent.max_turns := Agent.max_turns a; Agent._session_id := JNull;
     Agent.launches := Agent.launches a;
     Agent.on_text_calls := Agent.on_text_calls a |}.

(** The lines of a stream that decode to an event of type result. *)
Definition decodes_to_result (line : string) : bool :=
  match json_loads (strip line) with
  | Ok data =>
      match py_get data "type" (JStr "unknown") with
      | Ok t => py_eq_str t "result"
      | Raise _ => false
      end
  | Raise _ => false
  end.

Definition no_result_event (lines : list string) : bool :=
  forallb (fun line => negb (decodes_to_result line)) lines.

(** A service that knows its session identifier, with the default retry
    ceiling of 3 and no budget. *)
Definition sample_config : Service.Config :=
  {| Service.mcp_config := "/app/mcp.json";
     Service.permission_mode := "acceptEdits";
     Service.max_turns := 20; Service.max_retries := 3;
     Service.budget_usd := None |}.

Definition sample_service : Service.AgentService :=
  {| Service.config := sample_config; Service.stats := Service.new_stats;
     Service._session_id := JStr "sess-1";
     Service._shutdown_requested := false;
     Service.session_file := Some "sess-1";
     Service.mcp_config_exists := false;
     Service.results_dir := ∅; Service.trace := [];
     Service.on_output_calls := [] |}.

(** *** The retry scenario *)

(** The service knows its conversation [sid]: the identifier is in memory,
    or it is not and the session file holds it. *)
Definition knows_session (a : Service.AgentService) (sid : string) : Prop :=
  sid <> ""
  /\ (Service._session_id a = JStr sid
      \/ (py_truthy (Service._session_id a) = false
          /\ exists content,
               Service.session_file a = Some content /\ strip content = sid)).

(** The argument list of a task run under conversation [sid]. *)
Definition task_argv (a : Service.AgentService) (sid prompt_text : string)
  : list string :=
  ["claude"; "-p"; "--resume"; sid; "--output-format"; "stream-json";
   "--permission-mode"; Service.permission_mode (Service.config a);
   "--max-turns"; str_of_Z (Service.max_turns (Service.config a))]
  ++ (if Service.mcp_config_exists a
      then ["--mcp-config"; Service.mcp_config (Service.config a)] else [])
  ++ [prompt_text].

(** What the loop of [run_task] over the output lines returns; it does not
    depend on the service it runs in (see [consume_result]). *)
Definition decoded (on_output : bool) (lines : list string)
  : res (list json * json) :=
  snd (Service.consume "" on_output lines [] (JObj []) sample_service).

(** A run fails: the process cannot be started, or it exits with a code
    other than 0, or handling a line of its output raises. *)
Definition run_fails (on_output : bool) (out : res Completed) : Prop :=
  match out with
  | Raise _ => True
  | Ok p =>
      returncode p <> 0%Z \/ raises (decoded on_output (stdout p)) = true
  end.

(** A run that [run_task] reports as SUCCESS: exit code 0, every line
    handled without exception, a result without error flag whose cost and
    duration can be added to the totals, and text chunks that are strings. *)
Definition clean_run (on_output : bool) (s : Service.ServiceStats)
  (p : Completed) : bool :=
  (returncode p =? 0)%Z
  && match decoded on_output (stdout p) with
     | Ok (texts, JObj kvs) =>
         negb (py_truthy (dict_get_or "is_error" kvs (JBool false)))
         && negb (raises (py_add (Service.total_cost_usd s)
                                 (dict_get_or "total_cost_usd" kvs (JNum (NInt 0)))))
         && negb (raises (py_add (Service.total_duration_ms s)
                                 (dict_get_or "duration_ms" kvs (JNum (NInt 0)))))
         && negb (raises (py_join texts))
     | _ => false
     end.

(** Two states of the service that differ at most in the result files and
    in the record of [on_output] calls. *)
Definition same_core (a b : Service.AgentService) : Prop :=
  Service.config b = Service.config a
  /\ Service.stats b = Service.stats a
  /\ Service._session_id b = Service._session_id a
  /\ Service._shutdown_requested b = Service._shutdown_requested a
  /\ Service.session_file b = Service.session_file a
  /\ Service.mcp_config_exists b = Service.mcp_config_exists a
  /\ Service.trace b = Service.trace a.

(** What [run_task] does before attempt number [attempt]: it sleeps 2 to
    the power [attempt - 1], except before the first attempt. *)
Definition backoff (attempt : Z) : list Service.event :=
  if (1 <? attempt)%Z then [Service.Slept (2 ^ (attempt - 1))] else [].

(** A CLI that cannot be started at its first launch, exits with code 1
    at the second, and then prints the three lines of the end-to-end
    scenario and exits with 0. *)
Definition flaky_cli : environment :=
  fun n _ =>
    match n with
    | 0%nat => Raise (OSError "cannot start")
    | 1%nat => Ok (mkCompleted 1 [] "overloaded")
    | _ => Ok (mkCompleted 0 three_lines "")
    end.

(** The time slept over a trace. *)
Definition slept (tr : list Service.event) : Z :=
  fold_right (fun e acc =>
                match e with
                | Service.Slept delay => (delay + acc)%Z
                | Service.Launched _ => acc
                end) 0%Z tr.

(** ** Proof steps *)

(** [H] says that a computation beginning with [lift r] returned: then [r]
    is some [Ok x]. *)
Ltac lifted_ok H x :=
  unfold bind at 1, lift at 1 in H; cbn beta iota in H;
  match type of H with
  | context [match ?r with Ok _ => _ | Raise _ => _ end] =>
      destruct r as [x|]; [|discriminate H]
  end.

(** The goal is about a computation beginning with [lift r]: when [r]
    raises the goal is closed by [tac], otherwise [r] is some [Ok x]. *)
Ltac lifted_or x tac :=
  unfold bind at 1, lift at 1; cbn beta iota;
  match goal with
  | |- context [match ?r with Ok _ => _ | Raise _ => _ end] =>
      destruct r as [x|]; [|tac]
  end.

(** ** Further predicates of the statements *)

(** A line that [strip] leaves empty. *)
Definition is_blank (line : string) : bool := String.eqb (strip line) "".

Definition is_object (v : json) : bool :=
  match v with JObj _ => true | _ => false end.

(** How many events of a stream have a given type. *)
Definition is_text_event (ev : ClaudeStream.Event) : bool :=
  match ClaudeStream.type ev with ClaudeStream.TEXT => true | _ => false end.

Definition is_tool_use_event (ev : ClaudeStream.Event) : bool :=
  match ClaudeStream.type ev with ClaudeStream.TOOL_USE => true | _ => false end.

(** The texts handed to [on_text], in order of the calls. *)
Fixpoint text_calls (cs : list ClaudeStream.call) : list json :=
  match cs with
  | [] => []
  | ClaudeStream.OnText t :: rest => t :: text_calls rest
  | _ :: rest => text_calls rest
  end.

(** Two parsers with the same callbacks set. *)
Definition same_callbacks (p q : ClaudeStream.StreamParser) : Prop :=
  ClaudeStream.on_text q = ClaudeStream.on_text p
  /\ ClaudeStream.on_tool_use q = ClaudeStream.on_tool_use p
  /\ ClaudeStream.on_tool_result q = ClaudeStream.on_tool_result p
  /\ ClaudeStream.on_thinking q = ClaudeStream.on_thinking p
  /\ ClaudeStream.on_error q = ClaudeStream.on_error p.

(** What one line adds to the counters and to the [on_text] calls: nothing,
    or what its event [ev] stands for. *)
Definition line_effect (p p' : ClaudeStream.StreamParser)
  (evs : list ClaudeStream.Event) : Prop :=
  same_callbacks p p'
  /\ ClaudeStream.text_chunks (ClaudeStream.stats p')
     = (ClaudeStream.text_chunks (ClaudeStream.stats p)
        + Z.of_nat (length (List.filter is_text_event evs)))%Z
  /\ ClaudeStream.tool_uses (ClaudeStream.stats p')
     = (ClaudeStream.tool_uses (ClaudeStream.stats p)
        + Z.of_nat (length (List.filter is_tool_use_event evs)))%Z
  /\ text_calls (ClaudeStream.calls p')
     = text_calls (ClaudeStream.calls p)
       ++ (if ClaudeStream.on_text p then ClaudeStream.collected_text evs else []).

(** The lines that are not blank. *)
Definition without_blanks (lines : list string) : list string :=
  List.filter (fun line => negb (is_blank line)) lines.

(** The message types the two decoders know. *)
Definition claude_known (t : json) : bool :=
  py_eq_str t "init" || py_eq_str t "assistant" || py_eq_str t "result".

Definition codex_known (t : json) : bool :=
  py_eq_str t "thread.started" || py_eq_str t "item.completed"
  || py_eq_str t "turn.completed" || py_eq_str t "turn.failed"
  || py_eq_str t "error".

(** The statistics a result line with payload [kvs] leaves when its
    handling goes through, token total [tokens] included, and those it
    leaves when the handling raises at the usage. *)
Definition stats_after_result (s : ClaudeStream.StreamStats)
  (kvs : list (string * json)) (tokens : json) : ClaudeStream.StreamStats :=
  {| ClaudeStream.text_chunks := ClaudeStream.text_chunks s;
     ClaudeStream.tool_uses := ClaudeStream.tool_uses s;
     ClaudeStream.total_tokens := tokens;
     ClaudeStream.cost_usd := dict_get_or "total_cost_usd" kvs (JNum (NInt 0));
     ClaudeStream.duration_ms := dict_get_or "duration_ms" kvs (JNum (NInt 0));
     ClaudeStream.session_id := ClaudeStream.session_id s;
     ClaudeStream.is_error := dict_get_or "is_error" kvs (JBool false) |}.

(** A line that decodes to an object of the given type. *)
Definition typed_line (line : string) (t : string) (kvs : list (string * json))
  : Prop :=
  is_blank line = false
  /\ json_loads (strip line) = Ok (JObj kvs)
  /\ dict_get "type" kvs = Some (JStr t).

(** The argument list [ClaudeWrapper._execute] is expected to hand to the
    CLI, with or without a conversation to resume. *)
Definition wrapper_argv (w : Wrapper.ClaudeWrapper) (resume : option string)
  (prompt : string) : list string :=
  ["claude"; "-p"; "--output-format"; "json"; "--permission-mode";
   Wrapper.permission_mode w]
  ++ (match resume with Some sid => ["--resume"; sid] | None => [] end)
  ++ (match Wrapper.allowed_tools w with
      | Some (t :: ts) => ["--allowedTools"; join_with "," (t :: ts)]
      | _ => []
      end)
  ++ [prompt].

(** The [Result] read off a reply object. *)
Definition wrapper_result (kvs : list (string * json)) : Wrapper.Result :=
  {| Wrapper.text := dict_get_or "result" kvs (JStr "");
     Wrapper.cost_usd := dict_get_or "total_cost_usd" kvs (JNum (NInt 0));
     Wrapper.duration_ms := dict_get_or "duration_ms" kvs (JNum (NInt 0));
     Wrapper.session_id := dict_get_or "session_id" kvs (JStr "");
     Wrapper.is_error := dict_get_or "is_error" kvs (JBool false) |}.

(** A CLI that answers its [n]-th launch with the given reply, whatever
    the arguments. *)
Definition scripted_cli (replies : list Completed) : environment :=
  fun n _ =>
    match nth_error replies n with
    | Some p => Ok p
    | None => Raise (OSError "no such launch")
    end.

Definition reply (code : Z) (lines : list string) : Completed :=
  {| returncode := code; stdout := lines; stderr := "" |}.

(** An agent after further calls of [on_text], nothing else changed. *)
Definition with_calls (a : Agent.ClaudeAgent) (chunks : list json)
  : Agent.ClaudeAgent :=
  {| Agent.session_file := Agent.session_file a;
     Agent.mcp_config := Agent.mcp_config a;
     Agent.permission_mode := Agent.permission_mode a;
     Agent.allowed_tools := Agent.allowed_tools a;
     Agent.disallowed_tools := Agent.disallowed_tools a;
     Agent.system_prompt := Agent.system_prompt a;
     Agent.max_turns := Agent.max_turns a;
     Agent._session_id := Agent._session_id a;
     Agent.launches := Agent.launches a;
     Agent.on_text_calls := Agent.on_text_calls a ++ chunks |}.

(** What a loop over a stream does to the agent: it calls [on_text] with
    some texts and, when it returns, has appended exactly these to the
    texts it collects. *)
Definition calls_grow {A} (a : Agent.ClaudeAgent) (collected : A -> list json)
  (full : list json) (out : Agent.ClaudeAgent * res A) : Prop :=
  exists chunks,
    fst out = with_calls a chunks
    /\ forall x, snd out = Ok x -> collected x = full ++ chunks.

(** An agent whose session file holds an identifier, a CLI that streams
    two texts and a result, and what a streaming run of the two returns. *)
Definition saved_agent : Agent.ClaudeAgent :=
  {| Agent.session_file := Some "sess-1"; Agent.mcp_config := None;
     Agent.permission_mode := "default"; Agent.allowed_tools := None;
     Agent.disallowed_tools := None; Agent.system_prompt := None;
     Agent.max_turns := None; Agent._session_id := JNull;
     Agent.launches := []; Agent.on_text_calls := [JStr "earlier"] |}.

Definition stream_cli : environment :=
  fun _ _ =>
    Ok (reply 0
          [jsonl "{'type':'assistant','message':{'content':[{'type':'text','text':'Hel'},{'type':'tool_use','name':'Read'}]}}";
           "";
           jsonl "{'type':'assistant','message':{'content':[{'type':'text','text':'lo'}]}}";
           jsonl "{'type':'result','total_cost_usd':0.25,'session_id':'sess-1'}"]).

Definition streamed_result : Agent.AgentResult :=
  {| Agent.text := JStr "Hello";
     Agent.cost_usd := JNum (NFloat (1 # 4));
     Agent.duration_ms := JNum (NInt 0);
     Agent.session_id := JStr "sess-1";
     Agent.is_error := JBool false;
     Agent.num_turns := JNum (NInt 0);
     Agent.raw_output :=
       JObj [("type", JStr "result"); ("total_cost_usd", JNum (NFloat (1 # 4)));
             ("session_id", JStr "sess-1")] |}.

(** *** Turns of a stateful agent *)

(** The turn [run] builds from a reply, with the clock reading and the
    prompt: result, cost and duration are taken as the reply has them. *)
Definition turn_of_reply (now prompt_text : string) (data : json)
  : res Stateful.Turn :=
  Stateful.rbind (py_get data "result" (JStr "")) (fun rs =>
  Stateful.rbind (py_get data "total_cost_usd" (JNum (NInt 0))) (fun c =>
  Stateful.rbind (py_get data "duration_ms" (JNum (NInt 0))) (fun d =>
  Ok (Stateful.mkTurn (JStr now) (JStr prompt_text) rs c d)))).

(** The command of a turn under the conversation of [s], and its
    argument list when the session identifier is the string [sid]. *)
Definition turn_cmd (s : Stateful.Session) (permission_mode prompt_text : string)
  : list json :=
  [JStr "claude"; JStr "-p"; JStr "--resume"; Stateful.session_id s;
   JStr "--output-format"; JStr "json"; JStr "--permission-mode";
   JStr permission_mode; JStr prompt_text].

Definition turn_argv (sid permission_mode prompt_text : string)
  : list string :=
  ["claude"; "-p"; "--resume"; sid; "--output-format";
   "json"; "--permission-mode"; permission_mode; prompt_text].

(** The agent after one more launch, after the object behind [r] has
    become [s], and after it has been saved as well. *)
Definition launched (a : Stateful.StatefulAgent) (argv : list string)
  : Stateful.StatefulAgent :=
  {| Stateful.storage := Stateful.storage a; Stateful.heap := Stateful.heap a;
     Stateful._current_session := Stateful._current_session a;
     Stateful.launches := Stateful.launches a ++ [argv] |}.

Definition with_object (a : Stateful.StatefulAgent) (r : nat)
  (s : Stateful.Session) : Stateful.StatefulAgent :=
  {| Stateful.storage := Stateful.storage a;
     Stateful.heap := <[r := s]> (Stateful.heap a);
     Stateful._current_session := Stateful._current_session a;
     Stateful.launches := Stateful.launches a |}.

Definition recorded (a : Stateful.StatefulAgent) (r : nat)
  (s : Stateful.Session) : Stateful.StatefulAgent :=
  {| Stateful.storage :=
       <[Stateful._session_path (Stateful.name s) := Stateful.to_dict s]>
         (Stateful.storage a);
     Stateful.heap := <[r := s]> (Stateful.heap a);
     Stateful._current_session := Stateful._current_session a;
     Stateful.launches := Stateful.launches a |}.

Definition made_current (a : Stateful.StatefulAgent) (r : nat)
  : Stateful.StatefulAgent :=
  {| Stateful.storage := Stateful.storage a; Stateful.heap := Stateful.heap a;
     Stateful._current_session := Some r;
     Stateful.launches := Stateful.launches a |}.

(** What [add_turn] and the save after it do to the object behind [r],
    which holds [s]: the object is saved when the call returns, and left
    as the call left it when the call raises. *)
Definition turn_added (a : Stateful.StatefulAgent) (r : nat)
  (s : Stateful.Session) (turn : Stateful.Turn)
  : Stateful.StatefulAgent * res unit :=
  match Stateful.add_turn turn s with
  | (s', Ok _) => (recorded a r s', Ok tt)
  | (s', Raise e) => (with_object a r s', Raise e)
  end.

(** What [run] does when the current session is the one named. *)
Definition turn_outcome (cli : environment) (a : Stateful.StatefulAgent)
  (r : nat) (s : Stateful.Session) (permission_mode prompt_text now : string)
  : Stateful.StatefulAgent * res Stateful.Turn :=
  match argv_strings (turn_cmd s permission_mode prompt_text) with
  | Raise e => (a, Raise e)
  | Ok argv =>
      let a1 := launched a argv in
      match cli (length (Stateful.launches a)) argv with
      | Raise e => (a1, Raise e)
      | Ok result =>
          if negb (returncode result =? 0)%Z then
            (a1, Raise (RuntimeError ("Claude failed: " ++ stderr result)))
          else
            match Stateful.rbind (json_loads (stdout_text result))
                                 (turn_of_reply now prompt_text) with
            | Raise e => (a1, Raise e)
            | Ok turn =>
                match turn_added a1 r s turn with
                | (a2, Ok _) => (a2, Ok turn)
                | (a2, Raise e) => (a2, Raise e)
                end
            end
      end
  end.


(** What a launch gives [create_session] and [run] to read: the object
    decoded from the output of a process that exits with code 0. *)
Definition answer (cli : environment) (n : nat) (argv : list string)
  : option json :=
  match cli n argv with
  | Ok result =>
      if (returncode result =? 0)%Z then
        match json_loads (stdout_text result) with
        | Ok data => Some data
        | Raise _ => None
        end
      else None
  | Raise _ => None
  end.

(** The current session, if any, is not the one named [nm]. *)
Definition other_session (a : Stateful.StatefulAgent) (nm : string) : Prop :=
  match Stateful._current_session a with
  | None => True
  | Some r => exists s, Stateful.heap a !! r = Some s /\ Stateful.name s <> nm
  end.

(** An agent with no session object and no session file. *)
Definition empty_agent : Stateful.StatefulAgent :=
  {| Stateful.storage := ∅; Stateful.heap := ∅;
     Stateful._current_session := None; Stateful.launches := [] |}.

(** What [create_session] does: one launch; on a reply with an identifier
    a new session object; and, when the reply gives a turn whose cost can
    be added, the turn added, the object saved and made the current
    session. *)
Definition create_argv (initial_prompt : string) : list string :=
  ["claude"; "-p"; initial_prompt; "--output-format"; "json"].

Definition create_outcome (cli : environment) (a : Stateful.StatefulAgent)
  (nm initial_prompt now1 now2 : string) : Stateful.StatefulAgent * res nat :=
  let argv := create_argv initial_prompt in
  let a1 := launched a argv in
  let r := fresh (dom (Stateful.heap a)) in
  match cli (length (Stateful.launches a)) argv with
  | Raise e => (a1, Raise e)
  | Ok result =>
      if negb (returncode result =? 0)%Z then
        (a1, Raise (RuntimeError ("Failed to create session: " ++ stderr result)))
      else
        match json_loads (stdout_text result) with
        | Raise e => (a1, Raise e)
        | Ok data =>
            match py_index data "session_id" with
            | Raise e => (a1, Raise e)
            | Ok sid =>
                let s := Stateful.new_session sid nm now1 JNull in
                match turn_of_reply now2 initial_prompt data with
                | Raise e => (with_object a1 r s, Raise e)
                | Ok first =>
                    match turn_added (with_object a1 r s) r s first with
                    | (a2, Ok _) => (made_current a2 r, Ok r)
                    | (a2, Raise e) => (a2, Raise e)
                    end
                end
            end
        end
  end.

(** *** Tasks of the service *)

(** Two states of the service with the same configuration, the same
    trace of launches and sleeps and the same shutdown flag. *)
Definition quiet (a b : Service.AgentService) : Prop :=
  Service.config b = Service.config a
  /\ Service.trace b = Service.trace a
  /\ Service._shutdown_requested b = Service._shutdown_requested a.

(** What one attempt of [run_task] may do: at most one launch and no
    sleep, the configuration and the shutdown flag kept; and, when it returns, a result of this
    task and this attempt that is a success or a failure. *)
Definition attempt_post (a : Service.AgentService) (tid prompt_text : string)
  (attempt : Z) (out : Service.AgentService * res Service.TaskResult) : Prop :=
  Service.config (fst out) = Service.config a
  /\ Service._shutdown_requested (fst out) = Service._shutdown_requested a
  /\ (Service.trace (fst out) = Service.trace a
      \/ exists argv,
           Service.trace (fst out) = Service.trace a ++ [Service.Launched argv])
  /\ forall r, snd out = Ok r ->
       (Service.status r = Service.SUCCESS \/ Service.status r = Service.FAILED)
       /\ Service.attempts r = attempt
       /\ Service.task_id r = tid
       /\ Service.prompt r = prompt_text
       /\ Service.output_file r = Some (tid ++ ".jsonl")%string.

(** What [run_task] may do from attempt [attempt] on. *)
Definition task_post (a : Service.AgentService) (tid prompt_text : string)
  (attempt : Z) (out : Service.AgentService * res Service.TaskResult) : Prop :=
  exists r,
    snd out = Ok r
    /\ (Service.status r = Service.SUCCESS \/ Service.status r = Service.FAILED)
    /\ (attempt <= Service.attempts r
        <= Z.max attempt (Service.max_retries (Service.config a)))%Z
    /\ (Service.status r = Service.SUCCESS -> attempt < Service.attempts r)%Z
    /\ Service.task_id r = tid
    /\ Service.prompt r = prompt_text
    /\ Service.output_file r = Some (tid ++ ".jsonl")%string
    /\ Service.config (fst out) = Service.config a
    /\ Service._shutdown_requested (fst out) = Service._shutdown_requested a
    /\ (Z.of_nat (Service.launch_count (Service.trace (fst out)))
        <= Z.of_nat (Service.launch_count (Service.trace a))
           + (Service.attempts r - attempt))%Z.

(** The time slept from attempt [attempt] on when every attempt up to the
    ceiling fails: 2 to the power [k - 1] before each attempt [k] from the
    second on. *)
Definition backoff_total (attempt ceiling : Z) : Z :=
  if (attempt <? ceiling)%Z then (2 ^ ceiling - 2 ^ Z.max 1 attempt)%Z else 0%Z.

(** The statistics after one more failed task. *)
Definition counted_failed (s : Service.ServiceStats) : Service.ServiceStats :=
  {| Service.tasks_completed := Service.tasks_completed s;
     Service.tasks_failed := (Service.tasks_failed s + 1)%Z;
     Service.total_cost_usd := Service.total_cost_usd s;
     Service.total_duration_ms := Service.total_duration_ms s |}.

(** A run that [run_task] reports as FAILED without retrying: exit code
    0, every line handled without exception, and a result whose error
    flag is set, whose cost and duration can be added to the totals, and
    whose text chunks are strings. *)
Definition refused_run (on_output : bool) (s : Service.ServiceStats)
  (p : Completed) : bool :=
  (returncode p =? 0)%Z
  && match decoded on_output (stdout p) with
     | Ok (texts, JObj kvs) =>
         py_truthy (dict_get_or "is_error" kvs (JBool false))
         && negb (raises (py_add (Service.total_cost_usd s)
                                 (dict_get_or "total_cost_usd" kvs (JNum (NInt 0)))))
         && negb (raises (py_add (Service.total_duration_ms s)
                                 (dict_get_or "duration_ms" kvs (JNum (NInt 0)))))
         && negb (raises (py_join texts))
     | _ => false
     end.

(** A service with neither a session file nor an identifier in memory. *)
Definition lost_service : Service.AgentService :=
  {| Service.config := sample_config; Service.stats := Service.new_stats;
     Service._session_id := JNull;
     Service._shutdown_requested := false;
     Service.session_file := None;
     Service.mcp_config_exists := false;
     Service.results_dir := ∅; Service.trace := [];
     Service.on_output_calls := [] |}.

(** A CLI whose run ends with a result that carries the error flag. *)
Definition refusing_cli : environment :=
  fun _ _ =>
    Ok (reply 0
          [jsonl "{'type':'assistant','message':{'content':[{'type':'text','text':'I cannot'}]}}";
           jsonl "{'type':'result','is_error':true,'result':'max turns reached','total_cost_usd':0.5,'duration_ms':1200}"]).

(** *** The queue *)

(** A line of the queue that is a task: not blank and not a comment. *)
Definition is_task (line : string) : bool :=
  negb (String.eqb (strip line) "" || Service.startswith "#" (strip line)).

(** The prompts of a queue, in order. *)
Definition task_lines (lines : list string) : list string :=
  map strip (List.filter is_task lines).

(** The prompts started before a shutdown signal is seen: a signal that
    arrives while a line is processed stops the queue after that line. *)
Fixpoint started (signals : nat -> bool) (lines : list string)
  (position : nat) : list string :=
  match lines with
  | [] => []
  | line :: rest =>
      (if is_task line then [strip line] else [])
      ++ (if signals position then [] else started signals rest (S position))
  end.

(** Whether a signal arrives at one of [n] positions from [position] on. *)
Fixpoint interrupted (signals : nat -> bool) (n position : nat) : bool :=
  match n with
  | O => false
  | S k => signals position || interrupted signals k (S position)
  end.

(** The identifiers of the [n] tasks numbered after [task_num]. *)
Fixpoint ids_from (clock : Z -> Z) (task_num : Z) (n : nat) : list string :=
  match n with
  | O => []
  | S k =>
      Service.queue_task_id (task_num + 1)%Z (clock (task_num + 1)%Z)
      :: ids_from clock (task_num + 1)%Z k
  end.

(** What the loop over the queue leaves: the new results, after those
    there were, for the prompts started, numbered on from [task_num]; one
    pause per task; the queue file in place; and the shutdown flag set if
    a signal has arrived. *)
Definition queue_post (signals : nat -> bool) (clock : Z -> Z)
  (lines : list string) (position : nat) (task_num : Z)
  (results : list Service.TaskResult) (w : Service.Worker)
  (out : Service.Worker * res (list Service.TaskResult * Z)) : Prop :=
  exists new,
    snd out = Ok (results ++ new, (task_num + Z.of_nat (length new))%Z)
    /\ map Service.prompt new = started signals lines position
    /\ map Service.task_id new = ids_from clock task_num (length new)
    /\ Service.pauses (fst out) = (Service.pauses w + length new)%nat
    /\ Service.queue_file (fst out) = Service.queue_file w
    /\ Service._shutdown_requested (Service.service (fst out))
       = interrupted signals (length lines) position
    /\ Service.config (Service.service (fst out))
       = Service.config (Service.service w).

(** A worker on a queue of four lines, two of them tasks, and a signal
    that arrives while the second line is processed. *)
Definition sample_worker : Service.Worker :=
  {| Service.service := sample_service;
     Service.queue_file :=
       Some ["# nightly jobs"; "  update the changelog  "; ""; "run the tests"];
     Service.pauses := 0 |}.

Definition no_signal : nat -> bool := fun _ => false.

Definition signal_at (k : nat) : nat -> bool := fun i => Nat.eqb i k.

Definition wall_clock : Z -> Z := fun n => (1700000000 + n)%Z.

(** *** The Codex wrapper *)

(** A Codex wrapper whose session file holds a thread identifier. *)
Definition saved_codex_wrapper : CodexWrapper.CodexWrapper :=
  {| CodexWrapper.session_file := Some "th-1";
     CodexWrapper.sandbox := "read-only";
     CodexWrapper.approval_policy := "never";
     CodexWrapper.extra_config := [];
     CodexWrapper._thread_id := JNull;
     CodexWrapper.launches := [] |}.

(** * Properties *)

(** ** Stream decoding *)

(** C4: the three lines of the end-to-end scenario, decoded in order by the
    claude-variant parser, yield two TEXT events and one RESULT event; the
    text of the TEXT events joined in arrival order is ["Hi there"], and the
    statistics hold cost 0.01, duration 120 and error flag false.  With the
    callbacks set, [on_text] is called with the two chunks in order and
    [on_error] is not called. *)
Theorem end_to_end_three_lines :
  exists p events,
    ClaudeStream.parse_stream three_lines ClaudeStream.new_parser = (p, Ok events)
    /\ map ClaudeStream.type events
       = [ClaudeStream.TEXT; ClaudeStream.TEXT; ClaudeStream.RESULT]
    /\ py_join (ClaudeStream.collected_text events) = Ok "Hi there"
    /\ ClaudeStream.cost_usd (ClaudeStream.stats p) = JNum (NFloat (Qmake 1 100))
    /\ ClaudeStream.duration_ms (ClaudeStream.stats p) = JNum (NInt 120)
    /\ ClaudeStream.is_error (ClaudeStream.stats p) = JBool false
    /\ ClaudeStream.text_chunks (ClaudeStream.stats p) = 2%Z
    /\ ClaudeStream.calls
         (fst (ClaudeStream.parse_stream three_lines listening_parser))
       = [ClaudeStream.OnText (JStr "Hi"); ClaudeStream.OnText (JStr " there")].
Proof.
  eexists; eexists. split; [vm_compute; reflexivity|].
  repeat split; vm_compute; reflexivity.
Qed.

(** Against C3 as stated: the claim that both decoders answer a malformed
    line with an event of kind error fails; the codex variant returns no
    event for it. *)
Lemma codex_malformed_line_gives_no_event :
  strip bad_line <> ""
  /\ raises (json_loads (strip bad_line)) = true
  /\ CodexStream.parse_line bad_line CodexStream.new_parser
     = (CodexStream.new_parser, Ok None)
  /\ ~ (forall line q, strip line <> "" ->
          raises (json_loads (strip line)) = true ->
          exists ev, snd (CodexStream.parse_line line q) = Ok (Some ev)
                     /\ CodexStream.type ev = CodexStream.ERROR).
Proof.
  split; [discriminate|]. split; [reflexivity|]. split; [reflexivity|].
  intros H.
  destruct (H bad_line CodexStream.new_parser) as (ev & Hev & _);
    [discriminate|reflexivity|].
  vm_compute in Hev. discriminate.
Qed.

(** C3 (amended): on a line that is not blank and on which the decoder
    raises [JSONDecodeError], neither [parse_line] raises and neither
    changes its parser; the claude variant returns an event of kind ERROR
    whose data is the description of the parse error, the codex variant
    returns no event.  The statement holds for every decoder, and so for
    [json.loads] whatever it accepts: the lines on which it raises another
    exception, and the lines it decodes, are not malformed lines in this
    sense. *)
Theorem malformed_line_does_not_raise (loads : string -> res json)
  (line msg : string) :
  strip line <> "" ->
  loads (strip line) = Raise (JSONDecodeError msg) ->
  (forall p, ClaudeStream.parse_line_with loads line p
             = (p, Ok (Some (ClaudeStream.mkEvent ClaudeStream.ERROR
                               (JStr ("JSON parse error: " ++ msg))
                               (JObj [])))))
  /\ (forall q, CodexStream.parse_line_with loads line q = (q, Ok None)).
Proof.
  intros Hne E.
  assert (Hb : String.eqb (strip line) "" = false)
    by (apply String.eqb_neq; exact Hne).
  split; intros p.
  - unfold ClaudeStream.parse_line_with. rewrite Hb, E. reflexivity.
  - unfold CodexStream.parse_line_with. rewrite Hb, E. reflexivity.
Qed.

Lemma malformed_line_does_not_raise_witness :
  strip bad_line <> ""
  /\ (exists msg, json_loads (strip bad_line) = Raise (JSONDecodeError msg))
  /\ (exists ev,
        (forall p, ClaudeStream.parse_line bad_line p = (p, Ok (Some ev)))
        /\ ClaudeStream.type ev = ClaudeStream.ERROR)
  /\ (forall q, CodexStream.parse_line bad_line q = (q, Ok None)).
Proof.
  assert (Hne : strip bad_line <> "") by discriminate.
  assert (E : json_loads (strip bad_line)
              = Raise (JSONDecodeError "Expecting value")) by reflexivity.
  destruct (malformed_line_does_not_raise json_loads bad_line _ Hne E)
    as [Hc Hx].
  split; [exact Hne|]. split; [eexists; exact E|].
  split; [|exact Hx].
  eexists. split; [exact Hc|reflexivity].
Defined.

(** *** Content blocks of one assistant line *)

Section ScanBlocks.
Import ClaudeStream.

Lemma scan_blocks_passed_over (data block : json) (rest : list json)
  (p : StreamParser) :
  passed_over block = true ->
  scan_blocks data (block :: rest) p = scan_blocks data rest p.
Proof.
  destruct block as [| | | | |kvs]; try discriminate.
  unfold passed_over, returns_on. intros H. apply negb_true_iff in H.
  repeat (apply orb_false_iff in H; destruct H as [H ?]).
  cbn [scan_blocks]. unfold bind, lift. cbn [py_get].
  destruct (py_eq_str (dict_get_or "type" kvs (JStr "")) "text") eqn:Et.
  - cbn [andb] in H. rewrite H. reflexivity.
  - repeat match goal with
           | Hx : py_eq_str _ _ = false |- _ => rewrite Hx; clear Hx
           end.
    reflexivity.
Qed.

Lemma scan_blocks_skip (data : json) (pre rest : list json)
  (p : StreamParser) :
  forallb passed_over pre = true ->
  scan_blocks data (pre ++ rest) p = scan_blocks data rest p.
Proof.
  induction pre as [|b pre IH]; [reflexivity|].
  cbn [forallb app]. intros H. apply andb_true_iff in H as [Hb Hpre].
  rewrite scan_blocks_passed_over by exact Hb. apply IH, Hpre.
Qed.

Lemma text_type_only (t : json) :
  py_eq_str t "text" = true ->
  py_eq_str t "tool_use" = false /\ py_eq_str t "tool_result" = false
  /\ py_eq_str t "thinking" = false.
Proof.
  destruct t as [| | |s| |]; try discriminate. cbn [py_eq_str].
  intros E. apply String.eqb_eq in E. subst s. repeat split.
Qed.

Lemma scan_blocks_returns (data block : json) (rest rest' : list json)
  (p : StreamParser) :
  returns_on block = true ->
  scan_blocks data (block :: rest) p = scan_blocks data (block :: rest') p.
Proof.
  destruct block as [| | | | |kvs]; try discriminate.
  unfold returns_on. intros H.
  cbn [scan_blocks]. unfold bind, lift. cbn [py_get].
  destruct (py_eq_str (dict_get_or "type" kvs (JStr "")) "text") eqn:Et.
  - destruct (py_truthy (dict_get_or "text" kvs (JStr ""))); [reflexivity|].
    destruct (text_type_only _ Et) as (E1 & E2 & E3).
    rewrite E1, E2, E3 in H. discriminate.
  - destruct (py_eq_str _ "tool_use"); [reflexivity|].
    destruct (py_eq_str _ "tool_result"); [reflexivity|].
    destruct (py_eq_str _ "thinking"); [reflexivity|discriminate].
Qed.

Lemma scan_blocks_returns_event (data block : json) (rest : list json)
  (p : StreamParser) :
  returns_on block = true ->
  exists ev, snd (scan_blocks data (block :: rest) p) = Ok (Some ev).
Proof.
  destruct block as [| | | | |kvs]; try discriminate.
  unfold returns_on. intros H.
  cbn [scan_blocks]. unfold bind, lift. cbn [py_get].
  unfold fire_if, when, bind, get, set_stats, modify, ret, fire.
  destruct (py_eq_str (dict_get_or "type" kvs (JStr "")) "text") eqn:Et.
  - destruct (py_truthy (dict_get_or "text" kvs (JStr ""))).
    + destruct (on_text p); cbn; eauto.
    + destruct (text_type_only _ Et) as (E1 & E2 & E3).
      rewrite E1, E2, E3 in H. discriminate.
  - destruct (py_eq_str _ "tool_use").
    { destruct (on_tool_use p); cbn; eauto. }
    destruct (py_eq_str _ "tool_result").
    { destruct (on_tool_result p); cbn; eauto. }
    destruct (py_eq_str _ "thinking"); [|discriminate].
    destruct (py_truthy _ && on_thinking p); cbn; eauto.
Qed.

Lemma scan_one_block_counts (data block : json) (p : StreamParser) :
  (counted (fst (scan_blocks data [block] p)) <= counted p + 1)%Z
  /\ (called (fst (scan_blocks data [block] p)) <= called p + 1)%nat.
Proof.
  unfold counted, called.
  destruct block as [| | | | |kvs];
    try (cbn; split; lia).
  cbn [scan_blocks]. unfold bind, lift. cbn [py_get].
  unfold fire_if, when, bind, get, set_stats, modify, ret, fire.
  repeat match goal with
         | |- context [if ?c then _ else _] => destruct c
         end;
    cbn; rewrite ?length_app; cbn; split; lia.
Qed.

Lemma parse_line_assistant (line : string) (data : json)
  (blocks : list json) (p : StreamParser) :
  assistant_line line data blocks ->
  parse_line line p = scan_blocks data blocks p.
Proof.
  intros (Hne & Hload & kvs & mkvs & -> & Ht & Hm & Hc).
  unfold parse_line, parse_line_with.
  apply String.eqb_neq in Hne. rewrite Hne, Hload.
  unfold classify, bind, lift. cbn [py_get]. unfold dict_get_or.
  rewrite Ht. cbn [py_eq_str]. cbn [String.eqb Ascii.eqb Bool.eqb].
  rewrite Hm. cbn [py_get]. unfold dict_get_or. rewrite Hc.
  cbn [py_iter]. reflexivity.
Qed.

End ScanBlocks.

(** Against C9 as stated: the claim that the decoder returns on the first
    block of a known type fails; a text block with empty text is passed
    over, and the tool use after it is returned, counted and reported to
    its callback. *)
Lemma empty_text_block_is_passed_over :
  (exists data first second,
      assistant_line empty_text_then_tool data [first; second]
      /\ known_type first = true
      /\ exists p' ev,
           ClaudeStream.parse_line empty_text_then_tool listening_parser
           = (p', Ok (Some ev))
           /\ ClaudeStream.type ev = ClaudeStream.TOOL_USE
           /\ ClaudeStream.tool_uses (ClaudeStream.stats p') = 1%Z
           /\ ClaudeStream.calls p'
              = [ClaudeStream.OnToolUse (JStr "Read") (JObj [])])
  /\ ~ (forall data block post p,
          known_type block = true ->
          ClaudeStream.scan_blocks data (block :: post) p
          = ClaudeStream.scan_blocks data [block] p).
Proof.
  split.
  - eexists; eexists; eexists. split.
    + split; [discriminate|]. split; [vm_compute; reflexivity|].
      eexists; eexists. repeat split; reflexivity.
    + split; [reflexivity|].
      eexists; eexists. split; [vm_compute; reflexivity|].
      repeat split; reflexivity.
  - intros H.
    specialize (H JNull
                  (JObj [("type", JStr "text"); ("text", JStr "")])
                  [JObj [("type", JStr "tool_use")]]
                  ClaudeStream.new_parser eq_refl).
    vm_compute in H. discriminate.
Qed.

(** C9 (amended): for a decoded assistant line, the loop over the content
    blocks passes over the dicts that are of no known type or are text
    blocks with empty text, and returns on the first block that is a
    tool_use, tool_result or thinking block or a text block with non-empty
    text.  The line then yields exactly one event, and the parser is left
    as by a line holding that block alone: nothing after it is counted or
    reported to a callback (at most one count, at most one call). *)
Theorem first_returning_block_wins (line : string) (data : json)
  (pre post : list json) (block : json) (p : ClaudeStream.StreamParser) :
  assistant_line line data (pre ++ block :: post) ->
  forallb passed_over pre = true ->
  returns_on block = true ->
  ClaudeStream.parse_line line p = ClaudeStream.scan_blocks data [block] p
  /\ (exists ev, snd (ClaudeStream.parse_line line p) = Ok (Some ev))
  /\ (counted (fst (ClaudeStream.parse_line line p)) <= counted p + 1)%Z
  /\ (called (fst (ClaudeStream.parse_line line p)) <= called p + 1)%nat.
Proof.
  intros Hline Hpre Hblock.
  assert (E : ClaudeStream.parse_line line p
              = ClaudeStream.scan_blocks data [block] p).
  { rewrite (parse_line_assistant _ _ _ _ Hline).
    rewrite scan_blocks_skip by exact Hpre.
    apply scan_blocks_returns, Hblock. }
  split; [exact E|]. rewrite E. split.
  - apply scan_blocks_returns_event, Hblock.
  - apply scan_one_block_counts.
Qed.

Lemma first_returning_block_wins_witness :
  exists data,
    assistant_line empty_text_then_tool data
      ([JObj [("type", JStr "text"); ("text", JStr "")]]
       ++ JObj [("type", JStr "tool_use"); ("name", JStr "Read");
                ("input", JObj [])] :: [])
    /\ ClaudeStream.parse_line empty_text_then_tool listening_parser
       = ClaudeStream.scan_blocks data
           [JObj [("type", JStr "tool_use"); ("name", JStr "Read");
                  ("input", JObj [])]] listening_parser.
Proof.
  eexists.
  assert (H : assistant_line empty_text_then_tool
                (JObj [("type", JStr "assistant");
                       ("message",
                        JObj [("content",
                               JArr ([JObj [("type", JStr "text");
                                            ("text", JStr "")]]
                                     ++ JObj [("type", JStr "tool_use");
                                              ("name", JStr "Read");
                                              ("input", JObj [])] :: []))])])
                ([JObj [("type", JStr "text"); ("text", JStr "")]]
                 ++ JObj [("type", JStr "tool_use"); ("name", JStr "Read");
                          ("input", JObj [])] :: [])).
  { split; [discriminate|]. split; [vm_compute; reflexivity|].
    eexists; eexists. repeat split; reflexivity. }
  split; [exact H|].
  apply (first_returning_block_wins _ _ _ _ _ listening_parser H);
    reflexivity.
Defined.

(** ** Sessions and their history *)


(** [add_turn], step by step: the append, and then the addition. *)
Lemma add_turn_outcome (t : Stateful.Turn) (s : Stateful.Session) :
  Stateful.add_turn t s
  = match Stateful.py_iadd (Stateful.total_cost_usd s) (Stateful.cost_usd t) with
    | Ok total => (Stateful.set_total (Stateful.append_turn s t) total, Ok tt)
    | Raise e => (Stateful.append_turn s t, Raise e)
    end.
Proof.
  unfold Stateful.add_turn, bind, modify, get, lift.
  cbn [Stateful.append_turn Stateful.total_cost_usd].
  destruct (Stateful.py_iadd _ _); reflexivity.
Qed.

Lemma add_turn_appends (t : Stateful.Turn) (s s' : Stateful.Session)
  (r : res unit) :
  Stateful.add_turn t s = (s', r) ->
  Stateful.turns s' = Stateful.turns s ++ [t].
Proof.
  rewrite add_turn_outcome.
  destruct (Stateful.py_iadd _ _); intros [= <- _]; reflexivity.
Qed.

(** Adding to a total that is a number: the cost must be a number, and
    the two must add. *)
Lemma iadd_number (n : number) (cost : json) :
  Stateful.py_iadd (JNum n) cost
  = match as_number cost with
    | Some c =>
        match number_add n c with
        | Ok m => Ok (JNum m)
        | Raise e => Raise e
        end
    | None => Raise TypeError
    end.
Proof. destruct cost; reflexivity. Qed.


Lemma sum_costs_unpriced (ts : list Stateful.Turn) (t : Stateful.Turn) :
  as_number (Stateful.cost_usd t) = None -> sum_costs (ts ++ [t]) = None.
Proof.
  intros Hc. induction ts as [|u ts IH]; cbn [sum_costs app].
  - now rewrite Hc.
  - rewrite IH. destruct (as_number (Stateful.cost_usd u)); reflexivity.
Qed.













(** *** Saving and loading *)

Lemma turn_round_trip (t : Stateful.Turn) :
  Stateful.turn_from_dict (Stateful.turn_to_dict t) = Ok t.
Proof. destruct t. reflexivity. Qed.

Lemma turns_round_trip (ts : list Stateful.Turn) :
  Stateful.turns_from_list (map Stateful.turn_to_dict ts) = Ok ts.
Proof.
  induction ts as [|t ts IH]; [reflexivity|].
  cbn [map Stateful.turns_from_list].
  rewrite turn_round_trip. cbn [Stateful.rbind]. rewrite IH. reflexivity.
Qed.

Lemma session_round_trip (s : Stateful.Session) :
  Stateful.from_dict (Stateful.to_dict s) = Ok s.
Proof.
  destruct s as [sid nm cr ts total parent].
  unfold Stateful.to_dict, Stateful.from_dict.
  cbn [Stateful.session_id Stateful.name Stateful.created_at Stateful.turns
       Stateful.total_cost_usd Stateful.parent_session_id].
  change (dict_get_or "turns" _ (JArr []))
    with (JArr (map Stateful.turn_to_dict ts)).
  cbn [py_iter Stateful.rbind]. rewrite turns_round_trip.
  destruct parent; reflexivity.
Qed.

(** C8: saving a session and loading it back by name yields a session
    equal to the one saved, whatever its turns; saving the loaded session
    again leaves the session file, and the whole store, as the first save
    left them.  The underlying fact is that [from_dict] inverts
    [to_dict]. *)
Theorem save_load_round_trip (a : Stateful.StatefulAgent) (r : nat)
  (s : Stateful.Session) :
  Stateful.heap a !! r = Some s ->
  Stateful.from_dict (Stateful.to_dict s) = Ok s
  /\ exists a1 a2 r',
       Stateful._save_session r a = (a1, Ok tt)
       /\ Stateful._load_session (Stateful.name s) a1 = (a2, Ok (Some r'))
       /\ Stateful.heap a2 !! r' = Some s
       /\ r' <> r
       /\ Stateful.heap a2 !! r = Some s
       /\ exists a3,
            Stateful._save_session r' a2 = (a3, Ok tt)
            /\ Stateful.storage a3 = Stateful.storage a1
            /\ Stateful.storage a3 !! Stateful._session_path (Stateful.name s)
               = Some (Stateful.to_dict s).
Proof.
  intros Hr. split; [apply session_round_trip|].
  set (path := Stateful._session_path (Stateful.name s)).
  set (a1 := {| Stateful.storage := <[path := Stateful.to_dict s]> (Stateful.storage a);
                Stateful.heap := Stateful.heap a;
                Stateful._current_session := Stateful._current_session a;
                Stateful.launches := Stateful.launches a |}).
  set (r' := fresh (dom (Stateful.heap a))).
  set (a2 := {| Stateful.storage := Stateful.storage a1;
                Stateful.heap := <[r' := s]> (Stateful.heap a);
                Stateful._current_session := Stateful._current_session a;
                Stateful.launches := Stateful.launches a |}).
  assert (Hfresh : r' <> r).
  { intros E. apply (is_fresh (dom (Stateful.heap a))). fold r'. rewrite E.
    apply elem_of_dom. eauto. }
  exists a1, a2, r'.
  split.
  { unfold Stateful._save_session, Stateful.deref, Stateful.write_file,
      bind, get, modify, ret. rewrite Hr. reflexivity. }
  split.
  { unfold Stateful._load_session, bind, get.
    cbn [Stateful.storage a1]. fold path. rewrite lookup_insert_eq.
    unfold lift. rewrite session_round_trip.
    unfold Stateful.allocate, Stateful.store_object, bind, get, modify, ret.
    reflexivity. }
  split; [cbn; apply lookup_insert_eq|].
  split; [exact Hfresh|].
  split; [cbn; rewrite lookup_insert_ne by exact Hfresh; exact Hr|].
  eexists. split.
  { unfold Stateful._save_session, Stateful.deref, Stateful.write_file,
      bind, get, modify, ret.
    cbn [Stateful.heap a2]. rewrite lookup_insert_eq. reflexivity. }
  cbn [Stateful.storage a2 a1]. fold path.
  split; [apply insert_insert_eq|].
  rewrite insert_insert_eq. apply lookup_insert_eq.
Qed.

Lemma save_load_round_trip_witness :
  Stateful.heap sample_agent !! 0%nat = Some sample_session
  /\ exists a1 a2 r',
       Stateful._save_session 0%nat sample_agent = (a1, Ok tt)
       /\ Stateful._load_session "A" a1 = (a2, Ok (Some r'))
       /\ Stateful.heap a2 !! r' = Some sample_session.
Proof.
  assert (H : Stateful.heap sample_agent !! 0%nat = Some sample_session)
    by reflexivity.
  split; [exact H|].
  destruct (save_load_round_trip sample_agent 0%nat sample_session H)
    as (_ & a1 & a2 & r' & Hs & Hl & Hh & _).
  exists a1, a2, r'. repeat split; assumption.
Defined.

(** *** Forking *)

Lemma subprocess_run_frame (cli : environment) (cmd : list json)
  (a a1 : Stateful.StatefulAgent) (r : res Completed) :
  Stateful.subprocess_run cli cmd a = (a1, r) ->
  Stateful.heap a1 = Stateful.heap a
  /\ Stateful.storage a1 = Stateful.storage a
  /\ Stateful._current_session a1 = Stateful._current_session a.
Proof.
  unfold Stateful.subprocess_run, bind, lift, get, Stateful.log_launch, modify.
  destruct (argv_strings cmd); intros [= <- _]; repeat split.
Qed.

Lemma append_length (s t : string) :
  String.length (String.append s t) = (String.length s + String.length t)%nat.
Proof.
  induction s as [|c s IH]; [reflexivity|].
  change (String.append (String c s) t) with (String c (String.append s t)).
  cbn [String.length]. now rewrite IH.
Qed.

Lemma append_cancel_r (s1 s2 t : string) :
  String.append s1 t = String.append s2 t -> s1 = s2.
Proof.
  revert s2. induction s1 as [|c s1 IH]; intros [|d s2] H.
  - reflexivity.
  - apply (f_equal String.length) in H. rewrite !append_length in H.
    cbn [String.length] in H. lia.
  - apply (f_equal String.length) in H. rewrite !append_length in H.
    cbn [String.length] in H. lia.
  - change (String c (String.append s1 t) = String d (String.append s2 t)) in H.
    injection H as -> H. f_equal. apply IH, H.
Qed.

Lemma session_path_inj (n1 n2 : string) :
  Stateful._session_path n1 = Stateful._session_path n2 -> n1 = n2.
Proof. apply append_cancel_r. Qed.

(** C7: when [fork_session] succeeds on a current session A, the session
    object of A is what it was before the call, turn list included, and so
    is every other session object that existed; the returned session B is
    a new object whose [parent_session_id] is A's session identifier, whose
    name is the new name, and which has become the current session and has
    been saved under its name.  No session file of another name is
    touched. *)
Theorem fork_leaves_parent_unchanged (cli : environment)
  (a a' : Stateful.StatefulAgent)
  (new_name prompt_text now1 now2 : string) (pa pb : nat)
  (A : Stateful.Session) :
  Stateful._current_session a = Some pa ->
  Stateful.heap a !! pa = Some A ->
  Stateful.fork_session cli new_name prompt_text now1 now2 a = (a', Ok pb) ->
  Stateful.heap a' !! pa = Some A
  /\ pb <> pa
  /\ (forall r, r <> pb -> Stateful.heap a' !! r = Stateful.heap a !! r)
  /\ exists B,
       Stateful.heap a' !! pb = Some B
       /\ Stateful.parent_session_id B = Stateful.session_id A
       /\ Stateful.name B = new_name
       /\ length (Stateful.turns B) = 1%nat
       /\ Stateful._current_session a' = Some pb
       /\ Stateful.storage a' !! Stateful._session_path new_name
          = Some (Stateful.to_dict B)
       /\ forall nm, nm <> new_name ->
                     Stateful.storage a' !! Stateful._session_path nm
                     = Stateful.storage a !! Stateful._session_path nm.
Proof.
  intros Hc Hp Hf.
  unfold Stateful.fork_session in Hf.
  unfold bind at 1 in Hf. unfold get at 1 in Hf. rewrite Hc in Hf.
  unfold bind at 1 in Hf. unfold Stateful.deref at 1 in Hf.
  unfold bind at 1, get at 1 in Hf. rewrite Hp in Hf. unfold ret at 1 in Hf.
  unfold bind at 1 in Hf.
  destruct (Stateful.subprocess_run cli _ a) as [a1 [result|e]] eqn:Erun;
    [|discriminate].
  apply subprocess_run_frame in Erun as (Hh & Hs & Hcur).
  destruct (negb (returncode result =? 0)%Z); [discriminate|].
  lifted_ok Hf data. lifted_ok Hf sid.
  unfold bind at 1, Stateful.deref at 1, bind at 1, get at 1 in Hf.
  rewrite Hh, Hp in Hf. unfold ret at 1 in Hf.
  unfold bind at 1, Stateful.allocate, bind at 1, get at 1 in Hf.
  unfold bind at 1, Stateful.store_object at 1, modify at 1 in Hf.
  unfold ret at 1 in Hf.
  rewrite Hh in Hf.
  set (f := fresh (dom (Stateful.heap a))) in Hf.
  assert (Hfresh : f <> pa).
  { intros E. apply (is_fresh (dom (Stateful.heap a))). fold f. rewrite E.
    apply elem_of_dom. eauto. }
  unfold bind at 1, Stateful.deref at 1, bind at 1, get at 1 in Hf.
  cbn [Stateful.heap] in Hf.
  rewrite lookup_insert_ne in Hf by exact Hfresh. rewrite Hp in Hf.
  unfold ret at 1 in Hf.
  lifted_ok Hf rs. lifted_ok Hf c. lifted_ok Hf d.
  unfold bind at 1, Stateful.add_turn_at, bind at 1, Stateful.deref at 1,
    bind at 1, get at 1 in Hf.
  cbn [Stateful.heap] in Hf. rewrite lookup_insert_eq in Hf.
  unfold ret at 1 in Hf.
  rewrite add_turn_outcome in Hf.
  cbn [Stateful.new_session Stateful.total_cost_usd Stateful.cost_usd] in Hf.
  rewrite iadd_number in Hf.
  destruct (as_number c) as [cost|];
    [destruct (number_add (NFloat 0) cost) as [total|e]|];
    cbn [fst snd] in Hf;
    unfold Stateful._save_session, Stateful.deref,
      Stateful.store_object, Stateful.write_file, Stateful.set_current,
      bind, get, modify, ret, lift in Hf; [|discriminate|discriminate].
  cbn [Stateful.heap Stateful.storage Stateful._current_session
       Stateful.launches] in Hf.
  rewrite lookup_insert_eq in Hf.
  injection Hf as <- <-.
  cbn [Stateful.heap Stateful.storage Stateful._current_session
       Stateful.append_turn Stateful.set_total Stateful.name].
  split; [rewrite !lookup_insert_ne by exact Hfresh; exact Hp|].
  split; [exact Hfresh|].
  split.
  { intros r Hr. rewrite !lookup_insert_ne by (intros E; apply Hr; now subst).
    reflexivity. }
  eexists. split; [apply lookup_insert_eq|].
  cbn [Stateful.parent_session_id Stateful.name Stateful.turns].
  repeat split; [apply lookup_insert_eq|].
  intros nm Hnm. rewrite Hs. apply lookup_insert_ne.
  intros E. apply Hnm. symmetry. apply session_path_inj, E.
Qed.

Lemma fork_leaves_parent_unchanged_witness :
  exists a' pb,
    Stateful.fork_session fork_cli "B" "try another way" "t1" "t2" sample_agent
    = (a', Ok pb)
    /\ Stateful.heap a' !! 0%nat = Some sample_session
    /\ pb <> 0%nat.
Proof.
  destruct (Stateful.fork_session fork_cli "B" "try another way" "t1" "t2"
              sample_agent) as [a' [pb|e]] eqn:E.
  - exists a', pb. split; [reflexivity|].
    destruct (fork_leaves_parent_unchanged fork_cli sample_agent a'
                "B" "try another way" "t1" "t2" 0%nat pb sample_session
                eq_refl eq_refl E) as (H1 & H2 & _).
    split; assumption.
  - vm_compute in E. discriminate E.
Defined.

(** ** Session clients *)

Lemma wrapper_reset_discards (w : Wrapper.ClaudeWrapper) :
  Wrapper.reset w = (wrapper_discarded w, Ok tt).
Proof.
  unfold Wrapper.reset, bind, get, when, Wrapper.set_session_file,
    Wrapper.set_session_id, modify, ret.
  destruct (Wrapper.session_file w) eqn:E; cbn; unfold wrapper_discarded;
    rewrite ?E; reflexivity.
Qed.

Lemma agent_get_session_id_recursion (cli : environment) (depth : nat)
  (a : Agent.ClaudeAgent) :
  py_truthy (Agent._session_id a) = false ->
  Agent.session_file a = None ->
  Agent.get_session_id cli depth a = (a, Raise RecursionError).
Proof.
  revert a. induction depth as [|d IH]; intros a Hid Hfile;
    cbn [Agent.get_session_id]; unfold bind at 1, get at 1;
    rewrite Hid, Hfile; [reflexivity|].
  unfold Agent._run_once_with, Agent._build_command_with.
  unfold bind, get. rewrite (IH a Hid Hfile). reflexivity.
Qed.

Lemma agent_reset_session_discards (cli : environment) (depth : nat)
  (a : Agent.ClaudeAgent) :
  Agent.reset_session cli depth a
  = Agent.get_session_id cli depth (agent_discarded a).
Proof.
  unfold Agent.reset_session, bind, get, when, Agent.set_session_file,
    Agent.set_session_id, modify, ret.
  destruct (Agent.session_file a) eqn:E; cbn; unfold agent_discarded;
    rewrite ?E; reflexivity.
Qed.

(** [ClaudeWrapper.reset] is total and idempotent: in every state it
    returns without raising, also when no session file exists; it leaves
    no session file and no identifier in memory and nothing else changed;
    a second call leaves the state of the first. *)
Lemma wrapper_reset_total_and_idempotent :
  (forall w, Wrapper.reset w = (wrapper_discarded w, Ok tt))
  /\ (forall w, Wrapper.session_file (fst (Wrapper.reset w)) = None
                /\ Wrapper._session_id (fst (Wrapper.reset w)) = JNull)
  /\ (forall w, Wrapper.reset (fst (Wrapper.reset w))
                = (fst (Wrapper.reset w), Ok tt))
  /\ (forall w, Wrapper.session_file w = None ->
                snd (Wrapper.reset w) = Ok tt).
Proof.
  split; [exact wrapper_reset_discards|].
  split; [intros w; rewrite wrapper_reset_discards; split; reflexivity|].
  split; [intros w; rewrite !wrapper_reset_discards; reflexivity|].
  intros w _; rewrite wrapper_reset_discards; reflexivity.
Qed.

(** C10 (the code departs from the claim): [ClaudeAgent.reset_session]
    raises in every state, also when no session file exists.  It discards
    the session file and the identifier in memory, as [ClaudeWrapper.reset]
    does, and then reads the property [session_id] to create the new
    session its docstring promises; with no file and no identifier that
    read calls [_run_once], whose [_build_command] reads [session_id]
    again, and the call runs into the recursion limit, whatever the limit
    is.  No process is launched and no session is created.  The state it
    leaves is the discarded one, and a second call leaves the same state
    and raises again.  [ClaudeWrapper.reset], the sibling, returns in
    every state. *)
Theorem agent_reset_session_raises :
  Agent.session_file fresh_agent = None
  /\ Agent.reset_session silent_cli 1000 fresh_agent
     = (fresh_agent, Raise RecursionError)
  /\ (forall cli depth a,
         Agent.reset_session cli depth a
         = (agent_discarded a, Raise RecursionError))
  /\ (forall cli depth a,
         Agent.reset_session cli depth
           (fst (Agent.reset_session cli depth a))
         = (fst (Agent.reset_session cli depth a), Raise RecursionError))
  /\ (forall cli depth a,
         Agent.launches (fst (Agent.reset_session cli depth a))
         = Agent.launches a)
  /\ (forall w, Wrapper.reset w = (wrapper_discarded w, Ok tt)).
Proof.
  assert (H : forall cli depth a,
             Agent.reset_session cli depth a
             = (agent_discarded a, Raise RecursionError)).
  { intros cli depth a. rewrite agent_reset_session_discards.
    apply agent_get_session_id_recursion; reflexivity. }
  split; [reflexivity|].
  split; [rewrite H; reflexivity|].
  split; [exact H|].
  split; [intros cli depth a; rewrite !H; reflexivity|].
  split; [intros cli depth a; rewrite H; reflexivity|].
  exact wrapper_reset_discards.
Qed.

(** *** Exit codes in batch mode *)

(** [ClaudeAgent._run_once] raises whenever the process it launches exits
    with a code other than 0. *)
Lemma agent_run_once_nonzero_exit_raises (cli : environment) (depth : nat)
  (prompt_text : string) (a : Agent.ClaudeAgent) :
  (forall n argv p, cli n argv = Ok p -> returncode p <> 0%Z) ->
  raises (snd (Agent._run_once cli depth prompt_text a)) = true.
Proof.
  intros Hcli.
  unfold Agent._run_once, Agent._run_once_with. unfold bind at 1.
  destruct (Agent._build_command_with _ _ _ a) as [a1 [cmd|e]];
    [|reflexivity].
  unfold bind at 1, Agent.launch, bind at 1, lift at 1.
  destruct (argv_strings cmd) as [argv|e]; [|reflexivity].
  unfold bind, get, Agent.log_launch, modify, lift.
  destruct (cli _ argv) as [p|e] eqn:E; [|reflexivity].
  apply Hcli in E. apply Z.eqb_neq in E. rewrite E. reflexivity.
Qed.

(** C1 (the code departs from the claim): [ClaudeWrapper.run] never looks
    at the exit code.  With a session file in place and a CLI that prints a
    JSON object and exits with code 1, it returns a [Result] built from that
    object instead of raising. *)
Theorem wrapper_run_returns_on_nonzero_exit :
  (forall n argv, exists p, failing_cli n argv = Ok p /\ returncode p = 1%Z)
  /\ exists w',
       Wrapper.run failing_cli "task" saved_wrapper
       = (w', Ok {| Wrapper.text := JStr "partial";
                    Wrapper.cost_usd := JNum (NInt 0);
                    Wrapper.duration_ms := JNum (NInt 0);
                    Wrapper.session_id := JStr "sess-1";
                    Wrapper.is_error := JBool false |})
       /\ Wrapper.launches w'
          = [["claude"; "-p"; "--output-format"; "json"; "--permission-mode";
              "default"; "--resume"; "sess-1"; "task"]].
Proof.
  split; [intros n argv; eexists; split; reflexivity|].
  eexists. split; vm_compute; reflexivity.
Qed.

(** *** Streams that end without a result event *)

Lemma agent_consume_no_result (lines : list string) :
  no_result_event lines = true ->
  forall full_text a a1 seen,
    Agent.consume lines full_text None a = (a1, Ok seen) ->
    snd seen = None.
Proof.
  induction lines as [|line rest IH]; intros Hno full_text a a1 seen.
  - cbn. intros [= _ <-]. reflexivity.
  - cbn [no_result_event forallb] in Hno.
    apply andb_true_iff in Hno as [Hline Hrest].
    apply negb_true_iff in Hline. unfold decodes_to_result in Hline.
    cbn [Agent.consume].
    destruct (String.eqb (strip line) ""); [apply IH, Hrest|].
    lifted_or data discriminate. lifted_or t discriminate.
    destruct (py_eq_str t "assistant").
    + lifted_or m discriminate. lifted_or c discriminate.
      lifted_or blocks discriminate.
      unfold bind at 1.
      destruct (Agent.text_blocks blocks full_text a) as [a2 [ft|]];
        [|discriminate].
      apply IH, Hrest.
    + rewrite Hline. apply IH, Hrest.
Qed.

(** [ClaudeAgent.run] in streaming mode raises whenever the output of the
    process it launches ends without a result event. *)
Lemma agent_stream_without_result_raises (cli : environment) (depth : nat)
  (prompt_text : string) (a : Agent.ClaudeAgent) :
  (forall n argv p, cli n argv = Ok p -> no_result_event (stdout p) = true) ->
  raises (snd (Agent.run cli depth prompt_text true a)) = true.
Proof.
  intros Hcli.
  unfold Agent.run. cbn [negb]. unfold bind at 1.
  destruct (Agent._build_command cli depth prompt_text true a)
    as [a1 [cmd|e]]; [|reflexivity].
  unfold bind at 1, Agent.launch, bind at 1, lift at 1.
  destruct (argv_strings cmd) as [argv|e]; [|reflexivity].
  unfold bind at 1, get at 1, bind at 1, Agent.log_launch, modify, lift.
  destruct (cli _ argv) as [p|e] eqn:E; [|reflexivity].
  apply Hcli in E.
  unfold bind at 1.
  destruct (Agent.consume (stdout p) [] None _) as [a2 [seen|e]] eqn:Ec;
    [|reflexivity].
  apply (agent_consume_no_result _ E) in Ec. rewrite Ec.
  destruct (negb (returncode p =? 0)%Z); reflexivity.
Qed.

(** C2 (the code departs from the claim): [AgentService.run_task] starts
    from an empty result record and never checks that a result event was
    seen.  When the process exits with code 0 and prints nothing, the task
    is reported as SUCCESS at the first attempt, with cost 0 and duration
    0, and counted as completed. *)
Theorem run_task_succeeds_without_result_event :
  (forall n argv, silent_cli n argv = Ok (mkCompleted 0 [] ""))
  /\ exists a',
       Service.run_task silent_cli 1000 "task" "t1" false sample_service
       = (a', Ok {| Service.task_id := "t1"; Service.prompt := "task";
                    Service.status := Service.SUCCESS; Service.output := "";
                    Service.cost_usd := JNum (NInt 0);
                    Service.duration_ms := JNum (NInt 0);
                    Service.attempts := 1; Service.error := JNull;
                    Service.output_file := Some "t1.jsonl" |})
       /\ Service.tasks_completed (Service.stats a') = 1%Z
       /\ Service.tasks_failed (Service.stats a') = 0%Z.
Proof.
  split; [reflexivity|].
  eexists. split; [vm_compute; reflexivity|]. split; reflexivity.
Qed.

(** ** Retries *)

Section RunTask.
Import Service.
Variable cli : environment.

Lemma same_core_refl (a : AgentService) : same_core a a.
Proof. repeat split. Qed.

Lemma same_core_trans (a b c : AgentService) :
  same_core a b -> same_core b c -> same_core a c.
Proof.
  unfold same_core. intros (?&?&?&?&?&?&?) (?&?&?&?&?&?&?).
  repeat split; congruence.
Qed.

Lemma text_blocks_core (on_output : bool) (blocks : list json) :
  forall text_output a, same_core a (fst (text_blocks on_output blocks text_output a)).
Proof.
  induction blocks as [|block rest IH]; intros ft a; [apply same_core_refl|].
  cbn [text_blocks]. lifted_or t ltac:(apply same_core_refl).
  destruct (py_eq_str t "text"); [|apply IH].
  lifted_or text ltac:(apply same_core_refl).
  unfold bind at 1.
  destruct on_output; cbn [when].
  - unfold call_on_output at 1, modify at 1.
    eapply same_core_trans; [|apply IH]. repeat split.
  - unfold ret at 1. apply IH.
Qed.

Lemma text_blocks_result (on_output : bool) (blocks : list json) :
  forall text_output a b,
    snd (text_blocks on_output blocks text_output a)
    = snd (text_blocks on_output blocks text_output b).
Proof.
  induction blocks as [|block rest IH]; intros ft a b; [reflexivity|].
  cbn [text_blocks]. unfold bind, lift, when, ret, call_on_output, modify.
  destruct (py_get block "type" JNull) as [t|]; [|reflexivity].
  destruct (py_eq_str t "text"); [|apply IH].
  destruct (py_get block "text" (JStr "")) as [text|]; [|reflexivity].
  destruct on_output; apply IH.
Qed.

Lemma handle_data_core (on_output : bool) (data : json)
  (text_output : list json) (result_data : json) (a : AgentService) :
  same_core a (fst (handle_data on_output data text_output result_data a)).
Proof.
  unfold handle_data. lifted_or t ltac:(apply same_core_refl).
  destruct (py_eq_str t "assistant").
  - lifted_or m ltac:(apply same_core_refl).
    lifted_or c ltac:(apply same_core_refl).
    lifted_or blocks ltac:(apply same_core_refl).
    unfold bind.
    pose proof (text_blocks_core on_output blocks text_output a) as H.
    destruct (text_blocks on_output blocks text_output a) as [a1 [ft|]];
      exact H.
  - destruct (py_eq_str t "result"); apply same_core_refl.
Qed.

Lemma handle_data_result (on_output : bool) (data : json)
  (text_output : list json) (result_data : json) (a b : AgentService) :
  snd (handle_data on_output data text_output result_data a)
  = snd (handle_data on_output data text_output result_data b).
Proof.
  unfold handle_data. unfold bind, lift, ret.
  destruct (py_get data "type" (JStr "")) as [t|]; [|reflexivity].
  destruct (py_eq_str t "assistant").
  - destruct (py_get data "message" _) as [m|]; [|reflexivity].
    destruct (py_get m "content" _) as [c|]; [|reflexivity].
    destruct (py_iter c) as [blocks|]; [|reflexivity].
    pose proof (text_blocks_result on_output blocks text_output a b) as H.
    destruct (text_blocks on_output blocks text_output a) as [a1 [ft|]],
             (text_blocks on_output blocks text_output b) as [b1 [ft'|]];
      cbn in H |- *; congruence.
  - destruct (py_eq_str t "result"); reflexivity.
Qed.

Lemma write_line_core (file line : string) (a : AgentService) :
  same_core a (fst (write_line file line a)).
Proof. repeat split. Qed.

Lemma consume_core (file : string) (on_output : bool) (lines : list string) :
  forall text_output result_data a,
    same_core a (fst (consume file on_output lines text_output result_data a)).
Proof.
  induction lines as [|line rest IH]; intros ft rd a; [apply same_core_refl|].
  cbn [consume].
  destruct (String.eqb (strip line) ""); [apply IH|].
  unfold bind at 1. unfold write_line at 1, set_results at 1, modify at 1.
  match goal with
  | |- same_core a (fst (?f ?a1)) =>
      assert (Ha1 : same_core a a1) by (repeat split);
      generalize dependent a1
  end.
  intros a1 Ha1.
  destruct (json_loads (strip line)) as [data|e].
  - unfold bind at 1.
    pose proof (handle_data_core on_output data ft rd a1) as H.
    destruct (handle_data on_output data ft rd a1) as [a2 [seen|]].
    + eapply same_core_trans; [exact Ha1|].
      eapply same_core_trans; [exact H|]. apply IH.
    + eapply same_core_trans; [exact Ha1|exact H].
  - destruct e; try exact Ha1.
    eapply same_core_trans; [exact Ha1|apply IH].
Qed.

Lemma consume_result (file file' : string) (on_output : bool)
  (lines : list string) :
  forall text_output result_data a b,
    snd (consume file on_output lines text_output result_data a)
    = snd (consume file' on_output lines text_output result_data b).
Proof.
  induction lines as [|line rest IH]; intros ft rd a b; [reflexivity|].
  cbn [consume].
  destruct (String.eqb (strip line) ""); [apply IH|].
  unfold bind, write_line, set_results, modify, raise.
  match goal with
  | |- snd (match _ with _ => _ end ?a1) = snd (match _ with _ => _ end ?b1) =>
      generalize a1 b1
  end.
  intros a1 b1.
  destruct (json_loads (strip line)) as [data|e].
  - pose proof (handle_data_result on_output data ft rd a1 b1) as H.
    destruct (handle_data on_output data ft rd a1) as [a2 [seen|]],
             (handle_data on_output data ft rd b1) as [b2 [seen'|]];
      cbn [snd] in H; try discriminate; [|cbn [snd]; congruence].
    injection H as <-. apply IH.
  - destruct e; try reflexivity. apply IH.
Qed.

Lemma build_command_known (d : nat) (prompt_text sid : string)
  (a : AgentService) :
  _session_id a = JStr sid -> sid <> "" ->
  exists cmd,
    _build_command cli d prompt_text true a = (a, Ok cmd)
    /\ argv_strings cmd = Ok (task_argv a sid prompt_text).
Proof.
  intros Hid Hne.
  unfold _build_command, _build_command_with.
  destruct d; cbn [get_session_id].
  all: unfold bind, get, ret; rewrite Hid; cbn [py_truthy].
  all: apply String.eqb_neq in Hne; rewrite Hne; cbn [negb].
  all: eexists; (split; [reflexivity|]).
  all: unfold task_argv; destruct (mcp_config_exists a); reflexivity.
Qed.

Lemma attempt_body_fails (d : nat) (prompt_text tid sid : string)
  (on_output : bool) (attempt : Z) (a : AgentService) :
  _session_id a = JStr sid -> sid <> "" ->
  run_fails on_output (cli (launch_count (trace a)) (task_argv a sid prompt_text)) ->
  exists a1 e,
    attempt_body cli d prompt_text tid on_output attempt a = (a1, Raise e)
    /\ same_core (fst (log_launch (task_argv a sid prompt_text) a)) a1.
Proof.
  intros Hid Hne Hfail.
  destruct (build_command_known d prompt_text sid a Hid Hne)
    as (cmd & Hcmd & Hargv).
  unfold attempt_body. unfold bind at 1. rewrite Hcmd.
  unfold bind at 1, launch, bind at 1, lift at 1. rewrite Hargv.
  unfold bind at 1, get at 1, bind at 1.
  set (a0 := fst (log_launch (task_argv a sid prompt_text) a)).
  change (log_launch (task_argv a sid prompt_text) a) with (a0, @Ok unit tt).
  unfold lift at 1.
  destruct (cli _ _) as [p|e]; [|exists a0, e; split;
                                 [reflexivity|apply same_core_refl]].
  cbn [run_fails] in Hfail. unfold decoded in Hfail.
  unfold bind at 1, open_w, set_results, modify.
  unfold bind at 1.
  match goal with
  | |- context [consume ?f ?o ?l ?t ?r ?s] =>
      pose proof (consume_core f o l t r s) as Hcore;
      pose proof (consume_result f "" o l t r s sample_service) as Hres;
      assert (H0 : same_core a0 s) by (repeat split);
      destruct (consume f o l t r s) as [a2 [seen|e]]
  end.
  - cbn [snd] in Hres. rewrite <- Hres in Hfail.
    destruct Hfail as [Hfail|Hfail]; [|discriminate].
    apply Z.eqb_neq in Hfail. rewrite Hfail. cbn [negb].
    eexists; eexists. split; [reflexivity|].
    eapply same_core_trans; eassumption.
  - eexists; eexists. split; [reflexivity|].
    eapply same_core_trans; eassumption.
Qed.

Lemma attempt_body_succeeds (d : nat) (prompt_text tid sid : string)
  (on_output : bool) (attempt : Z) (a : AgentService) (p : Completed) :
  _session_id a = JStr sid -> sid <> "" ->
  cli (launch_count (trace a)) (task_argv a sid prompt_text) = Ok p ->
  clean_run on_output (stats a) p = true ->
  exists a1 r,
    attempt_body cli d prompt_text tid on_output attempt a = (a1, Ok r)
    /\ status r = SUCCESS /\ attempts r = attempt
    /\ task_id r = tid /\ prompt r = prompt_text
    /\ config a1 = config a
    /\ _session_id a1 = _session_id a
    /\ mcp_config_exists a1 = mcp_config_exists a
    /\ trace a1 = trace a ++ [Launched (task_argv a sid prompt_text)]
    /\ tasks_completed (stats a1) = (tasks_completed (stats a) + 1)%Z
    /\ tasks_failed (stats a1) = tasks_failed (stats a).
Proof.
  intros Hid Hne Hcli Hclean.
  destruct (build_command_known d prompt_text sid a Hid Hne)
    as (cmd & Hcmd & Hargv).
  unfold attempt_body. unfold bind at 1. rewrite Hcmd.
  unfold bind at 1, launch, bind at 1, lift at 1. rewrite Hargv.
  unfold bind at 1, get at 1, bind at 1.
  set (a0 := fst (log_launch (task_argv a sid prompt_text) a)).
  change (log_launch (task_argv a sid prompt_text) a) with (a0, @Ok unit tt).
  unfold lift at 1. rewrite Hcli.
  unfold bind at 1, open_w, set_results, modify.
  unfold bind at 1.
  unfold clean_run in Hclean.
  apply andb_true_iff in Hclean as [Hrc Hclean].
  unfold decoded in Hclean.
  match goal with
  | |- context [consume ?f ?o ?l ?t ?r ?s] =>
      pose proof (consume_core f o l t r s) as Hcore;
      pose proof (consume_result f "" o l t r s sample_service) as Hres;
      assert (H0 : same_core a0 s) by (repeat split);
      destruct (consume f o l t r s) as [a2 seen]
  end.
  cbn [fst snd] in Hcore, Hres. rewrite <- Hres in Hclean.
  destruct seen as [[texts rd]|]; [|discriminate].
  destruct rd as [| | | | |kvs]; try discriminate.
  repeat (apply andb_true_iff in Hclean as [Hclean ?]).
  cbn [fst snd]. rewrite Hrc. cbn [negb].
  pose proof (same_core_trans _ _ _ H0 Hcore) as (Hc1 & Hc2 & Hc3 & Hc4 & Hc5 & Hc6 & Hc7).
  unfold bind, lift, get, set_stats, modify, ret. cbn [py_get].
  rewrite Hc2. cbn [stats log_launch a0 fst modify].
  apply negb_true_iff in Hclean, H, H1, H2.
  destruct (py_add (total_cost_usd (stats a)) _) as [tc|]; [|discriminate].
  destruct (py_add (total_duration_ms (stats a)) _) as [td|]; [|discriminate].
  rewrite Hclean.
  destruct (py_join texts) as [out|]; [|discriminate].
  eexists; eexists. split; [reflexivity|].
  cbn [status attempts task_id prompt config _session_id trace
       mcp_config_exists stats tasks_completed tasks_failed].
  rewrite ?Hc1, ?Hc2, ?Hc3, ?Hc6, ?Hc7.
  repeat split.
Qed.

Lemma launch_count_launched (tr : list event) (argv : list string) :
  launch_count (tr ++ [Launched argv]) = S (launch_count tr).
Proof.
  unfold launch_count. rewrite List.filter_app, length_app. cbn. lia.
Qed.

Lemma launch_count_slept (tr : list event) (delay : Z) :
  launch_count (tr ++ [Slept delay]) = launch_count tr.
Proof.
  unfold launch_count. rewrite List.filter_app, length_app. cbn. lia.
Qed.

Lemma launch_count_backoff (tr : list event) (attempt : Z) :
  launch_count (tr ++ backoff attempt) = launch_count tr.
Proof.
  unfold backoff. destruct (1 <? attempt)%Z.
  - apply launch_count_slept.
  - now rewrite app_nil_r.
Qed.

(** Before an attempt the loop sleeps its backoff and changes nothing
    else. *)
Lemma backoff_step (attempt : Z) (a : AgentService) :
  exists a0,
    when (1 <? attempt)%Z (sleep (2 ^ (attempt - 1))) a = (a0, Ok tt)
    /\ config a0 = config a /\ stats a0 = stats a
    /\ _session_id a0 = _session_id a
    /\ mcp_config_exists a0 = mcp_config_exists a
    /\ trace a0 = trace a ++ backoff attempt.
Proof.
  unfold when, backoff.
  destruct (1 <? attempt)%Z; eexists; (split; [reflexivity|]); cbn;
    rewrite ?app_nil_r; repeat split.
Qed.

Lemma retry_loop_failed_attempt (fuel d : nat) (prompt_text tid sid : string)
  (on_output : bool) (attempt : Z) (last_error : json) (a : AgentService) :
  (attempt < max_retries (config a))%Z ->
  _session_id a = JStr sid -> sid <> "" ->
  run_fails on_output (cli (launch_count (trace a)) (task_argv a sid prompt_text)) ->
  exists a1 e,
    retry_loop cli (S fuel) d prompt_text tid on_output attempt last_error a
    = retry_loop cli fuel d prompt_text tid on_output (attempt + 1)
                 (JStr (exn_message e)) a1
    /\ config a1 = config a /\ stats a1 = stats a
    /\ _session_id a1 = _session_id a
    /\ mcp_config_exists a1 = mcp_config_exists a
    /\ trace a1 = trace a ++ backoff (attempt + 1)
                   ++ [Launched (task_argv a sid prompt_text)].
Proof.
  intros Hlt Hid Hne Hfail.
  cbn [retry_loop]. unfold bind at 1, get at 1.
  apply Z.ltb_lt in Hlt. rewrite Hlt.
  unfold bind at 1.
  destruct (backoff_step (attempt + 1) a)
    as (a0 & -> & H1 & H2 & H3 & H4 & H5).
  assert (Hargv : task_argv a0 sid prompt_text = task_argv a sid prompt_text).
  { unfold task_argv. now rewrite H1, H4. }
  destruct (attempt_body_fails d prompt_text tid sid on_output (attempt + 1) a0)
    as (a1 & e & Hbody & Hsame).
  { now rewrite H3. }
  { exact Hne. }
  { rewrite Hargv, H5, launch_count_backoff. exact Hfail. }
  unfold try_except. rewrite Hbody.
  exists a1, e. split; [reflexivity|].
  destruct Hsame as (S1 & S2 & S3 & _ & _ & S6 & S7).
  cbn in S1, S2, S3, S6, S7.
  rewrite ?S1, ?S2, ?S3, ?S6, ?S7, ?H1, ?H2, ?H3, ?H4, ?H5, ?Hargv, <- ?app_assoc.
  repeat split.
Qed.

Lemma retry_loop_clean_attempt (fuel d : nat) (prompt_text tid sid : string)
  (on_output : bool) (attempt : Z) (last_error : json) (a : AgentService)
  (p : Completed) :
  (attempt < max_retries (config a))%Z ->
  _session_id a = JStr sid -> sid <> "" ->
  cli (launch_count (trace a)) (task_argv a sid prompt_text) = Ok p ->
  clean_run on_output (stats a) p = true ->
  exists a1 r,
    retry_loop cli (S fuel) d prompt_text tid on_output attempt last_error a
    = (a1, Ok r)
    /\ status r = SUCCESS /\ attempts r = (attempt + 1)%Z
    /\ task_id r = tid /\ prompt r = prompt_text
    /\ _session_id a1 = _session_id a
    /\ trace a1 = trace a ++ backoff (attempt + 1)
                   ++ [Launched (task_argv a sid prompt_text)]
    /\ tasks_completed (stats a1) = (tasks_completed (stats a) + 1)%Z
    /\ tasks_failed (stats a1) = tasks_failed (stats a).
Proof.
  intros Hlt Hid Hne Hcli Hclean.
  cbn [retry_loop]. unfold bind at 1, get at 1.
  apply Z.ltb_lt in Hlt. rewrite Hlt.
  unfold bind at 1.
  destruct (backoff_step (attempt + 1) a)
    as (a0 & -> & H1 & H2 & H3 & H4 & H5).
  assert (Hargv : task_argv a0 sid prompt_text = task_argv a sid prompt_text).
  { unfold task_argv. now rewrite H1, H4. }
  destruct (attempt_body_succeeds d prompt_text tid sid on_output
              (attempt + 1) a0 p)
    as (a1 & r & Hbody & R1 & R2 & R3 & R4 & S1 & S2 & S3 & S4 & S5 & S6).
  { now rewrite H3. }
  { exact Hne. }
  { rewrite Hargv, H5, launch_count_backoff. exact Hcli. }
  { rewrite H2. exact Hclean. }
  unfold try_except. rewrite Hbody.
  exists a1, r. split; [reflexivity|].
  rewrite ?S2, ?S4, ?S5, ?S6, ?H2, ?H3, ?H5, ?Hargv, <- ?app_assoc.
  repeat split; assumption.
Qed.
End RunTask.

Lemma slept_app (tr tr' : list Service.event) :
  slept (tr ++ tr') = (slept tr + slept tr')%Z.
Proof.
  induction tr as [|e tr IH]; [reflexivity|].
  cbn [app slept fold_right]. fold (slept (tr ++ tr')). fold (slept tr).
  rewrite IH. destruct e; lia.
Qed.

Lemma retry_from_memory (cli : environment) (d : nat)
  (prompt_text tid sid : string) (on_output : bool)
  (a : Service.AgentService) (p3 : Completed) :
  (3 <= Service.max_retries (Service.config a))%Z ->
  Service._session_id a = JStr sid -> sid <> "" ->
  run_fails on_output (cli (Service.launch_count (Service.trace a))
                    (task_argv a sid prompt_text)) ->
  run_fails on_output (cli (S (Service.launch_count (Service.trace a)))
                    (task_argv a sid prompt_text)) ->
  cli (S (S (Service.launch_count (Service.trace a))))
      (task_argv a sid prompt_text) = Ok p3 ->
  clean_run on_output (Service.stats a) p3 = true ->
  exists a' r,
    Service.run_task cli d prompt_text tid on_output a = (a', Ok r)
    /\ Service.status r = Service.SUCCESS
    /\ Service.attempts r = 3%Z
    /\ Service.task_id r = tid /\ Service.prompt r = prompt_text
    /\ Service.trace a'
       = Service.trace a
         ++ [Service.Launched (task_argv a sid prompt_text);
             Service.Slept (2 ^ 1);
             Service.Launched (task_argv a sid prompt_text);
             Service.Slept (2 ^ 2);
             Service.Launched (task_argv a sid prompt_text)]
    /\ (slept (Service.trace a') - slept (Service.trace a) >= 2 ^ 1 + 2 ^ 2)%Z
    /\ Service._session_id a' = JStr sid
    /\ Service.tasks_completed (Service.stats a')
       = (Service.tasks_completed (Service.stats a) + 1)%Z
    /\ Service.tasks_failed (Service.stats a')
       = Service.tasks_failed (Service.stats a).
Proof.
  intros Hmax Hid Hne Hf1 Hf2 Hok Hclean.
  set (argv := task_argv a sid prompt_text) in *.
  unfold Service.run_task. unfold bind at 1, get at 1.
  destruct (Z.to_nat (Service.max_retries (Service.config a)))
    as [|[|[|fuel]]] eqn:Efuel; try lia.
  destruct (retry_loop_failed_attempt cli (S (S fuel)) d prompt_text tid sid
              on_output 0 JNull a)
    as (a1 & e1 & -> & C1 & T1 & I1 & M1 & Tr1);
    [lia|exact Hid|exact Hne|exact Hf1|].
  assert (Hargv1 : task_argv a1 sid prompt_text = argv).
  { unfold argv, task_argv. now rewrite C1, M1. }
  destruct (retry_loop_failed_attempt cli (S fuel) d prompt_text tid sid
              on_output (0 + 1) (JStr (Service.exn_message e1)) a1)
    as (a2 & e2 & -> & C2 & T2 & I2 & M2 & Tr2).
  { rewrite C1. lia. }
  { now rewrite I1. }
  { exact Hne. }
  { rewrite Hargv1, Tr1. fold argv.
    rewrite app_assoc, launch_count_launched, launch_count_backoff.
    exact Hf2. }
  assert (Hargv2 : task_argv a2 sid prompt_text = argv).
  { unfold argv, task_argv. now rewrite C2, M2, C1, M1. }
  destruct (retry_loop_clean_attempt cli fuel d prompt_text tid sid
              on_output (0 + 1 + 1) (JStr (Service.exn_message e2)) a2 p3)
    as (a3 & r & -> & R1 & R2 & R3 & R4 & I3 & Tr3 & K1 & K2).
  { rewrite C2, C1. lia. }
  { now rewrite I2, I1. }
  { exact Hne. }
  { rewrite Hargv2, Tr2, Hargv1, Tr1. fold argv.
    rewrite !app_assoc, !launch_count_launched, launch_count_backoff,
      launch_count_launched, launch_count_backoff.
    exact Hok. }
  { rewrite T2, T1. exact Hclean. }
  exists a3, r. split; [reflexivity|].
  assert (Htrace : Service.trace a3
                   = Service.trace a
                     ++ [Service.Launched argv; Service.Slept (2 ^ 1);
                         Service.Launched argv; Service.Slept (2 ^ 2);
                         Service.Launched argv]).
  { rewrite Tr3, Hargv2, Tr2, Hargv1, Tr1. fold argv.
    cbn. rewrite <- !app_assoc. reflexivity. }
  repeat split; try assumption.
  - rewrite Htrace, slept_app. cbn. lia.
  - now rewrite I3, I2, I1.
  - now rewrite K1, T2, T1.
  - now rewrite K2, T2, T1.
Qed.


(** Reading the identifier from the session file is the first thing a task
    does when it is not in memory; the task then runs as if it had been. *)
Lemma run_task_loads_session (cli : environment) (d : nat)
  (prompt_text tid content : string) (on_output : bool)
  (a : Service.AgentService) :
  (1 <= Service.max_retries (Service.config a))%Z ->
  py_truthy (Service._session_id a) = false ->
  Service.session_file a = Some content ->
  strip content <> "" ->
  Service.run_task cli d prompt_text tid on_output a
  = Service.run_task cli d prompt_text tid on_output
      (fst (Service.set_session_id (JStr (strip content)) a)).
Proof.
  intros Hmax Hid Hfile Hne.
  set (a' := fst (Service.set_session_id (JStr (strip content)) a)).
  assert (Hb : forall stream,
             Service._build_command cli d prompt_text stream a
             = Service._build_command cli d prompt_text stream a').
  { intros stream. unfold Service._build_command, Service._build_command_with.
    apply String.eqb_neq in Hne.
    destruct d; cbn [Service.get_session_id];
      unfold bind, get, ret, Service.set_session_id, modify;
      rewrite Hid, Hfile; cbn; rewrite Hne; reflexivity. }
  assert (Hbody : forall n,
             Service.attempt_body cli d prompt_text tid on_output n a
             = Service.attempt_body cli d prompt_text tid on_output n a').
  { intros n. unfold Service.attempt_body. unfold bind at 1 8.
    rewrite (Hb true). reflexivity. }
  unfold Service.run_task, bind, get.
  change (Service.config a') with (Service.config a).
  destruct (Z.to_nat (Service.max_retries (Service.config a)))
    as [|fuel] eqn:Efuel; [lia|].
  cbn [Service.retry_loop]. unfold bind, get.
  change (Service.config a') with (Service.config a).
  destruct (0 <? Service.max_retries (Service.config a))%Z eqn:E;
    [|apply Z.ltb_ge in E; lia].
  change (1 <? 0 + 1)%Z with false. cbn [when]. unfold ret, try_except.
  rewrite Hbody. reflexivity.
Qed.

(** C5: when the service knows its conversation, the retry ceiling is at
    least 3, the first two runs of the task fail (the process cannot be
    started, or exits with a code other than 0, or a line of its output
    makes the handling raise) and the third runs cleanly,
    [run_task] returns a result with status SUCCESS and [attempts = 3].  It
    launches the same argument list three times (same prompt, same
    conversation identifier after [--resume]), sleeps 2^1 before the second
    attempt and 2^2 before the third, and so has slept 2^1 + 2^2 when the
    third attempt starts. *)
Theorem retry_succeeds_on_third_attempt (cli : environment) (d : nat)
  (prompt_text tid sid : string) (on_output : bool)
  (a : Service.AgentService) (p3 : Completed) :
  (3 <= Service.max_retries (Service.config a))%Z ->
  knows_session a sid ->
  run_fails on_output (cli (Service.launch_count (Service.trace a))
                    (task_argv a sid prompt_text)) ->
  run_fails on_output (cli (S (Service.launch_count (Service.trace a)))
                    (task_argv a sid prompt_text)) ->
  cli (S (S (Service.launch_count (Service.trace a))))
      (task_argv a sid prompt_text) = Ok p3 ->
  clean_run on_output (Service.stats a) p3 = true ->
  exists a' r,
    Service.run_task cli d prompt_text tid on_output a = (a', Ok r)
    /\ Service.status r = Service.SUCCESS
    /\ Service.attempts r = 3%Z
    /\ Service.task_id r = tid /\ Service.prompt r = prompt_text
    /\ Service.trace a'
       = Service.trace a
         ++ [Service.Launched (task_argv a sid prompt_text);
             Service.Slept (2 ^ 1);
             Service.Launched (task_argv a sid prompt_text);
             Service.Slept (2 ^ 2);
             Service.Launched (task_argv a sid prompt_text)]
    /\ (slept (Service.trace a') - slept (Service.trace a) >= 2 ^ 1 + 2 ^ 2)%Z
    /\ Service._session_id a' = JStr sid
    /\ Service.tasks_completed (Service.stats a')
       = (Service.tasks_completed (Service.stats a) + 1)%Z
    /\ Service.tasks_failed (Service.stats a')
       = Service.tasks_failed (Service.stats a).
Proof.
  intros Hmax [Hne [Hid|(Hid & content & Hfile & Hstrip)]] Hf1 Hf2 Hok Hclean.
  - now apply (retry_from_memory cli d prompt_text tid sid on_output a p3).
  - rewrite run_task_loads_session with (content := content);
      [|lia|exact Hid|exact Hfile|now rewrite Hstrip].
    rewrite Hstrip.
    apply (retry_from_memory cli d prompt_text tid sid on_output
             (fst (Service.set_session_id (JStr sid) a)) p3);
      try assumption.
    reflexivity.
Qed.

Lemma retry_succeeds_on_third_attempt_witness :
  exists a' r,
    Service.run_task flaky_cli 0 "task" "t1" true sample_service = (a', Ok r)
    /\ Service.status r = Service.SUCCESS
    /\ Service.attempts r = 3%Z
    /\ (slept (Service.trace a') >= 6)%Z.
Proof.
  destruct (retry_succeeds_on_third_attempt flaky_cli 0 "task" "t1" "sess-1"
              true sample_service (mkCompleted 0 three_lines ""))
    as (a' & r & Hrun & Hs & Hn & _ & _ & _ & Hslept & _).
  - vm_compute. discriminate.
  - split; [discriminate|left; reflexivity].
  - exact I.
  - left. vm_compute. discriminate.
  - reflexivity.
  - vm_compute. reflexivity.
  - exists a', r. repeat split; try assumption.
    change (slept (Service.trace sample_service)) with 0%Z in Hslept.
    change (2 ^ 1 + 2 ^ 2)%Z with 6%Z in Hslept. lia.
Defined.

(** * Further properties *)

(** ** Stream decoding *)

Section StreamFacts.
Import ClaudeStream.

Lemma text_calls_app (cs ds : list call) :
  text_calls (cs ++ ds) = text_calls cs ++ text_calls ds.
Proof.
  induction cs as [|c cs IH]; [reflexivity|].
  destruct c; cbn [app text_calls]; rewrite IH; reflexivity.
Qed.

Lemma line_effect_refl (p : StreamParser) : line_effect p p [].
Proof.
  unfold line_effect, same_callbacks. cbn.
  rewrite !Z.add_0_r.
  destruct (on_text p); rewrite ?app_nil_r; repeat split.
Qed.

Lemma scan_blocks_effect (data : json) (blocks : list json) :
  forall p p' ev,
    scan_blocks data blocks p = (p', Ok ev) ->
    line_effect p p' (match ev with Some e => [e] | None => [] end).
Proof.
  induction blocks as [|block rest IH]; intros p p' ev.
  - cbn. intros [= <- <-]. apply line_effect_refl.
  - cbn [scan_blocks]. lifted_or t discriminate.
    destruct (py_eq_str t "text").
    { lifted_or text discriminate.
      destruct (py_truthy text); [|apply IH].
      unfold fire_if, when, bind, get, set_stats, modify, ret, fire.
      destruct (on_text p) eqn:E; intros [= <- <-];
        unfold line_effect, same_callbacks; cbn; rewrite ?E;
        rewrite ?text_calls_app; cbn; rewrite ?app_nil_r, ?Z.add_0_r;
        repeat split. }
    destruct (py_eq_str t "tool_use").
    { lifted_or nm discriminate. lifted_or inp discriminate.
      unfold fire_if, when, bind, get, set_stats, modify, ret, fire.
      destruct (on_tool_use p) eqn:E; intros [= <- <-];
        unfold line_effect, same_callbacks; cbn; rewrite ?E;
        rewrite ?text_calls_app; cbn; rewrite ?app_nil_r, ?Z.add_0_r;
        destruct (on_text p); rewrite ?app_nil_r; repeat split. }
    destruct (py_eq_str t "tool_result").
    { lifted_or nm discriminate. lifted_or inp discriminate.
      unfold fire_if, when, bind, get, set_stats, modify, ret, fire.
      destruct (on_tool_result p) eqn:E; intros [= <- <-];
        unfold line_effect, same_callbacks; cbn; rewrite ?E;
        rewrite ?text_calls_app; cbn; rewrite ?app_nil_r, ?Z.add_0_r;
        destruct (on_text p); rewrite ?app_nil_r; repeat split. }
    destruct (py_eq_str t "thinking"); [|apply IH].
    lifted_or th discriminate.
    unfold fire_if, when, bind, get, set_stats, modify, ret, fire.
    destruct (py_truthy th && on_thinking p) eqn:E; intros [= <- <-];
      unfold line_effect, same_callbacks; cbn;
      rewrite ?text_calls_app; cbn; rewrite ?app_nil_r, ?Z.add_0_r;
      destruct (on_text p); rewrite ?app_nil_r; repeat split.
Qed.

Lemma collected_text_app (es fs : list Event) :
  collected_text (es ++ fs) = collected_text es ++ collected_text fs.
Proof.
  induction es as [|e es IH]; [reflexivity|].
  cbn [app collected_text]. destruct (type e); rewrite IH; reflexivity.
Qed.

Lemma line_effect_trans (p q r : StreamParser) (es fs : list Event) :
  line_effect p q es -> line_effect q r fs -> line_effect p r (es ++ fs).
Proof.
  unfold line_effect, same_callbacks.
  intros ((A1 & A2 & A3 & A4 & A5) & B1 & B2 & B3)
         ((C1 & C2 & C3 & C4 & C5) & D1 & D2 & D3).
  rewrite !List.filter_app, !length_app, !Nat2Z.inj_add, collected_text_app.
  rewrite D1, D2, D3, B1, B2, B3, A1.
  repeat split; try congruence; try lia.
  destruct (on_text p); rewrite <- ?app_assoc; reflexivity.
Qed.

Lemma classify_effect (data : json) (p p' : StreamParser) (ev : option Event) :
  classify data p = (p', Ok ev) ->
  line_effect p p' (match ev with Some e => [e] | None => [] end).
Proof.
  unfold classify. lifted_or t discriminate.
  destruct (py_eq_str t "init").
  { lifted_or sid discriminate.
    unfold bind, set_stats, modify, ret. intros [= <- <-].
    unfold line_effect, same_callbacks; cbn; rewrite ?Z.add_0_r.
    destruct (on_text p); rewrite ?app_nil_r; repeat split. }
  destruct (py_eq_str t "assistant").
  { lifted_or m discriminate. lifted_or c discriminate.
    lifted_or blocks discriminate. apply scan_blocks_effect. }
  destruct (py_eq_str t "result").
  { lifted_or cost discriminate. lifted_or dur discriminate.
    lifted_or err discriminate.
    unfold bind at 1, set_stats at 1, modify at 1.
    lifted_or usage discriminate. lifted_or tin discriminate.
    lifted_or tout discriminate. lifted_or tot discriminate.
    unfold bind, set_stats, modify, get, when, lift, fire, ret.
    cbn [stats is_error on_error].
    destruct (py_truthy err && on_error p);
      [destruct (py_get data "result" _); [|discriminate]|];
      intros [= <- <-];
      unfold line_effect, same_callbacks; cbn;
      rewrite ?text_calls_app; cbn; rewrite ?Z.add_0_r, ?app_nil_r;
      destruct (on_text p); rewrite ?app_nil_r; repeat split. }
  unfold ret. intros [= <- <-]. apply line_effect_refl.
Qed.

Lemma parse_line_effect (line : string) (p p' : StreamParser)
  (ev : option Event) :
  parse_line line p = (p', Ok ev) ->
  line_effect p p' (match ev with Some e => [e] | None => [] end).
Proof.
  unfold parse_line, parse_line_with.
  destruct (String.eqb (strip line) "").
  { intros [= <- <-]. apply line_effect_refl. }
  destruct (json_loads (strip line)) as [data|e].
  - apply classify_effect.
  - destruct e; try discriminate.
    intros [= <- <-].
    unfold line_effect, same_callbacks; cbn; rewrite ?Z.add_0_r.
    destruct (on_text p); rewrite ?app_nil_r; repeat split.
Qed.
End StreamFacts.

(** X1: over a stream that [parse_stream] decodes without raising, the
    counters and the callbacks agree with the events yielded:
    [text_chunks] grows by the number of TEXT events, [tool_uses] by the
    number of TOOL_USE events, and [on_text], when set, is called with the
    data of the TEXT events, one call each, in their order.  The callbacks
    set stay set. *)
Theorem parse_stream_counts_events (lines : list string) :
  forall p p' events,
    ClaudeStream.parse_stream lines p = (p', Ok events) ->
    line_effect p p' events.
Proof.
  induction lines as [|line rest IH]; intros p p' events.
  - cbn. intros [= <- <-]. apply line_effect_refl.
  - cbn [ClaudeStream.parse_stream]. unfold bind at 1.
    destruct (ClaudeStream.parse_line line p) as [p1 [ev|e]] eqn:E1;
      [|discriminate].
    unfold bind at 1.
    destruct (ClaudeStream.parse_stream rest p1) as [p2 [evs|e]] eqn:E2;
      [|discriminate].
    unfold ret. intros [= <- <-].
    apply parse_line_effect in E1. apply IH in E2.
    pose proof (line_effect_trans _ _ _ _ _ E1 E2) as H.
    destruct ev; exact H.
Qed.

Lemma parse_stream_counts_events_witness :
  exists p' events,
    ClaudeStream.parse_stream three_lines listening_parser = (p', Ok events)
    /\ line_effect listening_parser p' events.
Proof.
  destruct (ClaudeStream.parse_stream three_lines listening_parser)
    as [p' [events|e]] eqn:E.
  - exists p', events. split; [reflexivity|].
    apply (parse_stream_counts_events three_lines listening_parser p' events E).
  - vm_compute in E. discriminate E.
Defined.

Lemma bind_ret_r {S A} (m : M S A) (s : S) : bind m ret s = m s.
Proof. unfold bind, ret. destruct (m s) as [s' [a|e]]; reflexivity. Qed.

(** X2: blank lines are invisible to both decoders.  [parse_line] returns
    no event for a line that is empty or all white space and leaves the
    parser as it was, and [parse_stream] gives the same events and the same
    final parser with or without the blank lines of a stream. *)
Theorem blank_lines_are_skipped :
  (forall line,
      is_blank line = true ->
      (forall p, ClaudeStream.parse_line line p = (p, Ok None))
      /\ (forall q, CodexStream.parse_line line q = (q, Ok None)))
  /\ (forall lines p,
         ClaudeStream.parse_stream (without_blanks lines) p
         = ClaudeStream.parse_stream lines p)
  /\ (forall lines q,
         CodexStream.parse_stream (without_blanks lines) q
         = CodexStream.parse_stream lines q).
Proof.
  assert (Hc : forall line p, is_blank line = true ->
                 ClaudeStream.parse_line line p = (p, Ok None)).
  { intros line p H. unfold ClaudeStream.parse_line, ClaudeStream.parse_line_with. unfold is_blank in H.
    rewrite H. reflexivity. }
  assert (Hx : forall line q, is_blank line = true ->
                 CodexStream.parse_line line q = (q, Ok None)).
  { intros line q H. unfold CodexStream.parse_line, CodexStream.parse_line_with. unfold is_blank in H.
    rewrite H. reflexivity. }
  split; [intros line H; split; intros; [apply Hc|apply Hx]; exact H|].
  split.
  - induction lines as [|line rest IH]; intros p; [reflexivity|].
    cbn [without_blanks List.filter]. fold (without_blanks rest).
    destruct (is_blank line) eqn:E; cbn [negb].
    + rewrite IH. cbn [ClaudeStream.parse_stream]. unfold bind at 1.
      rewrite (Hc line p E). symmetry. apply bind_ret_r.
    + cbn [ClaudeStream.parse_stream]. unfold bind at 1 3.
      destruct (ClaudeStream.parse_line line p) as [p1 [ev|e]]; [|reflexivity].
      unfold bind. rewrite IH. reflexivity.
  - induction lines as [|line rest IH]; intros q; [reflexivity|].
    cbn [without_blanks List.filter]. fold (without_blanks rest).
    destruct (is_blank line) eqn:E; cbn [negb].
    + rewrite IH. cbn [CodexStream.parse_stream]. unfold bind at 1.
      rewrite (Hx line q E). symmetry. apply bind_ret_r.
    + cbn [CodexStream.parse_stream]. unfold bind at 1 3.
      destruct (CodexStream.parse_line line q) as [q1 [ev|e]]; [|reflexivity].
      unfold bind. rewrite IH. reflexivity.
Qed.

Lemma blank_lines_are_skipped_witness :
  is_blank "   " = true
  /\ ClaudeStream.parse_line "   " listening_parser = (listening_parser, Ok None).
Proof.
  split; [reflexivity|].
  destruct blank_lines_are_skipped as (H & _).
  apply (H "   "). reflexivity.
Defined.

(** X3: a line that is valid JSON but not an object is fatal to both
    decoders: [parse_line] raises [AttributeError] on it, with the parser
    unchanged, and a stream that holds such a line makes [parse_stream]
    raise, whatever comes before and after it. *)
Theorem non_object_line_raises (line : string) (v : json) :
  is_blank line = false ->
  json_loads (strip line) = Ok v ->
  is_object v = false ->
  (forall p, ClaudeStream.parse_line line p = (p, Raise AttributeError))
  /\ (forall q, CodexStream.parse_line line q = (q, Raise AttributeError))
  /\ (forall pre post p,
         raises (snd (ClaudeStream.parse_stream (pre ++ line :: post) p)) = true)
  /\ (forall pre post q,
         raises (snd (CodexStream.parse_stream (pre ++ line :: post) q)) = true).
Proof.
  intros Hb Hv Hobj. unfold is_blank in Hb.
  assert (Hc : forall p, ClaudeStream.parse_line line p = (p, Raise AttributeError)).
  { intros p. unfold ClaudeStream.parse_line, ClaudeStream.parse_line_with. rewrite Hb, Hv.
    destruct v; try discriminate; reflexivity. }
  assert (Hx : forall q, CodexStream.parse_line line q = (q, Raise AttributeError)).
  { intros q. unfold CodexStream.parse_line, CodexStream.parse_line_with. rewrite Hb, Hv.
    destruct v; try discriminate; reflexivity. }
  split; [exact Hc|]. split; [exact Hx|]. split.
  - induction pre as [|l pre IH]; intros post p.
    + cbn [app ClaudeStream.parse_stream]. unfold bind. rewrite Hc. reflexivity.
    + cbn [app ClaudeStream.parse_stream]. unfold bind at 1.
      destruct (ClaudeStream.parse_line l p) as [p1 [ev|e]]; [|reflexivity].
      unfold bind. specialize (IH post p1).
      destruct (ClaudeStream.parse_stream (pre ++ line :: post) p1)
        as [p2 [evs|e]]; [discriminate IH|reflexivity].
  - induction pre as [|l pre IH]; intros post q.
    + cbn [app CodexStream.parse_stream]. unfold bind. rewrite Hx. reflexivity.
    + cbn [app CodexStream.parse_stream]. unfold bind at 1.
      destruct (CodexStream.parse_line l q) as [q1 [ev|e]]; [|reflexivity].
      unfold bind. specialize (IH post q1).
      destruct (CodexStream.parse_stream (pre ++ line :: post) q1)
        as [q2 [evs|e]]; [discriminate IH|reflexivity].
Qed.

Lemma non_object_line_raises_witness :
  ClaudeStream.parse_line "[1, 2]" listening_parser
  = (listening_parser, Raise AttributeError)
  /\ raises (snd (ClaudeStream.parse_stream (three_lines ++ "[1, 2]" :: [])
                    listening_parser)) = true.
Proof.
  destruct (non_object_line_raises "[1, 2]"
              (JArr [JNum (NInt 1); JNum (NInt 2)]))
    as (H1 & _ & H3 & _).
  - reflexivity.
  - vm_compute. reflexivity.
  - reflexivity.
  - split; [apply H1|apply H3].
Defined.

Section Quiet.

Lemma claude_scan_blocks_quiet (data : json) (blocks : list json) :
  forall p p',
    ClaudeStream.scan_blocks data blocks p = (p', Ok None) -> p' = p.
Proof.
  induction blocks as [|block rest IH]; intros p p'.
  - cbn. now intros [= <-].
  - cbn [ClaudeStream.scan_blocks]. lifted_or t discriminate.
    destruct (py_eq_str t "text").
    { lifted_or text discriminate.
      destruct (py_truthy text); [|apply IH].
      unfold ClaudeStream.fire_if, when, bind, get, ClaudeStream.set_stats,
        modify, ret, ClaudeStream.fire.
      destruct (ClaudeStream.on_text p); discriminate. }
    destruct (py_eq_str t "tool_use").
    { lifted_or nm discriminate. lifted_or inp discriminate.
      unfold ClaudeStream.fire_if, when, bind, get, ClaudeStream.set_stats,
        modify, ret, ClaudeStream.fire.
      destruct (ClaudeStream.on_tool_use p); discriminate. }
    destruct (py_eq_str t "tool_result").
    { lifted_or nm discriminate. lifted_or inp discriminate.
      unfold ClaudeStream.fire_if, when, bind, get, ClaudeStream.set_stats,
        modify, ret, ClaudeStream.fire.
      destruct (ClaudeStream.on_tool_result p); discriminate. }
    destruct (py_eq_str t "thinking"); [|apply IH].
    lifted_or th discriminate.
    unfold ClaudeStream.fire_if, when, bind, get, ClaudeStream.set_stats,
      modify, ret, ClaudeStream.fire.
    destruct (py_truthy th && ClaudeStream.on_thinking p); discriminate.
Qed.

Lemma claude_parse_line_quiet (line : string)
  (p p' : ClaudeStream.StreamParser) :
  ClaudeStream.parse_line line p = (p', Ok None) -> p' = p.
Proof.
  unfold ClaudeStream.parse_line, ClaudeStream.parse_line_with.
  destruct (String.eqb (strip line) ""); [now intros [= <-]|].
  destruct (json_loads (strip line)) as [data|e];
    [|destruct e; discriminate].
  unfold ClaudeStream.classify. lifted_or t discriminate.
  destruct (py_eq_str t "init").
  { lifted_or sid discriminate.
    unfold bind, ClaudeStream.set_stats, modify, ret. discriminate. }
  destruct (py_eq_str t "assistant").
  { lifted_or m discriminate. lifted_or c discriminate.
    lifted_or blocks discriminate. apply claude_scan_blocks_quiet. }
  destruct (py_eq_str t "result"); [|now intros [= <-]].
  lifted_or cost discriminate. lifted_or dur discriminate.
  lifted_or err discriminate.
  unfold bind at 1, ClaudeStream.set_stats at 1, modify at 1.
  lifted_or usage discriminate. lifted_or tin discriminate.
  lifted_or tout discriminate. lifted_or tot discriminate.
  unfold bind, ClaudeStream.set_stats, modify, get, when, lift,
    ClaudeStream.fire, ret.
  cbn [ClaudeStream.stats ClaudeStream.is_error ClaudeStream.on_error].
  destruct (py_truthy err && ClaudeStream.on_error p);
    [destruct (py_get data "result" _)|]; discriminate.
Qed.

Lemma codex_parse_line_quiet (line : string)
  (q q' : CodexStream.StreamParser) :
  CodexStream.parse_line line q = (q', Ok None) -> q' = q.
Proof.
  unfold CodexStream.parse_line, CodexStream.parse_line_with.
  destruct (String.eqb (strip line) ""); [now intros [= <-]|].
  destruct (json_loads (strip line)) as [data|e];
    [|destruct e; try discriminate; now intros [= <-]].
  unfold CodexStream.classify. lifted_or t discriminate.
  destruct (py_eq_str t "thread.started").
  { lifted_or tid discriminate.
    unfold bind, CodexStream.set_stats, modify, ret. discriminate. }
  destruct (py_eq_str t "item.completed").
  { lifted_or item discriminate. lifted_or it discriminate.
    unfold bind at 1.
    match goal with
    | |- context [match ?m q with _ => _ end] =>
        destruct (m q) as [q1 [u|e]]; [|discriminate]
    end.
    unfold ret. discriminate. }
  destruct (py_eq_str t "turn.completed" || py_eq_str t "turn.failed").
  { lifted_or dur discriminate.
    unfold bind at 1, CodexStream.set_stats at 1, modify at 1.
    lifted_or usage discriminate. lifted_or tin discriminate.
    lifted_or tout discriminate. lifted_or tot discriminate.
    unfold bind at 1, CodexStream.set_stats at 1, modify at 1.
    unfold bind at 1, get at 1. unfold bind at 1.
    match goal with
    | |- context [match ?m ?s with _ => _ end] =>
        destruct (m s) as [q1 [u|e]]; [|discriminate]
    end.
    unfold ret. discriminate. }
  destruct (py_eq_str t "error"); [|now intros [= <-]].
  unfold bind at 1, get at 1. unfold bind at 1.
  match goal with
  | |- context [match ?m ?s with _ => _ end] =>
      destruct (m s) as [q1 [u|e]]; [|discriminate]
  end.
  unfold ret. discriminate.
Qed.
End Quiet.

(** X4: a line that yields no event has no effect.  Whenever [parse_line]
    of either decoder returns no event, the parser (statistics and calls)
    is exactly as before; and a JSON object whose type is none of those the
    decoder knows, or is missing, yields no event. *)
Theorem no_event_no_effect :
  (forall line p p',
      ClaudeStream.parse_line line p = (p', Ok None) -> p' = p)
  /\ (forall line q q',
         CodexStream.parse_line line q = (q', Ok None) -> q' = q)
  /\ (forall line kvs,
         is_blank line = false ->
         json_loads (strip line) = Ok (JObj kvs) ->
         (claude_known (dict_get_or "type" kvs (JStr "")) = false ->
          forall p, ClaudeStream.parse_line line p = (p, Ok None))
         /\ (codex_known (dict_get_or "type" kvs (JStr "")) = false ->
             forall q, CodexStream.parse_line line q = (q, Ok None))).
Proof.
  split; [exact claude_parse_line_quiet|].
  split; [exact codex_parse_line_quiet|].
  intros line kvs Hb Hv. unfold is_blank in Hb. split.
  - unfold claude_known. intros H p.
    apply orb_false_iff in H as [H H3]. apply orb_false_iff in H as [H1 H2].
    unfold ClaudeStream.parse_line, ClaudeStream.parse_line_with. rewrite Hb, Hv.
    unfold ClaudeStream.classify, bind, lift. cbn [py_get].
    rewrite H1, H2, H3. reflexivity.
  - unfold codex_known. intros H q.
    apply orb_false_iff in H as [H H5]. apply orb_false_iff in H as [H H4].
    apply orb_false_iff in H as [H H3]. apply orb_false_iff in H as [H1 H2].
    unfold CodexStream.parse_line, CodexStream.parse_line_with. rewrite Hb, Hv.
    unfold CodexStream.classify, bind, lift. cbn [py_get].
    rewrite H1, H2, H3, H4, H5. reflexivity.
Qed.

Lemma no_event_no_effect_witness :
  ClaudeStream.parse_line (jsonl "{'type':'user','message':{}}") listening_parser
  = (listening_parser, Ok None)
  /\ ClaudeStream.parse_line (jsonl "{'message':{}}") listening_parser
     = (listening_parser, Ok None).
Proof.
  destruct no_event_no_effect as (_ & _ & H).
  split.
  - destruct (H (jsonl "{'type':'user','message':{}}")
                [("type", JStr "user"); ("message", JObj [])]) as [Hc _];
      [reflexivity|vm_compute; reflexivity|].
    apply Hc. reflexivity.
  - destruct (H (jsonl "{'message':{}}") [("message", JObj [])]) as [Hc _];
      [reflexivity|vm_compute; reflexivity|].
    apply Hc. reflexivity.
Defined.

(** X5: a result line overwrites the cost, the duration and the error flag
    of the statistics with its own (0, 0 and false where it has none) and
    sets the token total to input plus output tokens; the counters of text
    chunks and tool uses and the session identifier stay.  [on_error] is
    called exactly once, with the line's result text, when the flag is true
    and the callback is set, and not otherwise.  When the usage of the line
    is not an object the call raises, and the statistics already hold the
    line's cost, duration and flag. *)
Theorem result_line_sets_stats (line : string) (kvs : list (string * json))
  (p : ClaudeStream.StreamParser) :
  typed_line line "result" kvs ->
  (forall ukvs tokens,
      dict_get_or "usage" kvs (JObj []) = JObj ukvs ->
      py_add (dict_get_or "input_tokens" ukvs (JNum (NInt 0)))
             (dict_get_or "output_tokens" ukvs (JNum (NInt 0))) = Ok tokens ->
      exists p',
        ClaudeStream.parse_line line p
        = (p', Ok (Some (ClaudeStream.mkEvent ClaudeStream.RESULT
                           (JObj kvs) (JObj kvs))))
        /\ ClaudeStream.stats p'
           = stats_after_result (ClaudeStream.stats p) kvs tokens
        /\ same_callbacks p p'
        /\ ClaudeStream.calls p'
           = ClaudeStream.calls p
             ++ (if py_truthy (dict_get_or "is_error" kvs (JBool false))
                    && ClaudeStream.on_error p
                 then [ClaudeStream.OnError
                         (dict_get_or "result" kvs (JStr "Unknown error"))]
                 else []))
  /\ (is_object (dict_get_or "usage" kvs (JObj [])) = false ->
      exists p',
        ClaudeStream.parse_line line p = (p', Raise AttributeError)
        /\ ClaudeStream.stats p'
           = stats_after_result (ClaudeStream.stats p) kvs
               (ClaudeStream.total_tokens (ClaudeStream.stats p))
        /\ ClaudeStream.calls p' = ClaudeStream.calls p).
Proof.
  intros (Hb & Hv & Ht). unfold is_blank in Hb.
  assert (Hcls : ClaudeStream.parse_line line p
                 = ClaudeStream.classify (JObj kvs) p).
  { unfold ClaudeStream.parse_line, ClaudeStream.parse_line_with. now rewrite Hb, Hv. }
  rewrite Hcls. unfold ClaudeStream.classify.
  assert (Hty : dict_get_or "type" kvs (JStr "") = JStr "result")
    by (unfold dict_get_or; now rewrite Ht).
  unfold bind at 1, lift at 1. cbn [py_get].
  rewrite Hty. cbn [py_eq_str]. change (String.eqb "result" "init") with false.
  change (String.eqb "result" "assistant") with false.
  change (String.eqb "result" "result") with true. cbn iota.
  split.
  - intros ukvs tokens Hu Hadd.
    unfold bind, lift, ClaudeStream.set_stats, modify, get, when,
      ClaudeStream.fire, ret.
    cbn [py_get]. rewrite Hu. cbn [py_get]. rewrite Hadd.
    cbn [ClaudeStream.stats ClaudeStream.is_error ClaudeStream.on_error].
    destruct (py_truthy (dict_get_or "is_error" kvs (JBool false))
              && ClaudeStream.on_error p);
      (eexists; split; [reflexivity|]); cbn; rewrite ?app_nil_r;
      unfold same_callbacks; repeat split.
  - intros Hobj.
    unfold bind, lift, ClaudeStream.set_stats, modify, get, when,
      ClaudeStream.fire, ret.
    cbn [py_get].
    destruct (dict_get_or "usage" kvs (JObj [])); try discriminate;
      (eexists; split; [reflexivity|]); split; reflexivity.
Qed.

Lemma result_line_sets_stats_witness :
  exists kvs p',
    typed_line (jsonl "{'type':'result','is_error':true,'result':'boom'}")
               "result" kvs
    /\ ClaudeStream.parse_line
         (jsonl "{'type':'result','is_error':true,'result':'boom'}")
         listening_parser
       = (p', Ok (Some (ClaudeStream.mkEvent ClaudeStream.RESULT
                          (JObj kvs) (JObj kvs))))
    /\ ClaudeStream.calls p' = [ClaudeStream.OnError (JStr "boom")].
Proof.
  exists [("type", JStr "result"); ("is_error", JBool true);
          ("result", JStr "boom")].
  assert (H : typed_line (jsonl "{'type':'result','is_error':true,'result':'boom'}")
                "result"
                [("type", JStr "result"); ("is_error", JBool true);
                 ("result", JStr "boom")]).
  { split; [reflexivity|]. split; [vm_compute; reflexivity|reflexivity]. }
  destruct (result_line_sets_stats _ _ listening_parser H) as [Hok _].
  destruct (Hok [] (JNum (NInt 0)) eq_refl eq_refl) as (p' & Hp & _ & _ & Hc).
  exists p'. split; [exact H|]. split; [exact Hp|exact Hc].
Defined.

(** X6: in the codex decoder the error flag follows the last turn event.  A
    turn.completed line clears [is_error] and a turn.failed line sets it,
    whatever it was; both store the line's duration and token total and
    leave the counters and the thread identifier.  [on_error] is called
    only for turn.failed, once, with the message of the line's error or
    with the text Unknown error when there is none. *)
Theorem codex_turn_sets_error_flag (line t : string)
  (kvs ukvs ekvs : list (string * json)) (tokens : json)
  (q : CodexStream.StreamParser) :
  typed_line line t kvs ->
  t = "turn.completed" \/ t = "turn.failed" ->
  dict_get_or "usage" kvs (JObj []) = JObj ukvs ->
  py_add (dict_get_or "input_tokens" ukvs (JNum (NInt 0)))
         (dict_get_or "output_tokens" ukvs (JNum (NInt 0))) = Ok tokens ->
  dict_get_or "error" kvs (JObj []) = JObj ekvs ->
  let failed := String.eqb t "turn.failed" in
  exists q',
    CodexStream.parse_line line q
    = (q', Ok (Some (CodexStream.mkEvent
                       (if failed then CodexStream.TURN_FAILED
                        else CodexStream.TURN_COMPLETED)
                       (JObj kvs) (JObj kvs))))
    /\ CodexStream.stats q'
       = {| CodexStream.text_chunks := CodexStream.text_chunks (CodexStream.stats q);
            CodexStream.tool_uses := CodexStream.tool_uses (CodexStream.stats q);
            CodexStream.total_tokens := tokens;
            CodexStream.duration_ms := dict_get_or "duration_ms" kvs (JNum (NInt 0));
            CodexStream.thread_id := CodexStream.thread_id (CodexStream.stats q);
            CodexStream.is_error := failed |}
    /\ CodexStream.calls q'
       = CodexStream.calls q
         ++ (if failed && CodexStream.on_error q
             then [CodexStream.OnError
                     (CodexStream.py_or (dict_get_or "message" ekvs JNull)
                                        (JStr "Unknown error"))]
             else []).
Proof.
  intros (Hb & Hv & Ht) Hkind Hu Hadd He failed. unfold is_blank in Hb.
  assert (Hty : dict_get_or "type" kvs (JStr "") = JStr t)
    by (unfold dict_get_or; now rewrite Ht).
  unfold CodexStream.parse_line, CodexStream.parse_line_with. rewrite Hb, Hv.
  unfold CodexStream.classify.
  unfold bind at 1, lift at 1. cbn [py_get]. rewrite Hty. cbn [py_eq_str].
  fold failed.
  assert (Hsel : String.eqb t "thread.started" = false
                 /\ String.eqb t "item.completed" = false
                 /\ (String.eqb t "turn.completed" || failed) = true).
  { unfold failed. destruct Hkind as [-> | ->]; repeat split. }
  destruct Hsel as (-> & -> & ->).
  unfold bind, lift, CodexStream.set_stats, modify, get, when,
    CodexStream.fire, ret.
  cbn [py_get]. rewrite Hu. cbn [py_get]. rewrite Hadd.
  cbn [CodexStream.on_error]. rewrite He. cbn [py_get].
  destruct (failed && CodexStream.on_error q);
    (eexists; split; [reflexivity|]); cbn; rewrite ?app_nil_r;
    split; reflexivity.
Qed.

Lemma codex_turn_sets_error_flag_witness :
  exists q',
    CodexStream.parse_line (jsonl "{'type':'turn.completed','duration_ms':7}")
      {| CodexStream.stats :=
           {| CodexStream.text_chunks := 0; CodexStream.tool_uses := 0;
              CodexStream.total_tokens := JNum (NInt 0);
              CodexStream.duration_ms := JNum (NInt 0);
              CodexStream.thread_id := JStr "t"; CodexStream.is_error := true |};
         CodexStream.on_text := false; CodexStream.on_tool := false;
         CodexStream.on_error := true; CodexStream.calls := [] |}
    = (q', Ok (Some (CodexStream.mkEvent CodexStream.TURN_COMPLETED
                       (JObj [("type", JStr "turn.completed");
                              ("duration_ms", JNum (NInt 7))])
                       (JObj [("type", JStr "turn.completed");
                              ("duration_ms", JNum (NInt 7))]))))
    /\ CodexStream.is_error (CodexStream.stats q') = false
    /\ CodexStream.calls q' = [].
Proof.
  destruct (codex_turn_sets_error_flag
              (jsonl "{'type':'turn.completed','duration_ms':7}")
              "turn.completed"
              [("type", JStr "turn.completed"); ("duration_ms", JNum (NInt 7))]
              [] [] (JNum (NInt 0))
              {| CodexStream.stats :=
                   {| CodexStream.text_chunks := 0; CodexStream.tool_uses := 0;
                      CodexStream.total_tokens := JNum (NInt 0);
                      CodexStream.duration_ms := JNum (NInt 0);
                      CodexStream.thread_id := JStr "t";
                      CodexStream.is_error := true |};
                 CodexStream.on_text := false; CodexStream.on_tool := false;
                 CodexStream.on_error := true; CodexStream.calls := [] |})
    as (q' & Hp & Hs & Hc).
  - split; [reflexivity|]. split; [vm_compute; reflexivity|reflexivity].
  - left. reflexivity.
  - reflexivity.
  - reflexivity.
  - reflexivity.
  - exists q'. split; [exact Hp|]. split; [now rewrite Hs|exact Hc].
Defined.

Lemma substring_0_length (n : nat) (s : string) :
  String.length (substring 0 n s) = Nat.min n (String.length s).
Proof.
  revert s; induction n as [|n IH]; intros [|c s]; cbn; try reflexivity.
  now rewrite IH.
Qed.

Lemma substring_0_all (n : nat) (s : string) :
  (String.length s <= n)%nat -> substring 0 n s = s.
Proof.
  revert s; induction n as [|n IH]; intros [|c s]; cbn; intros H;
    try reflexivity; try lia.
  f_equal. apply IH. lia.
Qed.

Lemma string_length_app (s t : string) :
  String.length (s ++ t)%string = (String.length s + String.length t)%nat.
Proof.
  induction s as [|c s IH]; cbn; [reflexivity|].
  change (String.length (String c (s ++ t)%string) = S (String.length s + String.length t)).
  cbn. now rewrite IH.
Qed.

(** X7. The display of a Bash tool use shows at most the first 50
    characters of a [str] command, followed by an ellipsis exactly when
    the command was cut: a command of 50 characters or fewer is shown
    whole, and the part between the label and the bracket never exceeds
    53 characters. *)
Theorem bash_command_display_is_bounded (py_str : json -> string)
  (kvs : list (string * json)) (cmd : string) :
  dict_get_or "command" kvs (JStr "") = JStr cmd ->
  exists shown,
    ClaudeStream.format_tool_use py_str (JStr "Bash") (JObj kvs)
    = Ok ("[Running: " ++ shown ++ "]")%string
    /\ (String.length shown <= 53)%nat
    /\ ((String.length cmd <= 50)%nat -> shown = cmd)
    /\ ((50 < String.length cmd)%nat -> shown = (substring 0 50 cmd ++ "...")%string).
Proof.
  intros Hcmd.
  exists (substring 0 50 cmd ++ (if (50 <? String.length cmd)%nat then "..." else ""))%string.
  split; [|split; [|split]].
  - unfold ClaudeStream.format_tool_use.
    cbn [py_eq_str String.eqb Ascii.eqb Bool.eqb py_get ClaudeStream.rbind].
    rewrite Hcmd.
    cbn [ClaudeStream.py_slice50 ClaudeStream.py_len ClaudeStream.rbind ClaudeStream.fmt].
    f_equal. f_equal.
    generalize (substring 0 50 cmd) as a, (if (50 <? String.length cmd)%nat then "..." else "") as b.
    intros a b. induction a as [|c a IH]; [reflexivity|].
    change (String c a ++ b ++ "]")%string with (String c (a ++ b ++ "]")%string).
    change ((String c a ++ b) ++ "]")%string with (String c ((a ++ b) ++ "]")%string).
    now rewrite IH.
  - rewrite string_length_app, substring_0_length.
    destruct (50 <? String.length cmd)%nat; cbn [String.length]; lia.
  - intros Hle. destruct (Nat.ltb_spec 50 (String.length cmd)); [lia|].
    rewrite substring_0_all by lia.
    clear. induction cmd as [|c s IH]; [reflexivity|].
    change (String c s ++ "")%string with (String c (s ++ "")%string). now rewrite IH.
  - intros Hlt. destruct (Nat.ltb_spec 50 (String.length cmd)); [reflexivity|lia].
Qed.

Lemma bash_command_display_is_bounded_witness :
  exists shown,
    ClaudeStream.format_tool_use (fun _ => "?") (JStr "Bash")
      (JObj [("command", JStr "npm run build"); ("timeout", JNum (NInt 30))])
    = Ok ("[Running: " ++ shown ++ "]")%string
    /\ (String.length shown <= 53)%nat
    /\ ((String.length "npm run build" <= 50)%nat -> shown = "npm run build")
    /\ ((50 < String.length "npm run build")%nat
        -> shown = (substring 0 50 "npm run build" ++ "...")%string).
Proof.
  apply (bash_command_display_is_bounded (fun _ => "?")
           [("command", JStr "npm run build"); ("timeout", JNum (NInt 30))]
           "npm run build").
  reflexivity.
Defined.

(** X8. A tool name that is not a [str] (a block whose [name] is null or
    a number) falls through the six comparisons and fails at
    [name.startswith]: the display raises [AttributeError] whatever the
    input is. *)
Theorem tool_name_must_be_a_string (py_str : json -> string)
  (name input_data : json) :
  (forall s, name <> JStr s) ->
  ClaudeStream.format_tool_use py_str name input_data = Raise AttributeError.
Proof.
  intros Hname. unfold ClaudeStream.format_tool_use.
  destruct name; try (exfalso; eapply Hname; reflexivity); reflexivity.
Qed.

Lemma tool_name_must_be_a_string_witness :
  ClaudeStream.format_tool_use (fun _ => "None") JNull
    (JObj [("command", JStr "ls")])
  = Raise AttributeError.
Proof.
  apply (tool_name_must_be_a_string (fun _ => "None") JNull).
  intros s; discriminate.
Defined.

(** ** The wrapper's conversations *)

Lemma argv_strings_map (l : list string) :
  argv_strings (map JStr l) = Ok l.
Proof.
  induction l as [|s l IH]; cbn; [reflexivity|]. now rewrite IH.
Qed.

(** One [_execute] whose launch is answered by an object. *)
Lemma wrapper_execute_reply (cli : environment) (prompt : string)
  (w : Wrapper.ClaudeWrapper) (resume : option string) (p : Completed)
  (kvs : list (string * json)) :
  Wrapper._session_id w
  = match resume with Some sid => JStr sid | None => Wrapper._session_id w end ->
  (match resume with Some sid => sid <> "" | None => py_truthy (Wrapper._session_id w) = false end) ->
  cli (length (Wrapper.launches w)) (wrapper_argv w resume prompt) = Ok p ->
  json_loads (stdout_text p) = Ok (JObj kvs) ->
  Wrapper._execute cli prompt w
  = ({| Wrapper.session_file := Wrapper.session_file w;
        Wrapper.permission_mode := Wrapper.permission_mode w;
        Wrapper.allowed_tools := Wrapper.allowed_tools w;
        Wrapper._session_id := Wrapper._session_id w;
        Wrapper.launches := Wrapper.launches w ++ [wrapper_argv w resume prompt] |},
     Ok (wrapper_result kvs)).
Proof.
  intros Hid Hres Hcli Hjson.
  unfold Wrapper._execute. unfold bind at 1, get at 1.
  match goal with |- context [Wrapper.subprocess_run cli ?c] =>
    assert (Hcmd : c = map JStr (wrapper_argv w resume prompt)) end.
  { unfold wrapper_argv. rewrite !map_app.
    destruct resume as [sid|].
    - rewrite Hid. cbn [py_truthy].
      destruct (String.eqb_spec sid ""); [contradiction|]. cbn [negb].
      destruct (Wrapper.allowed_tools w) as [[|t ts]|]; reflexivity.
    - rewrite Hres.
      destruct (Wrapper.allowed_tools w) as [[|t ts]|]; reflexivity. }
  rewrite Hcmd. unfold bind at 1, Wrapper.subprocess_run.
  unfold bind at 1, lift at 1. rewrite argv_strings_map.
  unfold bind at 1, get at 1. unfold bind at 1, Wrapper.log_launch, modify.
  unfold lift at 1. cbn [Wrapper.launches]. rewrite Hcli.
  unfold bind at 1, lift at 1. rewrite Hjson.
  reflexivity.
Qed.

Lemma wrapper_run_fresh (cli : environment) (prompt : string)
  (w : Wrapper.ClaudeWrapper) (p1 p2 : Completed)
  (kvs1 kvs2 : list (string * json)) (sid : string) :
  py_truthy (Wrapper._session_id w) = false ->
  Wrapper.session_file w = None ->
  cli (length (Wrapper.launches w)) (wrapper_argv w None "Initialize") = Ok p1 ->
  json_loads (stdout_text p1) = Ok (JObj kvs1) ->
  dict_get "session_id" kvs1 = Some (JStr sid) ->
  sid <> "" ->
  cli (S (length (Wrapper.launches w))) (wrapper_argv w (Some sid) prompt) = Ok p2 ->
  json_loads (stdout_text p2) = Ok (JObj kvs2) ->
  Wrapper.run cli prompt w
  = ({| Wrapper.session_file := Some sid;
        Wrapper.permission_mode := Wrapper.permission_mode w;
        Wrapper.allowed_tools := Wrapper.allowed_tools w;
        Wrapper._session_id := JStr sid;
        Wrapper.launches :=
          Wrapper.launches w
          ++ [wrapper_argv w None "Initialize"; wrapper_argv w (Some sid) prompt] |},
     Ok (wrapper_result kvs2)).
Proof.
  intros Hid Hfile Hc1 Hj1 Hsid Hne Hc2 Hj2.
  unfold Wrapper.run. unfold bind at 1. unfold Wrapper.get_session_id.
  unfold bind at 1, get at 1. rewrite Hid, Hfile.
  unfold bind at 1. unfold bind at 1.
  rewrite (wrapper_execute_reply cli "Initialize" w None p1 kvs1 eq_refl Hid Hc1 Hj1).
  assert (Hs : Wrapper.session_id (wrapper_result kvs1) = JStr sid).
  { unfold wrapper_result, dict_get_or; cbn. now rewrite Hsid. }
  rewrite Hs.
  unfold bind, Wrapper.set_session_id, Wrapper.write_text,
    Wrapper.set_session_file, modify, get, ret.
  cbn [Wrapper.session_file Wrapper.permission_mode Wrapper.allowed_tools
       Wrapper._session_id Wrapper.launches].
  match goal with |- Wrapper._execute cli prompt ?w1 = _ =>
    rewrite (wrapper_execute_reply cli prompt w1 (Some sid) p2 kvs2 eq_refl Hne)
  end.
  - cbn [Wrapper.session_file Wrapper.permission_mode Wrapper.allowed_tools
         Wrapper._session_id Wrapper.launches].
    rewrite <- app_assoc. reflexivity.
  - cbn [Wrapper.launches]. rewrite length_app, Nat.add_1_r. exact Hc2.
  - exact Hj2.
Qed.

(** X9. First use of a [ClaudeWrapper]: with no session file and no
    identifier in memory, [run] launches the CLI exactly twice.  The first
    launch carries the prompt Initialize and no [--resume]; the identifier
    of its reply is kept in memory and written to the session file; the
    second launch carries the caller's prompt and resumes under that
    identifier, and its reply is the result. *)
Theorem first_run_starts_a_conversation (cli : environment) (prompt : string)
  (w : Wrapper.ClaudeWrapper) (p1 p2 : Completed)
  (kvs1 kvs2 : list (string * json)) (sid : string) :
  py_truthy (Wrapper._session_id w) = false ->
  Wrapper.session_file w = None ->
  cli (length (Wrapper.launches w)) (wrapper_argv w None "Initialize") = Ok p1 ->
  json_loads (stdout_text p1) = Ok (JObj kvs1) ->
  dict_get "session_id" kvs1 = Some (JStr sid) ->
  sid <> "" ->
  cli (S (length (Wrapper.launches w))) (wrapper_argv w (Some sid) prompt) = Ok p2 ->
  json_loads (stdout_text p2) = Ok (JObj kvs2) ->
  exists w',
    Wrapper.run cli prompt w = (w', Ok (wrapper_result kvs2))
    /\ Wrapper.launches w'
       = Wrapper.launches w
         ++ [wrapper_argv w None "Initialize"; wrapper_argv w (Some sid) prompt]
    /\ Wrapper.session_file w' = Some sid
    /\ Wrapper._session_id w' = JStr sid.
Proof.
  intros. eexists. split; [eapply wrapper_run_fresh; eassumption|].
  repeat split.
Qed.

Lemma first_run_starts_a_conversation_witness :
  exists w',
    Wrapper.run
      (scripted_cli
         [reply 0 [jsonl "{'session_id':'sess-7','result':'ready'}"];
          reply 0 [jsonl "{'session_id':'sess-7','result':'done','total_cost_usd':0.5}"]])
      "list the files" (wrapper_discarded saved_wrapper)
    = (w', Ok (wrapper_result
                 [("session_id", JStr "sess-7"); ("result", JStr "done");
                  ("total_cost_usd", JNum (NFloat (1 # 2)))]))
    /\ Wrapper.launches w'
       = [["claude"; "-p"; "--output-format"; "json"; "--permission-mode";
           "default"; "Initialize"];
          ["claude"; "-p"; "--output-format"; "json"; "--permission-mode";
           "default"; "--resume"; "sess-7"; "list the files"]]
    /\ Wrapper.session_file w' = Some "sess-7"
    /\ Wrapper._session_id w' = JStr "sess-7".
Proof.
  apply (first_run_starts_a_conversation _ "list the files"
           (wrapper_discarded saved_wrapper)
           (reply 0 [jsonl "{'session_id':'sess-7','result':'ready'}"])
           (reply 0 [jsonl "{'session_id':'sess-7','result':'done','total_cost_usd':0.5}"])
           [("session_id", JStr "sess-7"); ("result", JStr "ready")]
           [("session_id", JStr "sess-7"); ("result", JStr "done");
            ("total_cost_usd", JNum (NFloat (1 # 2)))]
           "sess-7");
    try reflexivity.
  discriminate.
Defined.

(** X10. [reset] followed by [run] starts a new conversation in every
    state: whatever the session file and the identifier in memory were,
    the CLI is launched with Initialize and no [--resume], and then with
    the caller's prompt under the identifier of the first reply, which
    replaces the old one in memory and in the session file. *)
Theorem reset_then_run_starts_afresh (cli : environment) (prompt : string)
  (w : Wrapper.ClaudeWrapper) (p1 p2 : Completed)
  (kvs1 kvs2 : list (string * json)) (sid : string) :
  cli (length (Wrapper.launches w)) (wrapper_argv w None "Initialize") = Ok p1 ->
  json_loads (stdout_text p1) = Ok (JObj kvs1) ->
  dict_get "session_id" kvs1 = Some (JStr sid) ->
  sid <> "" ->
  cli (S (length (Wrapper.launches w))) (wrapper_argv w (Some sid) prompt) = Ok p2 ->
  json_loads (stdout_text p2) = Ok (JObj kvs2) ->
  exists w',
    (Wrapper.reset;; Wrapper.run cli prompt) w = (w', Ok (wrapper_result kvs2))
    /\ Wrapper.launches w'
       = Wrapper.launches w
         ++ [wrapper_argv w None "Initialize"; wrapper_argv w (Some sid) prompt]
    /\ Wrapper.session_file w' = Some sid
    /\ Wrapper._session_id w' = JStr sid.
Proof.
  intros Hc1 Hj1 Hsid Hne Hc2 Hj2.
  eexists. split.
  - unfold bind at 1. rewrite wrapper_reset_discards.
    apply (wrapper_run_fresh cli prompt (wrapper_discarded w) p1 p2 kvs1 kvs2 sid);
      try reflexivity; assumption.
  - repeat split.
Qed.

Lemma reset_then_run_starts_afresh_witness :
  exists w',
    (Wrapper.reset;;
     Wrapper.run
       (scripted_cli
          [reply 0 [jsonl "{'session_id':'sess-7','result':'ready'}"];
           reply 0 [jsonl "{'session_id':'sess-7','result':'done'}"]])
       "list the files") saved_wrapper
    = (w', Ok (wrapper_result
                 [("session_id", JStr "sess-7"); ("result", JStr "done")]))
    /\ Wrapper.launches w'
       = [["claude"; "-p"; "--output-format"; "json"; "--permission-mode";
           "default"; "Initialize"];
          ["claude"; "-p"; "--output-format"; "json"; "--permission-mode";
           "default"; "--resume"; "sess-7"; "list the files"]]
    /\ Wrapper.session_file w' = Some "sess-7"
    /\ Wrapper._session_id w' = JStr "sess-7".
Proof.
  apply (reset_then_run_starts_afresh _ "list the files" saved_wrapper
           (reply 0 [jsonl "{'session_id':'sess-7','result':'ready'}"])
           (reply 0 [jsonl "{'session_id':'sess-7','result':'done'}"])
           [("session_id", JStr "sess-7"); ("result", JStr "ready")]
           [("session_id", JStr "sess-7"); ("result", JStr "done")]
           "sess-7");
    try reflexivity.
  discriminate.
Defined.

(** X11. A session file that holds only white space is never repaired.
    [run] reads it, keeps the empty identifier, and launches the prompt
    without [--resume] and without initialising; the identifier in the
    reply is not kept, and the file stays as it was, so the next [run]
    does the same. *)
Theorem blank_session_file_is_never_repaired (cli : environment)
  (prompt content : string) (w : Wrapper.ClaudeWrapper) (p : Completed)
  (kvs : list (string * json)) :
  py_truthy (Wrapper._session_id w) = false ->
  Wrapper.session_file w = Some content ->
  strip content = "" ->
  cli (length (Wrapper.launches w)) (wrapper_argv w None prompt) = Ok p ->
  json_loads (stdout_text p) = Ok (JObj kvs) ->
  exists w',
    Wrapper.run cli prompt w = (w', Ok (wrapper_result kvs))
    /\ Wrapper.launches w' = Wrapper.launches w ++ [wrapper_argv w None prompt]
    /\ Wrapper.session_file w' = Some content
    /\ Wrapper._session_id w' = JStr ""
    /\ py_truthy (Wrapper._session_id w') = false.
Proof.
  intros Hid Hfile Hblank Hcli Hjson.
  eexists. split.
  - unfold Wrapper.run. unfold bind at 1. unfold Wrapper.get_session_id.
    unfold bind at 1, get at 1. rewrite Hid, Hfile, Hblank.
    unfold bind, Wrapper.set_session_id, modify, get, ret.
    match goal with |- Wrapper._execute cli prompt ?w1 = _ =>
      apply (wrapper_execute_reply cli prompt w1 None p kvs eq_refl eq_refl)
    end; assumption.
  - cbn. rewrite Hfile. repeat split.
Qed.

Lemma blank_session_file_is_never_repaired_witness :
  exists w',
    Wrapper.run
      (scripted_cli [reply 0 [jsonl "{'session_id':'sess-9','result':'hi'}"]])
      "hello"
      {| Wrapper.session_file := Some "  "; Wrapper.permission_mode := "plan";
         Wrapper.allowed_tools := Some ["Read"; "Grep"];
         Wrapper._session_id := JNull; Wrapper.launches := [] |}
    = (w', Ok (wrapper_result
                 [("session_id", JStr "sess-9"); ("result", JStr "hi")]))
    /\ Wrapper.launches w'
       = [["claude"; "-p"; "--output-format"; "json"; "--permission-mode";
           "plan"; "--allowedTools"; "Read,Grep"; "hello"]]
    /\ Wrapper.session_file w' = Some "  "
    /\ Wrapper._session_id w' = JStr ""
    /\ py_truthy (Wrapper._session_id w') = false.
Proof.
  apply (blank_session_file_is_never_repaired _ "hello" "  "
           {| Wrapper.session_file := Some "  "; Wrapper.permission_mode := "plan";
              Wrapper.allowed_tools := Some ["Read"; "Grep"];
              Wrapper._session_id := JNull; Wrapper.launches := [] |}
           (reply 0 [jsonl "{'session_id':'sess-9','result':'hi'}"])
           [("session_id", JStr "sess-9"); ("result", JStr "hi")]);
    reflexivity.
Defined.

(** ** The agent's streaming run *)

Section AgentStream.
Import Agent.
Variable cli : environment.

Lemma with_calls_nil (a : ClaudeAgent) : with_calls a [] = a.
Proof. destruct a; unfold with_calls; cbn. now rewrite app_nil_r. Qed.

Lemma with_calls_app (a : ClaudeAgent) (cs ds : list json) :
  with_calls (with_calls a cs) ds = with_calls a (cs ++ ds).
Proof. unfold with_calls; cbn. now rewrite app_assoc. Qed.

Lemma calls_grow_raise {A} (a : ClaudeAgent) (collected : A -> list json)
  (full : list json) (e : exn) :
  calls_grow a collected full (a, Raise e).
Proof.
  exists []. rewrite with_calls_nil. split; [reflexivity|].
  intros x H; discriminate H.
Qed.

(** The loop over the blocks calls [on_text] with exactly the texts it
    appends, also when it raises on the way. *)
Lemma text_blocks_calls (blocks : list json) :
  forall full a, calls_grow a id full (text_blocks blocks full a).
Proof.
  induction blocks as [|block rest IH]; intros full a.
  - exists []. cbn. rewrite with_calls_nil, app_nil_r.
    split; [reflexivity|]. intros full' H; now inversion H.
  - cbn [text_blocks].
    lifted_or bt ltac:(apply calls_grow_raise).
    destruct (py_eq_str bt "text"); [|apply IH].
    lifted_or t ltac:(apply calls_grow_raise).
    unfold bind at 1, call_on_text, modify.
    destruct (IH (full ++ [t]) (with_calls a [t])) as (chunks & H1 & H2).
    exists (t :: chunks).
    change (t :: chunks) with ([t] ++ chunks).
    rewrite <- with_calls_app, app_assoc. split; [exact H1|exact H2].
Qed.

Lemma consume_calls (lines : list string) :
  forall full final a,
    calls_grow a fst full (consume lines full final a).
Proof.
  induction lines as [|line rest IH]; intros full final a.
  - exists []. cbn. rewrite with_calls_nil, app_nil_r.
    split; [reflexivity|]. intros seen H; now inversion H.
  - cbn [consume]. cbv zeta.
    destruct (String.eqb (strip line) ""); [apply IH|].
    lifted_or dat ltac:(apply calls_grow_raise).
    lifted_or ety ltac:(apply calls_grow_raise).
    destruct (py_eq_str ety "assistant").
    + lifted_or message ltac:(apply calls_grow_raise).
      lifted_or content ltac:(apply calls_grow_raise).
      lifted_or blocks ltac:(apply calls_grow_raise).
      unfold bind at 1.
      destruct (text_blocks_calls blocks full a) as (c1 & H1 & H2).
      destruct (text_blocks blocks full a) as [a1 [full'|e]];
        cbn [fst snd] in H1, H2.
      * subst a1. destruct (IH full' final (with_calls a c1)) as (c2 & H3 & H4).
        exists (c1 ++ c2). rewrite H3, with_calls_app.
        split; [reflexivity|]. intros seen Hs.
        rewrite (H4 seen Hs). specialize (H2 full' eq_refl).
        unfold id in H2. rewrite H2. now rewrite app_assoc.
      * exists c1. split; [exact H1|]. intros seen Hs; discriminate Hs.
    + destruct (py_eq_str ety "result"); apply IH.
Qed.

(** Reading the property [session_id] launches nothing and calls
    nothing when it returns. *)
Lemma get_session_id_quiet (depth : nat) (a a1 : ClaudeAgent) (sid : json) :
  get_session_id cli depth a = (a1, Ok sid) ->
  launches a1 = launches a /\ on_text_calls a1 = on_text_calls a.
Proof.
  intros H.
  destruct (py_truthy (_session_id a)) eqn:Hid.
  - destruct depth; cbn [get_session_id] in H; unfold bind, get in H;
      rewrite Hid in H; inversion H; subst; repeat split.
  - destruct (session_file a) as [content|] eqn:Hfile.
    + destruct depth; cbn [get_session_id] in H;
        unfold bind, get, set_session_id, modify, ret in H;
        rewrite Hid, Hfile in H; inversion H; subst; repeat split.
    + rewrite (agent_get_session_id_recursion cli depth a Hid Hfile) in H.
      discriminate H.
Qed.

End AgentStream.

(** X12. A streaming [run] that returns has launched the CLI exactly once,
    and the text of its result is the concatenation of exactly the texts
    it passed to [on_text] during that run, in the order of the calls. *)
Theorem streamed_text_is_what_on_text_saw (cli : environment) (depth : nat)
  (prompt : string) (a a' : Agent.ClaudeAgent) (r : Agent.AgentResult) :
  Agent.run cli depth prompt true a = (a', Ok r) ->
  exists chunks s argv,
    Agent.on_text_calls a' = Agent.on_text_calls a ++ chunks
    /\ py_join chunks = Ok s
    /\ Agent.text r = JStr s
    /\ Agent.launches a' = Agent.launches a ++ [argv].
Proof.
  intros H. unfold Agent.run in H. cbn [negb] in H.
  unfold Agent._build_command, Agent._build_command_with in H.
  unfold bind at 1 in H. unfold bind at 1 in H. unfold get at 1 in H.
  unfold bind at 1 in H.
  destruct (Agent.get_session_id cli depth a) as [a1 [sid|e]] eqn:E1;
    [|discriminate H].
  apply get_session_id_quiet in E1. destruct E1 as [L1 C1].
  unfold ret at 1 in H.
  unfold bind at 1 in H. unfold Agent.launch at 1 in H.
  unfold bind at 1 in H. unfold lift at 1 in H.
  match type of H with context [argv_strings ?c] =>
    destruct (argv_strings c) as [argv|e] end; [|discriminate H].
  unfold bind at 1, get at 1 in H. unfold bind at 1, Agent.log_launch, modify in H.
  unfold lift at 1 in H.
  destruct (cli _ argv) as [proc|e]; [|discriminate H].
  unfold bind at 1 in H.
  match type of H with context [Agent.consume ?l [] None ?b] =>
    destruct (consume_calls l [] None b) as (chunks & G1 & G2);
    destruct (Agent.consume l [] None b) as [a2 [seen|e]]
  end; [|discriminate H].
  cbn [fst snd] in G1, G2. specialize (G2 seen eq_refl). cbn [app] in G2.
  destruct (negb (returncode proc =? 0)%Z); [discriminate H|].
  destruct (snd seen) as [final_result|]; [|discriminate H].
  unfold bind at 1, lift at 1 in H.
  destruct (py_join (fst seen)) as [s|e] eqn:Ej; [|discriminate H].
  lifted_ok H r_cost. lifted_ok H r_duration.
  unfold bind at 1 in H.
  destruct (Agent.get_session_id cli depth a2) as [a3 [current|e]] eqn:E3;
    [|discriminate H].
  apply get_session_id_quiet in E3. destruct E3 as [L3 C3].
  lifted_ok H r_sid. lifted_ok H r_err. lifted_ok H r_turns.
  unfold ret in H. inversion H; subst a' r. clear H.
  exists chunks, s, argv. rewrite L3, C3, G1. cbn. rewrite L1, C1, <- G2.
  split; [reflexivity|]. split; [exact Ej|]. split; reflexivity.
Qed.

Lemma streamed_text_is_what_on_text_saw_witness :
  exists chunks s argv,
    Agent.on_text_calls (fst (Agent.run stream_cli 2 "greet" true saved_agent))
    = Agent.on_text_calls saved_agent ++ chunks
    /\ py_join chunks = Ok s
    /\ Agent.text streamed_result = JStr s
    /\ Agent.launches (fst (Agent.run stream_cli 2 "greet" true saved_agent))
       = Agent.launches saved_agent ++ [argv].
Proof.
  apply (streamed_text_is_what_on_text_saw stream_cli 2 "greet" saved_agent).
  vm_compute. reflexivity.
Defined.

(** X13. A [ClaudeAgent] cannot start a conversation.  With no session
    file and no identifier in memory, [run] never reaches the CLI, in
    batch mode and in streaming mode alike: building the command reads
    [session_id], which calls [_run_once], which builds a command again,
    until the recursion limit is hit, whatever the limit is.  Nothing is
    launched, no callback is made and the agent is left as it was. *)
Theorem agent_run_needs_a_session (cli : environment) (depth : nat)
  (prompt : string) (on_text : bool) (a : Agent.ClaudeAgent) :
  py_truthy (Agent._session_id a) = false ->
  Agent.session_file a = None ->
  Agent.run cli depth prompt on_text a = (a, Raise RecursionError).
Proof.
  intros Hid Hfile.
  unfold Agent.run, Agent._run_once, Agent._run_once_with,
    Agent._build_command, Agent._build_command_with.
  destruct on_text; cbn [negb]; unfold bind, get;
    rewrite (agent_get_session_id_recursion cli depth a Hid Hfile);
    reflexivity.
Qed.

Lemma agent_run_needs_a_session_witness :
  Agent.run stream_cli 1000 "greet" true fresh_agent
  = (fresh_agent, Raise RecursionError).
Proof.
  apply (agent_run_needs_a_session stream_cli 1000 "greet" true fresh_agent);
    reflexivity.
Defined.

(** X14. [ClaudeAgent.run] raises whenever the process it launches exits
    with a code other than 0, in batch mode and in streaming mode, whatever
    the process printed. *)
Theorem agent_run_raises_on_nonzero_exit (cli : environment) (depth : nat)
  (prompt : string) (on_text : bool) (a : Agent.ClaudeAgent) :
  (forall n argv p, cli n argv = Ok p -> returncode p <> 0%Z) ->
  raises (snd (Agent.run cli depth prompt on_text a)) = true.
Proof.
  intros Hcli. unfold Agent.run.
  destruct on_text; cbn [negb];
    [|apply agent_run_once_nonzero_exit_raises, Hcli].
  unfold bind at 1.
  destruct (Agent._build_command cli depth prompt true a)
    as [a1 [cmd|e]]; [|reflexivity].
  unfold bind at 1, Agent.launch, bind at 1, lift at 1.
  destruct (argv_strings cmd) as [argv|e]; [|reflexivity].
  unfold bind at 1, get at 1, bind at 1, Agent.log_launch, modify, lift.
  destruct (cli _ argv) as [p|e] eqn:E; [|reflexivity].
  apply Hcli in E. apply Z.eqb_neq in E.
  unfold bind at 1.
  destruct (Agent.consume (stdout p) [] None _) as [a2 [seen|e]];
    [|reflexivity].
  rewrite E. reflexivity.
Qed.

Lemma agent_run_raises_on_nonzero_exit_witness :
  raises (snd (Agent.run failing_cli 2 "task" true saved_agent)) = true
  /\ raises (snd (Agent.run failing_cli 2 "task" false saved_agent)) = true.
Proof.
  assert (H : forall n argv p, failing_cli n argv = Ok p -> returncode p <> 0%Z).
  { intros n argv p E. inversion E. discriminate. }
  split.
  - apply (agent_run_raises_on_nonzero_exit failing_cli 2 "task" true
             saved_agent H).
  - apply (agent_run_raises_on_nonzero_exit failing_cli 2 "task" false
             saved_agent H).
Defined.

(** ** Turns of a stateful agent *)

Lemma take_turn_outcome (cli : environment) (a : Stateful.StatefulAgent)
  (prompt_text permission_mode now : string) (r : nat) (s : Stateful.Session) :
  Stateful._current_session a = Some r ->
  Stateful.heap a !! r = Some s ->
  Stateful.take_turn cli prompt_text permission_mode now a
  = turn_outcome cli a r s permission_mode prompt_text now.
Proof.
  intros Hc Hr.
  unfold Stateful.take_turn.
  unfold bind at 1, get at 1. rewrite Hc.
  unfold bind at 1, Stateful.deref at 1, bind at 1, get at 1.
  rewrite Hr. unfold ret at 1.
  unfold bind at 1, Stateful.subprocess_run at 1.
  unfold bind at 1, lift at 1.
  unfold turn_outcome. fold (turn_cmd s permission_mode prompt_text).
  destruct (argv_strings (turn_cmd s permission_mode prompt_text))
    as [argv|e]; [|reflexivity].
  unfold bind at 1, get at 1. unfold bind at 1, Stateful.log_launch, modify.
  unfold lift at 1. cbv zeta. fold (launched a argv).
  destruct (cli _ _) as [result|e]; [|reflexivity].
  destruct (negb (returncode result =? 0)%Z); [reflexivity|].
  unfold bind at 1, lift at 1.
  destruct (json_loads (stdout_text result)) as [data|e]; [|reflexivity].
  cbn [Stateful.rbind]. unfold turn_of_reply.
  unfold bind at 1, lift at 1.
  destruct (py_get data "result" (JStr "")) as [rs|e]; [|reflexivity].
  unfold bind at 1, lift at 1. cbn [Stateful.rbind].
  destruct (py_get data "total_cost_usd" (JNum (NInt 0))) as [c|e];
    [|reflexivity].
  unfold bind at 1, lift at 1. cbn [Stateful.rbind].
  destruct (py_get data "duration_ms" (JNum (NInt 0))) as [d|e];
    [|reflexivity].
  cbn [Stateful.rbind].
  unfold turn_added.
  unfold bind at 1, Stateful.add_turn_at, bind at 1, Stateful.deref at 1,
    bind at 1, get at 1.
  cbn [launched Stateful.heap]. rewrite Hr. unfold ret at 1.
  rewrite add_turn_outcome.
  destruct (Stateful.py_iadd _ _) as [total|e]; cbn [fst snd];
    unfold Stateful._save_session, Stateful.deref,
      Stateful.store_object, Stateful.write_file, bind, get, modify, ret, lift;
    [|reflexivity].
  cbn [Stateful.heap]. rewrite lookup_insert_eq.
  reflexivity.
Qed.

Lemma run_on_current (cli : environment) (a : Stateful.StatefulAgent)
  (prompt_text : string) (session_name : option string)
  (permission_mode now1 now2 now : string) (r : nat) (s : Stateful.Session) :
  Stateful._current_session a = Some r ->
  Stateful.heap a !! r = Some s ->
  Stateful.name s = Stateful.name_or_default session_name ->
  Stateful.run cli prompt_text session_name permission_mode now1 now2 now a
  = turn_outcome cli a r s permission_mode prompt_text now.
Proof.
  intros Hc Hr Hn.
  unfold Stateful.run. cbv zeta.
  unfold bind at 1, get at 1. rewrite Hc.
  unfold bind at 1. unfold bind at 1.
  unfold Stateful.deref at 1. unfold bind at 1, get at 1.
  rewrite Hr. unfold ret at 1. unfold ret at 1.
  rewrite Hn, String.eqb_refl. cbn [negb].
  unfold bind at 1, when at 1, ret at 1.
  apply take_turn_outcome; assumption.
Qed.

Lemma turn_of_reply_fields (now prompt_text : string) (data : json)
  (t : Stateful.Turn) :
  turn_of_reply now prompt_text data = Ok t ->
  Stateful.prompt t = JStr prompt_text /\ Stateful.timestamp t = JStr now.
Proof.
  unfold turn_of_reply.
  destruct (py_get data "result" (JStr "")); [|discriminate].
  cbn [Stateful.rbind].
  destruct (py_get data "total_cost_usd" (JNum (NInt 0))); [|discriminate].
  cbn [Stateful.rbind].
  destruct (py_get data "duration_ms" (JNum (NInt 0))); [|discriminate].
  cbn [Stateful.rbind]. intros [= <-]. split; reflexivity.
Qed.

(** The argument list of a turn is made when the identifier of the
    session is a string, and only then. *)
Lemma turn_cmd_strings (s : Stateful.Session)
  (permission_mode prompt_text : string) (argv : list string) :
  argv_strings (turn_cmd s permission_mode prompt_text) = Ok argv ->
  exists sid,
    Stateful.session_id s = JStr sid
    /\ argv = turn_argv sid permission_mode prompt_text.
Proof.
  unfold turn_cmd. cbn [argv_strings].
  destruct (Stateful.session_id s) as [| | |sid| |]; try discriminate.
  intros [= <-]. exists sid. split; reflexivity.
Qed.

Lemma add_turn_name (t : Stateful.Turn) (s s' : Stateful.Session)
  (r : res unit) :
  Stateful.add_turn t s = (s', r) ->
  Stateful.name s' = Stateful.name s
  /\ Stateful.session_id s' = Stateful.session_id s.
Proof.
  rewrite add_turn_outcome.
  destruct (Stateful.py_iadd _ _); intros [= <- _]; split; reflexivity.
Qed.

(** X15. A turn that succeeds on the current session is recorded once,
    in memory and on disk alike: [run] launches the CLI once under the
    session's identifier, which is a string; [add_turn] of exactly the
    returned turn has returned on the current session object, which so
    holds one more turn; and that object is saved under the session's
    name, so that loading the file gives the object in memory.  No other
    session object and no other session file is touched. *)
Theorem run_records_the_turn (cli : environment)
  (a a' : Stateful.StatefulAgent) (prompt_text : string)
  (session_name : option string) (permission_mode now1 now2 now : string)
  (r : nat) (s : Stateful.Session) (turn : Stateful.Turn) :
  Stateful._current_session a = Some r ->
  Stateful.heap a !! r = Some s ->
  Stateful.name s = Stateful.name_or_default session_name ->
  Stateful.run cli prompt_text session_name permission_mode now1 now2 now a
  = (a', Ok turn) ->
  Stateful.prompt turn = JStr prompt_text
  /\ Stateful.timestamp turn = JStr now
  /\ exists s' sid,
       Stateful.add_turn turn s = (s', Ok tt)
       /\ Stateful.turns s' = Stateful.turns s ++ [turn]
       /\ Stateful.session_id s = JStr sid
       /\ Stateful.heap a' !! r = Some s'
       /\ (forall r', r' <> r -> Stateful.heap a' !! r' = Stateful.heap a !! r')
       /\ (exists doc,
              Stateful.storage a' !! Stateful._session_path (Stateful.name s)
              = Some doc
              /\ Stateful.from_dict doc = Ok s')
       /\ (forall nm, nm <> Stateful.name s ->
                      Stateful.storage a' !! Stateful._session_path nm
                      = Stateful.storage a !! Stateful._session_path nm)
       /\ Stateful._current_session a' = Some r
       /\ Stateful.launches a'
          = Stateful.launches a ++ [turn_argv sid permission_mode prompt_text].
Proof.
  intros Hc Hr Hn H.
  rewrite (run_on_current cli a prompt_text session_name permission_mode
             now1 now2 now r s Hc Hr Hn) in H.
  unfold turn_outcome in H. cbv zeta in H.
  destruct (argv_strings _) as [argv|e] eqn:Eargv; [|discriminate H].
  apply turn_cmd_strings in Eargv as (sid & Hsid & ->).
  destruct (cli _ _) as [result|e]; [|discriminate H].
  destruct (negb (returncode result =? 0)%Z); [discriminate H|].
  destruct (json_loads (stdout_text result)) as [data|e]; [|discriminate H].
  cbn [Stateful.rbind] in H.
  destruct (turn_of_reply now prompt_text data) as [t|e] eqn:Et;
    [|discriminate H].
  unfold turn_added in H.
  destruct (Stateful.add_turn t s) as [s' [[]|e]] eqn:Eadd;
    [|discriminate H].
  injection H as <- <-.
  apply turn_of_reply_fields in Et as [P1 P2].
  split; [exact P1|]. split; [exact P2|].
  destruct (add_turn_name t s s' _ Eadd) as [Hname _].
  exists s', sid.
  cbn [recorded launched Stateful.heap Stateful.storage
       Stateful._current_session Stateful.launches].
  rewrite Hname.
  split; [exact Eadd|].
  split; [apply (add_turn_appends t s s' _ Eadd)|].
  split; [exact Hsid|].
  split; [apply lookup_insert_eq|].
  split; [intros r' Hr'; apply lookup_insert_ne; congruence|].
  split.
  { eexists. split; [apply lookup_insert_eq|]. apply session_round_trip. }
  split.
  { intros nm Hnm. apply lookup_insert_ne.
    intros E. apply Hnm. symmetry. apply session_path_inj, E. }
  split; [exact Hc|reflexivity].
Qed.

Lemma run_records_the_turn_witness :
  exists a' turn s',
    Stateful.run fork_cli "next step" (Some "A") "plan" "t1" "t2" "t3"
      sample_agent
    = (a', Ok turn)
    /\ Stateful.add_turn turn sample_session = (s', Ok tt)
    /\ Stateful.heap a' !! 0%nat = Some s'
    /\ Stateful.launches a'
       = [["claude"; "-p"; "--resume"; "sess-A"; "--output-format"; "json";
           "--permission-mode"; "plan"; "next step"]].
Proof.
  destruct (Stateful.run fork_cli "next step" (Some "A") "plan" "t1" "t2" "t3"
              sample_agent) as [a' [turn|e]] eqn:E.
  - destruct (run_records_the_turn fork_cli sample_agent a' "next step"
                (Some "A") "plan" "t1" "t2" "t3" 0%nat sample_session turn
                eq_refl eq_refl eq_refl E)
      as (_ & _ & s' & sid & H1 & _ & Hsid & H2 & _ & _ & _ & _ & H3).
    exists a', turn, s'. split; [reflexivity|].
    split; [exact H1|]. split; [exact H2|].
    injection Hsid as <-. exact H3.
  - vm_compute in E. discriminate E.
Defined.




Lemma create_session_outcome (cli : environment) (a : Stateful.StatefulAgent)
  (nm initial_prompt now1 now2 : string) :
  Stateful.create_session cli nm initial_prompt now1 now2 a
  = create_outcome cli a nm initial_prompt now1 now2.
Proof.
  unfold Stateful.create_session, create_outcome. cbv zeta.
  unfold bind at 1, Stateful.subprocess_run at 1.
  unfold bind at 1, lift at 1. cbn [argv_strings].
  unfold bind at 1, get at 1. unfold bind at 1, Stateful.log_launch, modify.
  unfold lift at 1. fold (create_argv initial_prompt).
  fold (launched a (create_argv initial_prompt)).
  destruct (cli _ _) as [result|e]; [|reflexivity].
  destruct (negb (returncode result =? 0)%Z); [reflexivity|].
  unfold bind at 1, lift at 1.
  destruct (json_loads (stdout_text result)) as [data|e]; [|reflexivity].
  unfold bind at 1, lift at 1.
  destruct (py_index data "session_id") as [sid|e]; [|reflexivity].
  unfold bind at 1, Stateful.allocate at 1.
  unfold bind at 1, get at 1.
  unfold bind at 1, Stateful.store_object at 1, modify at 1. unfold ret at 1.
  cbn [launched Stateful.heap Stateful.storage Stateful._current_session
       Stateful.launches].
  unfold turn_of_reply.
  unfold bind at 1, lift at 1.
  destruct (py_get data "result" (JStr "")) as [rs|e]; [|reflexivity].
  unfold bind at 1, lift at 1. cbn [Stateful.rbind].
  destruct (py_get data "total_cost_usd" (JNum (NInt 0))) as [c|e];
    [|reflexivity].
  unfold bind at 1, lift at 1. cbn [Stateful.rbind].
  destruct (py_get data "duration_ms" (JNum (NInt 0))) as [d|e];
    [|reflexivity].
  cbn [Stateful.rbind].
  unfold turn_added.
  unfold bind at 1, Stateful.add_turn_at, bind at 1, Stateful.deref at 1,
    bind at 1, get at 1.
  cbn [Stateful.heap]. rewrite lookup_insert_eq. unfold ret at 1.
  rewrite add_turn_outcome.
  destruct (Stateful.py_iadd _ _) as [total|e]; cbn [fst snd];
    unfold Stateful._save_session, Stateful.deref, Stateful.set_current,
      Stateful.store_object, Stateful.write_file, bind, get, modify, ret, lift;
    [|reflexivity].
  cbn [Stateful.heap]. rewrite lookup_insert_eq.
  reflexivity.
Qed.

Lemma load_or_create_missing (cli : environment) (a : Stateful.StatefulAgent)
  (nm now1 now2 : string) :
  Stateful.storage a !! Stateful._session_path nm = None ->
  Stateful.load_or_create_session cli nm now1 now2 a
  = create_outcome cli a nm "Initialize session" now1 now2.
Proof.
  intros Hfile. unfold Stateful.load_or_create_session.
  unfold bind at 1, Stateful._load_session at 1.
  unfold bind at 1, get at 1. rewrite Hfile. unfold ret at 1.
  apply create_session_outcome.
Qed.

(** X17. A turn under a name that has neither a session file nor the
    current session object starts that session first: [run] launches the
    CLI twice, once with the prompt Initialize session and once with the
    caller's prompt under the identifier that the first reply gives, which
    is a string.  The session is a new object that becomes the current
    one; it is made with that identifier and no parent, and holds exactly
    the two turns made from the two replies, in that order, each added by
    [add_turn]; it is saved under the name.  No object that existed is
    touched. *)
Theorem run_starts_a_named_session (cli : environment)
  (a a' : Stateful.StatefulAgent) (prompt_text : string)
  (session_name : option string) (permission_mode now1 now2 now : string)
  (turn : Stateful.Turn) :
  other_session a (Stateful.name_or_default session_name) ->
  Stateful.storage a
    !! Stateful._session_path (Stateful.name_or_default session_name) = None ->
  Stateful.run cli prompt_text session_name permission_mode now1 now2 now a
  = (a', Ok turn) ->
  exists r sid data1 data2 first s1 s,
    answer cli (length (Stateful.launches a))
           (create_argv "Initialize session") = Some data1
    /\ py_index data1 "session_id" = Ok (JStr sid)
    /\ turn_of_reply now2 "Initialize session" data1 = Ok first
    /\ answer cli (length (Stateful.launches a) + 1)
              (turn_argv sid permission_mode prompt_text) = Some data2
    /\ turn_of_reply now prompt_text data2 = Ok turn
    /\ Stateful.add_turn first
         (Stateful.new_session
            (JStr sid) (Stateful.name_or_default session_name) now1 JNull)
       = (s1, Ok tt)
    /\ Stateful.add_turn turn s1 = (s, Ok tt)
    /\ Stateful.turns s = [first; turn]
    /\ Stateful.session_id s = JStr sid
    /\ Stateful.heap a !! r = None
    /\ Stateful._current_session a' = Some r
    /\ Stateful.heap a' !! r = Some s
    /\ (forall r', r' <> r -> Stateful.heap a' !! r' = Stateful.heap a !! r')
    /\ Stateful.prompt first = JStr "Initialize session"
    /\ Stateful.prompt turn = JStr prompt_text
    /\ Stateful.storage a'
         !! Stateful._session_path (Stateful.name_or_default session_name)
       = Some (Stateful.to_dict s)
    /\ Stateful.launches a'
       = Stateful.launches a
         ++ [create_argv "Initialize session";
             turn_argv sid permission_mode prompt_text].
Proof.
  set (nm := Stateful.name_or_default session_name).
  intros Hstale Hfile H.
  unfold Stateful.run in H. cbv zeta in H. fold nm in H.
  unfold bind at 1, get at 1 in H.
  assert (Hs : (match Stateful._current_session a with
                | Some r =>
                    let* s := Stateful.deref r in
                    ret (negb (String.eqb (Stateful.name s) nm))
                | None => ret true
                end) a = (a, Ok true)).
  { clear H. unfold other_session in Hstale.
    destruct (Stateful._current_session a) as [r0|]; [|reflexivity].
    destruct Hstale as (s0 & Hs0 & Hne).
    unfold Stateful.deref, bind, get, ret. rewrite Hs0.
    destruct (String.eqb_spec (Stateful.name s0) nm); [contradiction|reflexivity]. }
  unfold bind at 1 in H. rewrite Hs in H. clear Hs.
  unfold bind at 1, when at 1 in H. unfold bind at 1 in H.
  rewrite (load_or_create_missing cli a nm now1 now2 Hfile) in H.
  unfold create_outcome in H. cbv zeta in H.
  destruct (cli _ _) as [result|e] eqn:Ecli1; [|discriminate H].
  destruct (returncode result =? 0)%Z eqn:Erc1; cbn [negb] in H;
    [|discriminate H].
  destruct (json_loads (stdout_text result)) as [data|e] eqn:Ej1;
    [|discriminate H].
  destruct (py_index data "session_id") as [sidj|e] eqn:Esid;
    [|discriminate H].
  destruct (turn_of_reply now2 "Initialize session" data) as [first|e] eqn:E1;
    [|discriminate H].
  unfold turn_added in H.
  destruct (Stateful.add_turn first (Stateful.new_session sidj nm now1 JNull))
    as [s1 [[]|e]] eqn:Ea1; [|discriminate H].
  set (r := fresh (dom (Stateful.heap a))) in H.
  unfold Stateful.set_current at 1, modify at 1 in H.
  match type of H with Stateful.take_turn _ _ _ _ ?b = _ =>
    rewrite (take_turn_outcome cli b prompt_text permission_mode now r
               s1 eq_refl) in H;
      [|cbn; apply lookup_insert_eq]
  end.
  unfold turn_outcome in H. cbv zeta in H.
  destruct (argv_strings _) as [argv|e] eqn:Eargv; [|discriminate H].
  apply turn_cmd_strings in Eargv as (sid & Hsid & ->).
  destruct (add_turn_name first _ s1 _ Ea1) as [Hn1 Hid1].
  cbn [Stateful.new_session Stateful.session_id Stateful.name] in Hn1, Hid1.
  rewrite Hid1 in Hsid. subst sidj.
  cbn [recorded launched made_current with_object Stateful.launches] in H.
  rewrite length_app in H. cbn [length] in H.
  destruct (cli (length (Stateful.launches a) + 1) _)
    as [result2|e] eqn:Ecli2; [|discriminate H].
  destruct (returncode result2 =? 0)%Z eqn:Erc2; cbn [negb] in H;
    [|discriminate H].
  destruct (json_loads (stdout_text result2)) as [data2|e] eqn:Ej2;
    [|discriminate H].
  cbn [Stateful.rbind] in H.
  destruct (turn_of_reply now prompt_text data2) as [t|e] eqn:E2;
    [|discriminate H].
  unfold turn_added in H.
  destruct (Stateful.add_turn t s1) as [s [[]|e]] eqn:Ea2; [|discriminate H].
  injection H as <- <-.
  destruct (add_turn_name t s1 s _ Ea2) as [Hn2 Hid2].
  pose proof (add_turn_appends first _ s1 _ Ea1) as Ht1.
  pose proof (add_turn_appends t s1 s _ Ea2) as Ht2.
  cbn [Stateful.new_session Stateful.turns app] in Ht1.
  rewrite Ht1 in Ht2. cbn [app] in Ht2.
  pose proof (turn_of_reply_fields _ _ _ _ E1) as [P1 _].
  pose proof (turn_of_reply_fields _ _ _ _ E2) as [P2 _].
  exists r, sid, data, data2, first, s1, s.
  split; [unfold answer; now rewrite Ecli1, Erc1, Ej1|].
  split; [exact Esid|]. split; [exact E1|].
  split; [unfold answer; now rewrite Ecli2, Erc2, Ej2|].
  split; [exact E2|]. split; [exact Ea1|]. split; [exact Ea2|].
  split; [exact Ht2|].
  split; [now rewrite Hid2, Hid1|].
  split; [apply not_elem_of_dom, is_fresh|].
  cbn [recorded launched made_current with_object Stateful.heap
       Stateful.storage Stateful._current_session Stateful.launches].
  rewrite Hn2, Hn1.
  split; [reflexivity|].
  split; [apply lookup_insert_eq|].
  split.
  { intros r' Hr'. rewrite !lookup_insert_ne by congruence. reflexivity. }
  split; [exact P1|]. split; [exact P2|].
  split; [apply lookup_insert_eq|].
  rewrite <- app_assoc. reflexivity.
Qed.

Lemma run_starts_a_named_session_witness :
  exists a' turn r s,
    Stateful.run fork_cli "first question" None "default" "t1" "t2" "t3"
      empty_agent
    = (a', Ok turn)
    /\ Stateful._current_session a' = Some r
    /\ Stateful.heap a' !! r = Some s
    /\ Stateful.session_id s = JStr "sess-B"
    /\ Stateful.prompt turn = JStr "first question"
    /\ Stateful.launches a'
       = [["claude"; "-p"; "Initialize session"; "--output-format"; "json"];
          ["claude"; "-p"; "--resume"; "sess-B"; "--output-format"; "json";
           "--permission-mode"; "default"; "first question"]].
Proof.
  destruct (Stateful.run fork_cli "first question" None "default" "t1" "t2" "t3"
              empty_agent) as [a' [turn|e]] eqn:E.
  - destruct (run_starts_a_named_session fork_cli empty_agent a'
                "first question" None "default" "t1" "t2" "t3" turn
                I eq_refl E)
      as (r & sid & data1 & data2 & first & s1 & s & Hd1 & Hsid & _ & _ & _
          & _ & _ & _ & Hid & _ & Hc & Hh & _ & _ & Hp & _ & HL).
    vm_compute in Hd1. injection Hd1 as <-.
    vm_compute in Hsid. injection Hsid as <-.
    exists a', turn, r, s. split; [reflexivity|].
    split; [exact Hc|]. split; [exact Hh|]. split; [exact Hid|].
    split; [exact Hp|exact HL].
  - vm_compute in E. discriminate E.
Defined.

Lemma load_saved_session (a : Stateful.StatefulAgent) (nm : string)
  (s : Stateful.Session) :
  Stateful.storage a !! Stateful._session_path nm = Some (Stateful.to_dict s) ->
  Stateful._load_session nm a
  = (with_object a (fresh (dom (Stateful.heap a))) s,
     Ok (Some (fresh (dom (Stateful.heap a))))).
Proof.
  intros Hfile. unfold Stateful._load_session.
  unfold bind at 1, get at 1. rewrite Hfile.
  unfold bind at 1, lift at 1. rewrite session_round_trip.
  unfold Stateful.allocate, Stateful.store_object, bind, get, modify, ret.
  reflexivity.
Qed.

(** X18. A conversation persists across agents.  When the session file of
    the name holds a saved session and the agent's current session is
    another one (or none), a successful [run] launches the CLI once, under
    the identifier that was saved, and leaves, in a new object that
    becomes the current session and in the file, the saved session with
    the new turn added by [add_turn]. *)
Theorem run_resumes_a_saved_session (cli : environment)
  (a a' : Stateful.StatefulAgent) (prompt_text : string)
  (session_name : option string) (permission_mode now1 now2 now : string)
  (s : Stateful.Session) (turn : Stateful.Turn) :
  other_session a (Stateful.name_or_default session_name) ->
  Stateful.name s = Stateful.name_or_default session_name ->
  Stateful.storage a !! Stateful._session_path (Stateful.name s)
  = Some (Stateful.to_dict s) ->
  Stateful.run cli prompt_text session_name permission_mode now1 now2 now a
  = (a', Ok turn) ->
  exists r s' sid,
    Stateful.add_turn turn s = (s', Ok tt)
    /\ Stateful.turns s' = Stateful.turns s ++ [turn]
    /\ Stateful.session_id s = JStr sid
    /\ Stateful.heap a !! r = None
    /\ Stateful._current_session a' = Some r
    /\ Stateful.heap a' !! r = Some s'
    /\ (forall r', r' <> r -> Stateful.heap a' !! r' = Stateful.heap a !! r')
    /\ Stateful.storage a' !! Stateful._session_path (Stateful.name s)
       = Some (Stateful.to_dict s')
    /\ Stateful.launches a'
       = Stateful.launches a ++ [turn_argv sid permission_mode prompt_text].
Proof.
  set (nm := Stateful.name_or_default session_name).
  intros Hstale Hn Hfile H. rewrite Hn in Hfile.
  unfold Stateful.run in H. cbv zeta in H. fold nm in H.
  unfold bind at 1, get at 1 in H.
  assert (Hs : (match Stateful._current_session a with
                | Some r =>
                    let* s := Stateful.deref r in
                    ret (negb (String.eqb (Stateful.name s) nm))
                | None => ret true
                end) a = (a, Ok true)).
  { clear H. unfold other_session in Hstale.
    destruct (Stateful._current_session a) as [r0|]; [|reflexivity].
    destruct Hstale as (s0 & Hs0 & Hne).
    unfold Stateful.deref, bind, get, ret. rewrite Hs0.
    destruct (String.eqb_spec (Stateful.name s0) nm); [contradiction|reflexivity]. }
  unfold bind at 1 in H. rewrite Hs in H. clear Hs.
  unfold bind at 1, when at 1 in H. unfold bind at 1 in H.
  unfold Stateful.load_or_create_session at 1 in H.
  unfold bind at 1 in H. rewrite (load_saved_session a nm s Hfile) in H.
  set (r := fresh (dom (Stateful.heap a))) in H.
  unfold bind at 1, Stateful.set_current at 1, modify at 1, ret at 1 in H.
  unfold Stateful.set_current at 1, modify at 1 in H.
  match type of H with Stateful.take_turn _ _ _ _ ?b = _ =>
    rewrite (take_turn_outcome cli b prompt_text permission_mode now r s
               eq_refl) in H;
      [|cbn; apply lookup_insert_eq]
  end.
  unfold turn_outcome in H. cbv zeta in H.
  destruct (argv_strings _) as [argv|e] eqn:Eargv; [|discriminate H].
  apply turn_cmd_strings in Eargv as (sid & Hsid & ->).
  destruct (cli _ _) as [result|e]; [|discriminate H].
  destruct (negb (returncode result =? 0)%Z); [discriminate H|].
  destruct (Stateful.rbind _ _) as [t|e]; [|discriminate H].
  unfold turn_added in H.
  destruct (Stateful.add_turn t s) as [s' [[]|e]] eqn:Eadd; [|discriminate H].
  injection H as <- <-.
  destruct (add_turn_name t s s' _ Eadd) as [Hname _].
  exists r, s', sid.
  split; [exact Eadd|].
  split; [apply (add_turn_appends t s s' _ Eadd)|].
  split; [exact Hsid|].
  split; [apply not_elem_of_dom, is_fresh|].
  cbn [recorded launched made_current with_object Stateful.heap
       Stateful.storage Stateful._current_session Stateful.launches].
  rewrite Hname.
  split; [reflexivity|].
  split; [apply lookup_insert_eq|].
  split.
  { intros r' Hr'. rewrite !lookup_insert_ne by congruence. reflexivity. }
  split; [apply lookup_insert_eq|reflexivity].
Qed.

Lemma run_resumes_a_saved_session_witness :
  exists a' turn r s',
    Stateful.run fork_cli "go on" (Some "A") "default" "t1" "t2" "t3"
      (recorded empty_agent 0%nat sample_session)
    = (a', Ok turn)
    /\ Stateful.add_turn turn sample_session = (s', Ok tt)
    /\ Stateful._current_session a' = Some r
    /\ Stateful.heap a' !! r = Some s'
    /\ Stateful.launches a'
       = [["claude"; "-p"; "--resume"; "sess-A"; "--output-format"; "json";
           "--permission-mode"; "default"; "go on"]].
Proof.
  destruct (Stateful.run fork_cli "go on" (Some "A") "default" "t1" "t2" "t3"
              (recorded empty_agent 0%nat sample_session))
    as [a' [turn|e]] eqn:E.
  - destruct (run_resumes_a_saved_session fork_cli
                (recorded empty_agent 0%nat sample_session) a'
                "go on" (Some "A") "default" "t1" "t2" "t3" sample_session turn
                I eq_refl eq_refl E)
      as (r & s' & sid & Ha & _ & Hsid & _ & Hc & Hh & _ & _ & HL).
    exists a', turn, r, s'. split; [reflexivity|].
    split; [exact Ha|]. split; [exact Hc|]. split; [exact Hh|].
    injection Hsid as <-. exact HL.
  - vm_compute in E. discriminate E.
Defined.

(** X19. The queries read the disk and change nothing they can see.
    Once a session is saved, [get_stats] under its name reports its name,
    identifier, creation time, number of turns, running total and parent,
    and [get_history] returns its turns; under a name with no session file
    they return the error record and the empty list.  Neither launches the
    CLI, writes a file or changes the current session. *)
Theorem queries_read_the_saved_session (a : Stateful.StatefulAgent)
  (session_name : option string) :
  let nm := Stateful.name_or_default session_name in
  (forall r s,
     Stateful.heap a !! r = Some s ->
     Stateful.name s = nm ->
     exists a1 a2 a3,
       Stateful._save_session r a = (a1, Ok tt)
       /\ Stateful.get_stats session_name a1
          = (a2, Ok (JObj [("name", JStr nm);
                           ("session_id", Stateful.session_id s);
                           ("created_at", Stateful.created_at s);
                           ("turn_count",
                            JNum (NInt (Z.of_nat (length (Stateful.turns s)))));
                           ("total_cost_usd", Stateful.total_cost_usd s);
                           ("parent", Stateful.parent_session_id s)]))
       /\ Stateful.get_history session_name a1 = (a3, Ok (Stateful.turns s))
       /\ Stateful.storage a2 = Stateful.storage a1
       /\ Stateful.storage a3 = Stateful.storage a1
       /\ Stateful._current_session a2 = Stateful._current_session a
       /\ Stateful._current_session a3 = Stateful._current_session a
       /\ Stateful.launches a2 = Stateful.launches a
       /\ Stateful.launches a3 = Stateful.launches a)
  /\ (Stateful.storage a !! Stateful._session_path nm = None ->
      Stateful.get_stats session_name a
      = (a, Ok (JObj [("error", JStr "Session not found")]))
      /\ Stateful.get_history session_name a = (a, Ok [])).
Proof.
  intros nm. split.
  - intros r s Hr Hn.
    set (a1 := {| Stateful.storage :=
                    <[Stateful._session_path nm := Stateful.to_dict s]>
                      (Stateful.storage a);
                  Stateful.heap := Stateful.heap a;
                  Stateful._current_session := Stateful._current_session a;
                  Stateful.launches := Stateful.launches a |}).
    assert (Hfile : Stateful.storage a1 !! Stateful._session_path nm
                    = Some (Stateful.to_dict s))
      by (cbn; apply lookup_insert_eq).
    exists a1. eexists. eexists.
    split.
    { unfold Stateful._save_session, Stateful.deref, Stateful.write_file,
        bind, get, modify, ret. rewrite Hr, Hn. reflexivity. }
    split.
    { unfold Stateful.get_stats. fold nm. unfold bind at 1.
      rewrite (load_saved_session a1 nm s Hfile).
      unfold Stateful.deref, bind, get, ret. cbn [with_object Stateful.heap].
      rewrite lookup_insert_eq. rewrite Hn. reflexivity. }
    split.
    { unfold Stateful.get_history. fold nm. unfold bind at 1.
      rewrite (load_saved_session a1 nm s Hfile).
      unfold Stateful.deref, bind, get, ret. cbn [with_object Stateful.heap].
      rewrite lookup_insert_eq. reflexivity. }
    repeat split.
  - intros Hfile.
    unfold Stateful.get_stats, Stateful.get_history, Stateful._load_session,
      bind, get, ret.
    fold nm. rewrite Hfile. split; reflexivity.
Qed.

Lemma queries_read_the_saved_session_witness :
  exists a1 a2 a3,
    Stateful._save_session 0%nat sample_agent = (a1, Ok tt)
    /\ Stateful.get_stats (Some "A") a1
       = (a2, Ok (JObj [("name", JStr "A"); ("session_id", JStr "sess-A");
                        ("created_at", JStr "2025-01-01T09:59:00");
                        ("turn_count", JNum (NInt 1));
                        ("total_cost_usd",
                         Stateful.total_cost_usd sample_session);
                        ("parent", JNull)]))
    /\ Stateful.get_history (Some "A") a1 = (a3, Ok [sample_turn]).
Proof.
  destruct (queries_read_the_saved_session sample_agent (Some "A")) as [H _].
  destruct (H 0%nat sample_session eq_refl eq_refl)
    as (a1 & a2 & a3 & H1 & H2 & H3 & _).
  exists a1, a2, a3. split; [exact H1|]. split; [exact H2|exact H3].
Defined.

(** X20. [Session.from_dict] accepts the fields of a [Session] only: a
    record with any other key is refused, as the keyword call of the
    constructor refuses an argument it does not know.  A session file
    with one extra field cannot be loaded. *)
Theorem from_dict_refuses_unknown_fields (kvs : list (string * json))
  (k : string) (v : json) :
  In (k, v) kvs ->
  ~ In k ["session_id"; "name"; "created_at"; "turns"; "total_cost_usd";
          "parent_session_id"] ->
  raises (Stateful.from_dict (JObj kvs)) = true.
Proof.
  intros Hin Hk. unfold Stateful.from_dict. cbv zeta.
  destruct (py_iter _) as [items|e]; [|reflexivity]. cbn [Stateful.rbind].
  destruct (Stateful.turns_from_list items) as [ts|e]; [|reflexivity].
  cbn [Stateful.rbind].
  assert (Hrem : In (k, v) (Stateful.dict_remove "turns" kvs)).
  { clear -Hin Hk. induction kvs as [|[k' v'] rest IH]; [contradiction|].
    cbn [Stateful.dict_remove].
    destruct (String.eqb_spec "turns" k') as [<-|Hne].
    - destruct Hin as [E|Hin]; [|exact Hin].
      injection E as <- _. exfalso. apply Hk. cbn. tauto.
    - destruct Hin as [E|Hin]; [left; exact E|right; apply IH, Hin]. }
  assert (Hunknown :
            Stateful.known_keys
              ["session_id"; "name"; "created_at"; "total_cost_usd";
               "parent_session_id"] (Stateful.dict_remove "turns" kvs) = false).
  { apply not_true_is_false. intros Hall.
    unfold Stateful.known_keys in Hall. rewrite forallb_forall in Hall.
    specialize (Hall (k, v) Hrem). cbn [fst] in Hall.
    apply existsb_exists in Hall as (x & Hx & Heq).
    apply String.eqb_eq in Heq. subst x. apply Hk. cbn in Hx |- *. tauto. }
  rewrite Hunknown. reflexivity.
Qed.

Lemma from_dict_refuses_unknown_fields_witness :
  raises (Stateful.from_dict
            (JObj [("session_id", JStr "sess-A"); ("name", JStr "A");
                   ("created_at", JStr "2025-01-01T09:59:00");
                   ("tags", JArr [])])) = true.
Proof.
  apply (from_dict_refuses_unknown_fields _ "tags" (JArr [])).
  - cbn. tauto.
  - cbn. intros H. repeat (destruct H as [H|H]; [discriminate H|]). exact H.
Defined.

(** ** Tasks of the service *)

Section ServiceFrame.
Import Service.
Variable cli : environment.

Lemma quiet_refl (a : AgentService) : quiet a a.
Proof. repeat split. Qed.

Lemma quiet_trans (a b c : AgentService) : quiet a b -> quiet b c -> quiet a c.
Proof.
  unfold quiet. intros (?&?&?) (?&?&?). repeat split; congruence.
Qed.

Lemma same_core_quiet (a b : AgentService) : same_core a b -> quiet a b.
Proof. intros (H1 & _ & _ & H4 & _ & _ & H7). repeat split; assumption. Qed.

(** With no identifier in memory and no session file, reading the
    property [session_id] runs into the recursion limit. *)
Lemma service_session_id_recursion (depth : nat) (a : AgentService) :
  py_truthy (_session_id a) = false ->
  session_file a = None ->
  get_session_id cli depth a = (a, Raise RecursionError).
Proof.
  revert a. induction depth as [|d IH]; intros a Hid Hfile;
    cbn [get_session_id]; unfold bind at 1, get at 1;
    rewrite Hid, Hfile; [reflexivity|].
  unfold _run_claude_with, _build_command_with.
  unfold bind. rewrite (IH a Hid Hfile). reflexivity.
Qed.

Lemma service_session_id_quiet (depth : nat) (a : AgentService) :
  quiet a (fst (get_session_id cli depth a)).
Proof.
  destruct (py_truthy (_session_id a)) eqn:Hid.
  - destruct depth; cbn [get_session_id]; unfold bind, get;
      rewrite Hid; apply quiet_refl.
  - destruct (session_file a) as [content|] eqn:Hfile.
    + destruct depth; cbn [get_session_id];
        unfold bind, get, set_session_id, modify, ret;
        rewrite Hid, Hfile; repeat split.
    + rewrite (service_session_id_recursion depth a Hid Hfile).
      apply quiet_refl.
Qed.

Lemma build_command_quiet (depth : nat) (prompt_text : string) (stream : bool)
  (a : AgentService) :
  quiet a (fst (_build_command cli depth prompt_text stream a)).
Proof.
  unfold _build_command, _build_command_with. unfold bind at 1.
  pose proof (service_session_id_quiet depth a) as H.
  destruct (get_session_id cli depth a) as [a1 [sid|e]]; exact H.
Qed.

Lemma attempt_body_post (depth : nat) (prompt_text tid : string)
  (on_output : bool) (attempt : Z) (a : AgentService) :
  attempt_post a tid prompt_text attempt
    (attempt_body cli depth prompt_text tid on_output attempt a).
Proof.
  assert (Hearly : forall (b : AgentService) (e : exn),
             quiet a b ->
             attempt_post a tid prompt_text attempt (b, @Raise TaskResult e)).
  { intros b e (C & T & F). split; [exact C|]. split; [exact F|].
    split; [left; exact T|intros r H; discriminate H]. }
  unfold attempt_body. cbv zeta. unfold bind at 1.
  pose proof (build_command_quiet depth prompt_text true a) as Q1.
  destruct (_build_command cli depth prompt_text true a) as [a1 [cmd|e]];
    cbn [fst] in Q1; [|apply Hearly, Q1].
  unfold bind at 1, launch at 1. unfold bind at 1, lift at 1.
  destruct (argv_strings cmd) as [argv|e]; [|apply Hearly, Q1].
  destruct Q1 as (C1 & T1 & F1).
  unfold bind at 1, get at 1. unfold bind at 1, log_launch at 1, modify at 1.
  unfold lift at 1.
  assert (Hpost : forall (b : AgentService) (x : res TaskResult),
             config b = config a1 -> trace b = trace a1 ++ [Launched argv] ->
             _shutdown_requested b = _shutdown_requested a1 ->
             (forall r, x = Ok r ->
                (status r = SUCCESS \/ status r = FAILED)
                /\ attempts r = attempt /\ task_id r = tid
                /\ prompt r = prompt_text
                /\ output_file r = Some (tid ++ ".jsonl")%string) ->
             attempt_post a tid prompt_text attempt (b, x)).
  { intros b x Cb Tb Fb Hx. split; [cbn; congruence|].
    split; [cbn; congruence|].
    split; [right; exists argv; cbn; congruence|exact Hx]. }
  destruct (cli _ argv) as [proc|e];
    [|apply Hpost; [reflexivity|reflexivity|reflexivity|
                    intros r H; discriminate H]].
  unfold bind at 1, open_w at 1, set_results at 1, modify at 1.
  unfold bind at 1.
  match goal with
  | |- context [consume ?f ?o ?l ?t ?r ?s] =>
      pose proof (same_core_quiet _ _ (consume_core f o l t r s))
        as (C2 & T2 & F2);
      destruct (consume f o l t r s) as [a2 [seen|e]]
  end; cbn [fst config trace _shutdown_requested] in C2, T2, F2;
    [|apply Hpost; [exact C2|exact T2|exact F2|intros r H; discriminate H]].
  assert (Hlate : forall (b : AgentService) (x : res TaskResult),
             config b = config a2 -> trace b = trace a2 ->
             _shutdown_requested b = _shutdown_requested a2 ->
             (forall r, x = Ok r ->
                (status r = SUCCESS \/ status r = FAILED)
                /\ attempts r = attempt /\ task_id r = tid
                /\ prompt r = prompt_text
                /\ output_file r = Some (tid ++ ".jsonl")%string) ->
             attempt_post a tid prompt_text attempt (b, x)).
  { intros b x Cb Tb Fb Hx. apply Hpost; try congruence. exact Hx. }
  clear Hpost Hearly.
  destruct (negb (returncode proc =? 0)%Z);
    [apply Hlate; [reflexivity|reflexivity|reflexivity|
                   intros r H; discriminate H]|].
  lifted_or is_err ltac:(apply Hlate; [reflexivity|reflexivity|reflexivity|intros r H; discriminate H]).
  lifted_or cost ltac:(apply Hlate; [reflexivity|reflexivity|reflexivity|intros r H; discriminate H]).
  lifted_or duration ltac:(apply Hlate; [reflexivity|reflexivity|reflexivity|intros r H; discriminate H]).
  unfold bind at 1, get at 1.
  lifted_or total_cost ltac:(apply Hlate; [reflexivity|reflexivity|reflexivity|intros r H; discriminate H]).
  unfold bind at 1, set_stats at 1, modify at 1.
  lifted_or total_duration ltac:(apply Hlate; [reflexivity|reflexivity|reflexivity|intros r H; discriminate H]).
  unfold bind at 1, set_stats at 1, modify at 1.
  destruct (py_truthy is_err).
  - unfold bind at 1, set_stats at 1, modify at 1.
    lifted_or out ltac:(apply Hlate; [reflexivity|reflexivity|reflexivity|intros r H; discriminate H]).
    lifted_or err ltac:(apply Hlate; [reflexivity|reflexivity|reflexivity|intros r H; discriminate H]).
    apply Hlate; [reflexivity|reflexivity|reflexivity|].
    intros r [= <-]. cbn. repeat split. right; reflexivity.
  - unfold bind at 1, set_stats at 1, modify at 1.
    lifted_or out ltac:(apply Hlate; [reflexivity|reflexivity|reflexivity|intros r H; discriminate H]).
    apply Hlate; [reflexivity|reflexivity|reflexivity|].
    intros r [= <-]. cbn. repeat split. left; reflexivity.
Qed.

Lemma launch_count_quiet_or_launched (tr tr' : list event) :
  (tr' = tr \/ exists argv, tr' = tr ++ [Launched argv]) ->
  (launch_count tr' <= S (launch_count tr))%nat.
Proof.
  intros [->|[argv ->]]; [lia|]. rewrite launch_count_launched. lia.
Qed.

Lemma retry_loop_post (depth : nat) (prompt_text tid : string)
  (on_output : bool) (fuel : nat) :
  forall attempt last_error a,
    (max_retries (config a) - attempt <= Z.of_nat fuel)%Z ->
    task_post a tid prompt_text attempt
      (retry_loop cli fuel depth prompt_text tid on_output attempt
                  last_error a).
Proof.
  induction fuel as [|fuel IH]; intros attempt last_error a Hfuel.
  all: cbn [retry_loop]; unfold bind at 1, get at 1.
  all: destruct (Z.ltb_spec attempt (max_retries (config a))) as [Hlt|Hge].
  all: try lia.
  1, 3: unfold bind, set_stats, modify, ret; eexists;
    (split; [reflexivity|]);
    cbn [fst snd status attempts task_id prompt output_file config trace
         _shutdown_requested];
    (split; [right; reflexivity|]);
    (split; [lia|]);
    (split; [intros Hs; discriminate Hs|]);
    repeat split; lia.
  unfold bind at 1.
  destruct (backoff_step (attempt + 1) a)
    as (a0 & Hstep & H1 & H2 & H3 & H4 & H5).
  assert (HF : _shutdown_requested a0 = _shutdown_requested a).
  { revert Hstep. unfold when, sleep, modify, ret.
    destruct (1 <? attempt + 1)%Z; intros [= <-]; reflexivity. }
  rewrite Hstep. clear Hstep.
  unfold try_except.
  pose proof (attempt_body_post depth prompt_text tid on_output
                (attempt + 1) a0) as (C & F & T & R).
  apply launch_count_quiet_or_launched in T.
  rewrite H5, launch_count_backoff in T.
  destruct (attempt_body cli depth prompt_text tid on_output (attempt + 1) a0)
    as [a1 [r|e]]; cbn [fst snd] in C, F, T, R.
  - destruct (R r eq_refl) as (Rs & Ra & Rt & Rp & Rf).
    exists r. cbn [fst snd]. rewrite Ra.
    repeat split; try assumption; try lia; try congruence.
  - destruct (IH (attempt + 1)%Z (JStr (exn_message e)) a1)
      as (r & Hr & Rs & Ra & Rsucc & Rt & Rp & Rf & Rc & Rfl & Rl).
    { rewrite C, H1. lia. }
    rewrite C, H1 in Ra, Rc.
    exists r. repeat split; try assumption; try lia; congruence.
Qed.

End ServiceFrame.

(** X21. [run_task] never raises.  For a CLI whose every launch either
    cannot be started or runs to completion, with any exit code and any
    output, and whatever state the service is in, the call returns a
    result for this task and prompt, whose status is SUCCESS or FAILED and
    whose number of attempts does not exceed the retry ceiling; a success
    has taken at least one attempt; the CLI has been launched at most once
    per attempt, and the configuration is unchanged.  A launch that never
    completes (a process that does not exit, or one blocked on error
    output that is never read) is not a behaviour of the oracle [cli]:
    nothing is stated about it, and on it the call does not return. *)
Theorem run_task_never_raises (cli : environment) (depth : nat)
  (prompt_text tid : string) (on_output : bool) (a : Service.AgentService) :
  exists a' r,
    Service.run_task cli depth prompt_text tid on_output a = (a', Ok r)
    /\ (Service.status r = Service.SUCCESS \/ Service.status r = Service.FAILED)
    /\ (0 <= Service.attempts r
        <= Z.max 0 (Service.max_retries (Service.config a)))%Z
    /\ (Service.status r = Service.SUCCESS -> 1 <= Service.attempts r)%Z
    /\ Service.task_id r = tid
    /\ Service.prompt r = prompt_text
    /\ Service.output_file r = Some (tid ++ ".jsonl")%string
    /\ Service.config a' = Service.config a
    /\ (Z.of_nat (Service.launch_count (Service.trace a'))
        <= Z.of_nat (Service.launch_count (Service.trace a))
           + Service.attempts r)%Z.
Proof.
  unfold Service.run_task. unfold bind at 1, get at 1.
  destruct (retry_loop_post cli depth prompt_text tid on_output
              (Z.to_nat (Service.max_retries (Service.config a)))
              0%Z JNull a)
    as (r & Hr & Rs & Ra & Rsucc & Rt & Rp & Rf & Rc & Rfl & Rl).
  { lia. }
  destruct (Service.retry_loop _ _ _ _ _ _ _ _ a) as [a' x].
  cbn [fst snd] in *. subst x.
  exists a', r. repeat split; try assumption; try lia.
  intros Hs. specialize (Rsucc Hs). lia.
Qed.

Lemma slept_backoff (attempt : Z) :
  slept (backoff attempt)
  = if (1 <? attempt)%Z then (2 ^ (attempt - 1))%Z else 0%Z.
Proof.
  unfold backoff. destruct (1 <? attempt)%Z; cbn; lia.
Qed.

Lemma backoff_total_step (attempt ceiling : Z) :
  (0 <= attempt < ceiling)%Z ->
  ((if (1 <? attempt + 1)%Z then 2 ^ (attempt + 1 - 1) else 0)
   + backoff_total (attempt + 1) ceiling
   = backoff_total attempt ceiling)%Z.
Proof.
  intros H. unfold backoff_total.
  destruct (Z.ltb_spec attempt ceiling) as [_|]; [|lia].
  replace (attempt + 1 - 1)%Z with attempt by lia.
  destruct (Z.ltb_spec 1 (attempt + 1)) as [H1|H1].
  - rewrite (Z.max_r 1 attempt) by lia.
    destruct (Z.ltb_spec (attempt + 1) ceiling) as [H2|H2].
    + rewrite (Z.max_r 1 (attempt + 1)) by lia.
      rewrite Z.pow_add_r by lia. lia.
    + replace ceiling with (attempt + 1)%Z by lia.
      rewrite Z.pow_add_r by lia. lia.
  - assert (attempt = 0%Z) as -> by lia.
    change (0 + 1)%Z with 1%Z. change (Z.max 1 0) with 1%Z.
    change (Z.max 1 1) with 1%Z.
    destruct (Z.ltb_spec 1 ceiling) as [H2|H2]; [lia|].
    replace ceiling with 1%Z by lia. reflexivity.
Qed.

Lemma retry_all_fail (cli : environment) (d : nat)
  (prompt_text tid sid : string) (on_output : bool) (fuel : nat) :
  forall attempt last_error a,
    (0 <= attempt)%Z ->
    Service._session_id a = JStr sid -> sid <> "" ->
    (forall n, run_fails on_output (cli n (task_argv a sid prompt_text))) ->
    (Service.max_retries (Service.config a) - attempt <= Z.of_nat fuel)%Z ->
    exists a' r,
      Service.retry_loop cli fuel d prompt_text tid on_output attempt
                         last_error a = (a', Ok r)
      /\ Service.status r = Service.FAILED
      /\ Service.attempts r
         = Z.max attempt (Service.max_retries (Service.config a))
      /\ Service.output r = ""
      /\ Z.of_nat (Service.launch_count (Service.trace a'))
         = (Z.of_nat (Service.launch_count (Service.trace a))
            + Z.max 0 (Service.max_retries (Service.config a) - attempt))%Z
      /\ slept (Service.trace a')
         = (slept (Service.trace a)
            + backoff_total attempt (Service.max_retries (Service.config a)))%Z
      /\ Service.stats a' = counted_failed (Service.stats a).
Proof.
  induction fuel as [|fuel IH]; intros attempt last_error a H0 Hid Hne Hfail Hfuel.
  all: destruct (Z.ltb_spec attempt (Service.max_retries (Service.config a)))
    as [Hlt|Hge]; try lia.
  1, 3: cbn [Service.retry_loop]; unfold bind at 1, get at 1;
    apply Z.ltb_ge in Hge; rewrite Hge; apply Z.ltb_ge in Hge;
    unfold bind, Service.set_stats, modify, ret; eexists; eexists;
    (split; [reflexivity|]);
    cbn [Service.status Service.attempts Service.output Service.trace
         Service.stats];
    unfold backoff_total;
    (destruct (Z.ltb_spec attempt (Service.max_retries (Service.config a)));
     [lia|]);
    repeat split; lia.
  destruct (retry_loop_failed_attempt cli fuel d prompt_text tid sid
              on_output attempt last_error a Hlt Hid Hne (Hfail _))
    as (a1 & e & -> & C1 & S1 & I1 & M1 & T1).
  assert (Hargv : task_argv a1 sid prompt_text = task_argv a sid prompt_text).
  { unfold task_argv. now rewrite C1, M1. }
  destruct (IH (attempt + 1)%Z (JStr (Service.exn_message e)) a1)
    as (a' & r & Hr & Rs & Ra & Ro & Rl & Rz & Rst).
  { lia. }
  { now rewrite I1. }
  { exact Hne. }
  { intros n. rewrite Hargv. apply Hfail. }
  { rewrite C1. lia. }
  exists a', r. split; [exact Hr|].
  rewrite C1 in Ra, Rl, Rz. rewrite S1 in Rst.
  rewrite T1 in Rl, Rz.
  rewrite app_assoc, launch_count_launched, launch_count_backoff in Rl.
  rewrite !slept_app, slept_backoff in Rz. cbn [slept fold_right] in Rz.
  pose proof (backoff_total_step attempt
                (Service.max_retries (Service.config a))) as Hb.
  repeat split; try assumption; lia.
Qed.

(** X22. When every run of the task fails (the process cannot be started,
    exits with a code other than 0, or prints a line whose handling
    raises), [run_task] gives up after exactly [max_retries] attempts: the
    result is FAILED with no output, the CLI has been launched once per
    attempt, the service has slept 2^1 + ... + 2^(max_retries - 1), that
    is 2^max_retries - 2, and the task is counted once, as failed; the
    cost and duration totals are untouched. *)
Theorem retries_are_exhausted_with_backoff (cli : environment) (d : nat)
  (prompt_text tid sid : string) (on_output : bool)
  (a : Service.AgentService) :
  (1 <= Service.max_retries (Service.config a))%Z ->
  Service._session_id a = JStr sid -> sid <> "" ->
  (forall n, run_fails on_output (cli n (task_argv a sid prompt_text))) ->
  exists a' r,
    Service.run_task cli d prompt_text tid on_output a = (a', Ok r)
    /\ Service.status r = Service.FAILED
    /\ Service.attempts r = Service.max_retries (Service.config a)
    /\ Service.output r = ""
    /\ Z.of_nat (Service.launch_count (Service.trace a'))
       = (Z.of_nat (Service.launch_count (Service.trace a))
          + Service.max_retries (Service.config a))%Z
    /\ slept (Service.trace a')
       = (slept (Service.trace a)
          + 2 ^ Service.max_retries (Service.config a) - 2)%Z
    /\ Service.stats a' = counted_failed (Service.stats a).
Proof.
  intros Hmax Hid Hne Hfail.
  unfold Service.run_task. unfold bind at 1, get at 1.
  destruct (retry_all_fail cli d prompt_text tid sid on_output
              (Z.to_nat (Service.max_retries (Service.config a)))
              0%Z JNull a)
    as (a' & r & Hr & Rs & Ra & Ro & Rl & Rz & Rst);
    [lia|exact Hid|exact Hne|exact Hfail|lia|].
  exists a', r. split; [exact Hr|].
  unfold backoff_total in Rz.
  destruct (Z.ltb_spec 0 (Service.max_retries (Service.config a))); [|lia].
  change (Z.max 1 0) with 1%Z in Rz. change (2 ^ 1)%Z with 2%Z in Rz.
  repeat split; try assumption; lia.
Qed.

Lemma retries_are_exhausted_with_backoff_witness :
  exists a' r,
    Service.run_task failing_cli 2 "task" "t1" false sample_service = (a', Ok r)
    /\ Service.status r = Service.FAILED
    /\ Service.attempts r = 3%Z
    /\ Z.of_nat (Service.launch_count (Service.trace a')) = 3%Z
    /\ slept (Service.trace a') = 6%Z.
Proof.
  destruct (retries_are_exhausted_with_backoff failing_cli 2 "task" "t1"
              "sess-1" false sample_service)
    as (a' & r & Hr & Rs & Ra & _ & Rl & Rz & _).
  - cbn. lia.
  - reflexivity.
  - discriminate.
  - intros n. cbn. left. discriminate.
  - exists a', r. repeat split; assumption.
Defined.

Lemma attempt_no_session (cli : environment) (d : nat)
  (prompt_text tid : string) (on_output : bool) (attempt : Z)
  (a : Service.AgentService) :
  py_truthy (Service._session_id a) = false ->
  Service.session_file a = None ->
  Service.attempt_body cli d prompt_text tid on_output attempt a
  = (a, Raise RecursionError).
Proof.
  intros Hid Hfile.
  unfold Service.attempt_body, Service._build_command,
    Service._build_command_with.
  cbv zeta. unfold bind at 1. unfold bind at 1.
  rewrite (service_session_id_recursion cli d a Hid Hfile). reflexivity.
Qed.

Lemma retry_no_session (cli : environment) (d : nat)
  (prompt_text tid : string) (on_output : bool) (fuel : nat) :
  forall attempt last_error a,
    py_truthy (Service._session_id a) = false ->
    Service.session_file a = None ->
    (Service.max_retries (Service.config a) - attempt <= Z.of_nat fuel)%Z ->
    exists a' r,
      Service.retry_loop cli fuel d prompt_text tid on_output attempt
                         last_error a = (a', Ok r)
      /\ Service.status r = Service.FAILED
      /\ Service.attempts r
         = Z.max attempt (Service.max_retries (Service.config a))
      /\ Service.launch_count (Service.trace a')
         = Service.launch_count (Service.trace a)
      /\ Service.stats a' = counted_failed (Service.stats a)
      /\ Service._session_id a' = Service._session_id a
      /\ Service.session_file a' = None.
Proof.
  induction fuel as [|fuel IH]; intros attempt last_error a Hid Hfile Hfuel.
  all: cbn [Service.retry_loop]; unfold bind at 1, get at 1.
  all: destruct (Z.ltb_spec attempt (Service.max_retries (Service.config a)))
    as [Hlt|Hge]; try lia.
  1, 3: unfold bind, Service.set_stats, modify, ret; eexists; eexists;
    (split; [reflexivity|]);
    cbn [Service.status Service.attempts Service.trace Service.stats
         Service._session_id Service.session_file];
    repeat split; try assumption; lia.
  unfold bind at 1, when, try_except.
  destruct (1 <? attempt + 1)%Z.
  - unfold Service.sleep at 1, modify at 1.
    rewrite attempt_no_session by assumption.
    match goal with |- context [Service.retry_loop _ _ _ _ _ _ _ _ ?b] =>
      destruct (IH (attempt + 1)%Z
                  (JStr (Service.exn_message RecursionError)) b)
        as (a' & r & Hr & Rs & Ra & Rl & Rst & Ri & Rf);
        [assumption|assumption|cbn; lia|]
    end.
    exists a', r. split; [exact Hr|].
    cbn [Service.config Service.trace Service.stats Service._session_id] in *.
    rewrite launch_count_slept in Rl.
    repeat split; try assumption; lia.
  - unfold ret at 1.
    rewrite attempt_no_session by assumption.
    destruct (IH (attempt + 1)%Z
                (JStr (Service.exn_message RecursionError)) a)
      as (a' & r & Hr & Rs & Ra & Rl & Rst & Ri & Rf);
      [assumption|assumption|lia|].
    exists a', r. split; [exact Hr|].
    repeat split; try assumption; lia.
Qed.

(** X23. A service that has lost its session cannot run a task.  With no
    session file and no identifier in memory every attempt ends, before
    the CLI is reached, at the recursion limit (building the command reads
    [session_id], which runs the CLI, which builds a command), and that
    error is caught and retried like any other: [run_task] returns FAILED
    after [max_retries] attempts without a single launch, counts the task
    as failed, and leaves the session as unknown as it was. *)
Theorem lost_session_is_never_recovered (cli : environment) (d : nat)
  (prompt_text tid : string) (on_output : bool) (a : Service.AgentService) :
  py_truthy (Service._session_id a) = false ->
  Service.session_file a = None ->
  exists a' r,
    Service.run_task cli d prompt_text tid on_output a = (a', Ok r)
    /\ Service.status r = Service.FAILED
    /\ Service.attempts r = Z.max 0 (Service.max_retries (Service.config a))
    /\ Service.launch_count (Service.trace a')
       = Service.launch_count (Service.trace a)
    /\ Service.stats a' = counted_failed (Service.stats a)
    /\ Service._session_id a' = Service._session_id a
    /\ Service.session_file a' = None.
Proof.
  intros Hid Hfile.
  unfold Service.run_task. unfold bind at 1, get at 1.
  apply retry_no_session; [assumption|assumption|lia].
Qed.

Lemma lost_session_is_never_recovered_witness :
  exists a' r,
    Service.run_task stream_cli 1000 "task" "t1" false lost_service = (a', Ok r)
    /\ Service.status r = Service.FAILED
    /\ Service.attempts r = 3%Z
    /\ Service.launch_count (Service.trace a') = 0%nat.
Proof.
  destruct (lost_session_is_never_recovered stream_cli 1000 "task" "t1" false
              lost_service eq_refl eq_refl)
    as (a' & r & Hr & Rs & Ra & Rl & _).
  exists a', r. repeat split; assumption.
Defined.

(** X24. An error the CLI reports is final.  When the first run exits
    with code 0 and its result event carries the error flag, [run_task]
    returns FAILED at once, with [attempts = 1]: one launch, no sleep and
    no retry, however high the retry ceiling.  The error text is the
    [result] of the event; the cost of the failed run is charged to the
    total, and the task is counted as failed. *)
Theorem reported_error_is_not_retried (cli : environment) (d : nat)
  (prompt_text tid sid : string) (on_output : bool)
  (a : Service.AgentService) (p : Completed) :
  (1 <= Service.max_retries (Service.config a))%Z ->
  Service._session_id a = JStr sid -> sid <> "" ->
  cli (Service.launch_count (Service.trace a)) (task_argv a sid prompt_text)
  = Ok p ->
  refused_run on_output (Service.stats a) p = true ->
  exists a' r texts kvs,
    Service.run_task cli d prompt_text tid on_output a = (a', Ok r)
    /\ decoded on_output (stdout p) = Ok (texts, JObj kvs)
    /\ Service.status r = Service.FAILED
    /\ Service.attempts r = 1%Z
    /\ Service.error r = dict_get_or "result" kvs (JStr "Unknown error")
    /\ Service.cost_usd r = dict_get_or "total_cost_usd" kvs (JNum (NInt 0))
    /\ py_add (Service.total_cost_usd (Service.stats a)) (Service.cost_usd r)
       = Ok (Service.total_cost_usd (Service.stats a'))
    /\ Service.trace a'
       = Service.trace a ++ [Service.Launched (task_argv a sid prompt_text)]
    /\ Service.tasks_failed (Service.stats a')
       = (Service.tasks_failed (Service.stats a) + 1)%Z
    /\ Service.tasks_completed (Service.stats a')
       = Service.tasks_completed (Service.stats a).
Proof.
  intros Hmax Hid Hne Hcli Hrun.
  unfold Service.run_task. unfold bind at 1, get at 1.
  destruct (Z.to_nat (Service.max_retries (Service.config a)))
    as [|fuel] eqn:Efuel; [lia|].
  cbn [Service.retry_loop]. unfold bind at 1, get at 1.
  destruct (Z.ltb_spec 0 (Service.max_retries (Service.config a)))
    as [Hpos|]; [|lia].
  change (1 <? 0 + 1)%Z with false. cbn [when].
  unfold bind at 1, ret at 1. unfold try_except.
  destruct (build_command_known cli d prompt_text sid a Hid Hne)
    as (cmd & Hcmd & Hargv).
  unfold Service.attempt_body. cbv zeta. unfold bind at 1. rewrite Hcmd.
  unfold bind at 1, Service.launch, bind at 1, lift at 1. rewrite Hargv.
  unfold bind at 1, get at 1, bind at 1.
  set (a0 := fst (Service.log_launch (task_argv a sid prompt_text) a)).
  change (Service.log_launch (task_argv a sid prompt_text) a)
    with (a0, @Ok unit tt).
  unfold lift at 1. rewrite Hcli.
  unfold bind at 1, Service.open_w, Service.set_results, modify.
  unfold bind at 1.
  unfold refused_run in Hrun.
  apply andb_true_iff in Hrun as [Hrc Hrun].
  unfold decoded in *.
  match goal with
  | |- context [Service.consume ?f ?o ?l ?t ?r ?s] =>
      pose proof (consume_core f o l t r s) as Hcore;
      pose proof (consume_result f "" o l t r s sample_service) as Hres;
      assert (H0 : same_core a0 s) by (repeat split);
      destruct (Service.consume f o l t r s) as [a2 seen]
  end.
  cbn [fst snd] in Hcore, Hres. rewrite <- Hres in Hrun. rewrite <- Hres.
  destruct seen as [[texts rd]|]; [|discriminate].
  destruct rd as [| | | | |kvs]; try discriminate.
  repeat (apply andb_true_iff in Hrun as [Hrun ?]).
  cbn [fst snd]. rewrite Hrc. cbn [negb].
  pose proof (same_core_trans _ _ _ H0 Hcore)
    as (Hc1 & Hc2 & Hc3 & Hc4 & Hc5 & Hc6 & Hc7).
  unfold bind, lift, get, Service.set_stats, modify, ret. cbn [py_get].
  rewrite Hc2. cbn [Service.stats Service.log_launch a0 fst modify].
  apply negb_true_iff in H, H1, H2.
  destruct (py_add (Service.total_cost_usd (Service.stats a)) _) as [tc|] eqn:Etc;
    [|discriminate].
  destruct (py_add (Service.total_duration_ms (Service.stats a)) _) as [td|];
    [|discriminate].
  rewrite Hrun.
  destruct (py_join texts) as [out|]; [|discriminate].
  eexists; eexists. exists texts, kvs. split; [reflexivity|].
  cbn [Service.status Service.attempts Service.error Service.cost_usd
       Service.config Service._session_id Service.trace
       Service.mcp_config_exists Service.stats Service.tasks_completed
       Service.tasks_failed Service.total_cost_usd].
  rewrite ?Hc1, ?Hc2, ?Hc3, ?Hc6, ?Hc7.
  repeat split. exact Etc.
Qed.

Lemma reported_error_is_not_retried_witness :
  exists a' r texts kvs,
    Service.run_task refusing_cli 2 "task" "t1" true sample_service = (a', Ok r)
    /\ decoded true (stdout (reply 0
          [jsonl "{'type':'assistant','message':{'content':[{'type':'text','text':'I cannot'}]}}";
           jsonl "{'type':'result','is_error':true,'result':'max turns reached','total_cost_usd':0.5,'duration_ms':1200}"]))
       = Ok (texts, JObj kvs)
    /\ Service.status r = Service.FAILED
    /\ Service.attempts r = 1%Z
    /\ Service.error r = dict_get_or "result" kvs (JStr "Unknown error").
Proof.
  destruct (reported_error_is_not_retried refusing_cli 2 "task" "t1" "sess-1"
              true sample_service
              (reply 0
                 [jsonl "{'type':'assistant','message':{'content':[{'type':'text','text':'I cannot'}]}}";
                  jsonl "{'type':'result','is_error':true,'result':'max turns reached','total_cost_usd':0.5,'duration_ms':1200}"]))
    as (a' & r & texts & kvs & Hr & Hd & Rs & Ra & Re & _).
  - cbn. lia.
  - reflexivity.
  - discriminate.
  - reflexivity.
  - vm_compute. reflexivity.
  - exists a', r, texts, kvs. repeat split; assumption.
Defined.

(** ** The queue *)

Section QueueFacts.
Import Service.
Variable cli : environment.
Variable signals : nat -> bool.
Variable clock : Z -> Z.

Lemma run_task_returns (depth : nat) (prompt_text tid : string)
  (on_output : bool) (a : AgentService) :
  exists a' r,
    run_task cli depth prompt_text tid on_output a = (a', Ok r)
    /\ prompt r = prompt_text /\ task_id r = tid
    /\ _shutdown_requested a' = _shutdown_requested a
    /\ config a' = config a.
Proof.
  unfold run_task. unfold bind at 1, get at 1.
  destruct (retry_loop_post cli depth prompt_text tid on_output
              (Z.to_nat (max_retries (config a))) 0%Z JNull a)
    as (r & Hr & _ & _ & _ & Rt & Rp & _ & Rc & Rfl & _).
  { lia. }
  destruct (retry_loop _ _ _ _ _ _ _ _ a) as [a' x].
  cbn [fst snd] in *. subst x.
  exists a', r. repeat split; assumption.
Qed.

Lemma queue_loop_flagged (depth : nat) (lines : list string) (position : nat)
  (task_num : Z) (results : list TaskResult) (w : Worker) :
  _shutdown_requested (service w) = true ->
  queue_loop cli signals clock depth lines position task_num results w
  = (w, Ok (results, task_num)).
Proof.
  intros Hflag. destruct lines as [|line rest]; [reflexivity|].
  cbn [queue_loop]. unfold bind at 1, get at 1. rewrite Hflag. reflexivity.
Qed.

Lemma queue_loop_post (depth : nat) (lines : list string) :
  forall position task_num results w,
    _shutdown_requested (service w) = false ->
    queue_post signals clock lines position task_num results w
      (queue_loop cli signals clock depth lines position task_num results w).
Proof.
  induction lines as [|line rest IH]; intros position task_num results w Hflag.
  - exists []. cbn. rewrite app_nil_r, Z.add_0_r, Nat.add_0_r.
    repeat split. exact Hflag.
  - cbn [queue_loop]. unfold bind at 1, get at 1. rewrite Hflag. cbv zeta.
    destruct (is_task line) eqn:Ht; pose proof Ht as Ht';
      unfold is_task in Ht';
      [apply negb_true_iff in Ht'|apply negb_false_iff in Ht'];
      rewrite Ht'.
    + unfold bind at 1, on_service at 1.
      destruct (run_task_returns depth (strip line)
                  (queue_task_id (task_num + 1)%Z (clock (task_num + 1)%Z))
                  false (service w))
        as (a' & r & -> & Rp & Rt & Rfl & Rc).
      unfold bind at 1, pause at 1, modify at 1.
      unfold bind at 1, deliver_signal at 1, when.
      cbn [service queue_file pauses].
      destruct (signals position) eqn:Es.
      * unfold on_service at 1, _handle_shutdown at 1, modify at 1.
        rewrite queue_loop_flagged by reflexivity.
        exists [r]. cbn [fst snd started interrupted length map ids_from
                         service queue_file pauses config
                         _shutdown_requested].
        rewrite Ht, Es, Rp, Rt. cbn [app orb].
        repeat split; try lia. exact Rc.
      * unfold ret at 1.
        match goal with |- context [queue_loop _ _ _ _ _ _ _ _ ?b] =>
          destruct (IH (S position) (task_num + 1)%Z (results ++ [r]) b)
            as (new & H1 & H2 & H3 & H4 & H5 & H6 & H7);
            [cbn; congruence|]
        end.
        exists (r :: new). cbn [fst snd service queue_file pauses] in *.
        rewrite H1. cbn [started interrupted length map ids_from].
        rewrite Ht, Es, <- app_assoc, Rp, Rt, H2, H3, H4, H5, H6, H7.
        cbn [app orb].
        repeat split; try lia; try congruence.
        f_equal. f_equal. lia.
    + unfold bind at 1, deliver_signal at 1, when.
      destruct (signals position) eqn:Es.
      * unfold on_service at 1, _handle_shutdown at 1, modify at 1.
        rewrite queue_loop_flagged by reflexivity.
        exists []. cbn [fst snd started interrupted length map ids_from
                        service queue_file pauses config
                        _shutdown_requested].
        rewrite Ht, Es, app_nil_r, Z.add_0_r, Nat.add_0_r.
        repeat split.
      * unfold ret at 1.
        destruct (IH (S position) task_num results w Hflag)
          as (new & H1 & H2 & H3 & H4 & H5 & H6 & H7).
        exists new. cbn [started interrupted length].
        rewrite Ht, Es. cbn [app orb].
        repeat split; assumption.
Qed.

End QueueFacts.

Lemma started_without_signal (signals : nat -> bool) (lines : list string) :
  forall position,
    (forall i, (i < length lines)%nat -> signals (position + i)%nat = false) ->
    started signals lines position = task_lines lines
    /\ interrupted signals (length lines) position = false.
Proof.
  induction lines as [|line rest IH]; intros position Hs; [split; reflexivity|].
  cbn [started interrupted length].
  pose proof (Hs 0%nat ltac:(cbn; lia)) as H0. rewrite Nat.add_0_r in H0.
  rewrite H0. cbn [orb].
  destruct (IH (S position)) as [H1 H2].
  { intros i Hi. replace (S position + i)%nat with (position + S i)%nat by lia.
    apply Hs. cbn. lia. }
  rewrite H1, H2. split; [|reflexivity].
  unfold task_lines. cbn [List.filter].
  destruct (is_task line); reflexivity.
Qed.

Lemma started_until_signal (signals : nat -> bool) (lines : list string) :
  forall position k,
    (k < length lines)%nat ->
    signals (position + k)%nat = true ->
    (forall i, (i < k)%nat -> signals (position + i)%nat = false) ->
    started signals lines position = task_lines (firstn (S k) lines)
    /\ interrupted signals (length lines) position = true.
Proof.
  induction lines as [|line rest IH]; intros position k Hk Hs Hbefore;
    [cbn in Hk; lia|].
  cbn [started interrupted length firstn].
  destruct k as [|k].
  - rewrite Nat.add_0_r in Hs. rewrite Hs. cbn [orb firstn].
    split; [|reflexivity].
    unfold task_lines. cbn [List.filter].
    destruct (is_task line); reflexivity.
  - pose proof (Hbefore 0%nat ltac:(lia)) as H0. rewrite Nat.add_0_r in H0.
    rewrite H0. cbn [orb].
    destruct (IH (S position) k) as [H1 H2].
    { cbn in Hk. lia. }
    { replace (S position + k)%nat with (position + S k)%nat by lia. exact Hs. }
    { intros i Hi. replace (S position + i)%nat with (position + S i)%nat by lia.
      apply Hbefore. lia. }
    rewrite H1, H2. split; [|reflexivity].
    unfold task_lines. cbn [List.filter].
    destruct (is_task line); reflexivity.
Qed.

(** X25. The queue is worked off in order, whatever the tasks do.  With
    no shutdown requested, [process_queue] does not raise, whatever the
    CLI does: it runs exactly the lines that are neither blank nor
    comments, stripped, in the order of the file, one result per task,
    numbered from 1 in the task identifiers, with one pause after each
    task.  The queue file is archived into the results directory exactly
    when at least one task was run; otherwise it stays where it is. *)
Theorem queue_runs_every_task_in_order (cli : environment)
  (signals : nat -> bool) (clock : Z -> Z) (depth : nat) (stamp : string)
  (w : Service.Worker) (lines : list string) :
  Service.queue_file w = Some lines ->
  Service._shutdown_requested (Service.service w) = false ->
  (forall i, (i < length lines)%nat -> signals i = false) ->
  exists w' results,
    Service.process_queue cli signals clock depth stamp w = (w', Ok results)
    /\ map Service.prompt results = task_lines lines
    /\ map Service.task_id results = ids_from clock 0 (length results)
    /\ Service.pauses w' = (Service.pauses w + length results)%nat
    /\ match results with
       | [] => Service.queue_file w' = Some lines
       | _ :: _ =>
           Service.queue_file w' = None
           /\ Service.results_dir (Service.service w')
                !! ("queue-" ++ stamp ++ ".txt")%string = Some lines
       end.
Proof.
  intros Hq Hflag Hs.
  destruct (started_without_signal signals lines 0 Hs) as [S1 S2].
  unfold Service.process_queue. unfold bind at 1, get at 1. rewrite Hq.
  unfold bind at 1.
  destruct (queue_loop_post cli signals clock depth lines 0 0%Z [] w Hflag)
    as (new & H1 & H2 & H3 & H4 & H5 & H6 & H7).
  destruct (Service.queue_loop _ _ _ _ _ _ _ _ w) as [w1 x].
  cbn [fst snd] in *. subst x. cbn [app fst snd].
  unfold bind at 1, get at 1. rewrite H6, S2. cbn [negb].
  rewrite andb_true_r.
  destruct new as [|r new].
  - cbn [length Z.of_nat Z.add Z.ltb Z.compare when].
    unfold bind, ret. exists w1, []. repeat split; try assumption.
    + now rewrite <- S1.
    + congruence.
  - assert (Hpos : (0 <? 0 + Z.of_nat (length (r :: new)))%Z = true)
      by (apply Z.ltb_lt; cbn [length]; lia).
    rewrite Hpos. cbn [when].
    unfold bind at 1, Service.rename_queue.
    unfold bind at 1, get at 1. rewrite H5, Hq.
    unfold bind, Service.on_service, Service.set_results, modify, ret.
    eexists. exists (r :: new). split; [reflexivity|].
    cbn [Service.pauses Service.queue_file Service.service
         Service.results_dir].
    repeat split; try assumption.
    + now rewrite <- S1.
    + apply lookup_insert_eq.
Qed.

Lemma queue_runs_every_task_in_order_witness :
  exists w' results,
    Service.process_queue silent_cli no_signal wall_clock 2 "20250101-120000"
      sample_worker = (w', Ok results)
    /\ map Service.prompt results = ["update the changelog"; "run the tests"]
    /\ map Service.task_id results
       = ["queue-0001-1700000001"; "queue-0002-1700000002"]
    /\ Service.queue_file w' = None.
Proof.
  destruct (queue_runs_every_task_in_order silent_cli no_signal wall_clock 2
              "20250101-120000" sample_worker
              ["# nightly jobs"; "  update the changelog  "; ""; "run the tests"]
              eq_refl eq_refl (fun _ _ => eq_refl))
    as (w' & results & Hr & Hp & Hi & _ & Ha).
  exists w', results. split; [exact Hr|]. split; [exact Hp|].
  assert (Hlen : length results = 2%nat).
  { rewrite <- (length_map Service.prompt), Hp. reflexivity. }
  rewrite Hlen in Hi. split; [exact Hi|].
  destruct results as [|r rs]; [discriminate Hlen|]. apply Ha.
Defined.

(** X26. A shutdown request stops the queue and keeps it.  When the
    first signal arrives while line [k] of the queue is processed,
    [process_queue] finishes that line, starts no later task, and returns
    the results of the tasks among the first [k + 1] lines; the queue file
    is not archived, so that the rest can be run later.  When shutdown was
    already requested at the call, nothing is run at all. *)
Theorem shutdown_stops_the_queue (cli : environment)
  (signals : nat -> bool) (clock : Z -> Z) (depth : nat) (stamp : string)
  (w : Service.Worker) (lines : list string) (k : nat) :
  Service.queue_file w = Some lines ->
  (Service._shutdown_requested (Service.service w) = false ->
   (k < length lines)%nat ->
   signals k = true ->
   (forall i, (i < k)%nat -> signals i = false) ->
   exists w' results,
     Service.process_queue cli signals clock depth stamp w = (w', Ok results)
     /\ map Service.prompt results = task_lines (firstn (S k) lines)
     /\ Service.queue_file w' = Some lines
     /\ Service._shutdown_requested (Service.service w') = true)
  /\ (Service._shutdown_requested (Service.service w) = true ->
      Service.process_queue cli signals clock depth stamp w = (w, Ok [])).
Proof.
  intros Hq. split.
  - intros Hflag Hk Hs Hbefore.
    destruct (started_until_signal signals lines 0 k Hk Hs Hbefore) as [S1 S2].
    unfold Service.process_queue. unfold bind at 1, get at 1. rewrite Hq.
    unfold bind at 1.
    destruct (queue_loop_post cli signals clock depth lines 0 0%Z [] w Hflag)
      as (new & H1 & H2 & H3 & H4 & H5 & H6 & H7).
    destruct (Service.queue_loop _ _ _ _ _ _ _ _ w) as [w1 x].
    cbn [fst snd] in *. subst x. cbn [app fst snd].
    unfold bind at 1, get at 1. rewrite H6, S2. cbn [negb].
    rewrite andb_false_r. cbn [when]. unfold bind, ret.
    exists w1, new. repeat split; try congruence.
  - intros Hflag.
    unfold Service.process_queue. unfold bind at 1, get at 1. rewrite Hq.
    unfold bind at 1. rewrite queue_loop_flagged by exact Hflag.
    unfold bind at 1, get at 1. cbn [fst snd]. reflexivity.
Qed.

Lemma shutdown_stops_the_queue_witness :
  exists w' results,
    Service.process_queue silent_cli (signal_at 1) wall_clock 2
      "20250101-120000" sample_worker = (w', Ok results)
    /\ map Service.prompt results = ["update the changelog"]
    /\ Service.queue_file w' = Service.queue_file sample_worker.
Proof.
  destruct (shutdown_stops_the_queue silent_cli (signal_at 1) wall_clock 2
              "20250101-120000" sample_worker
              ["# nightly jobs"; "  update the changelog  "; ""; "run the tests"]
              1%nat eq_refl) as [H _].
  destruct H as (w' & results & Hr & Hp & Hf & _).
  - reflexivity.
  - cbn. lia.
  - reflexivity.
  - intros i Hi. assert (i = 0%nat) as -> by lia. reflexivity.
  - exists w', results. split; [exact Hr|]. split; [exact Hp|exact Hf].
Defined.

(** ** The Codex wrapper *)

Lemma codex_execute_nonzero_exit (cli : environment) (prompt : string)
  (w : CodexWrapper.CodexWrapper) :
  (forall n argv p, cli n argv = Ok p -> returncode p <> 0%Z) ->
  raises (snd (CodexWrapper._execute cli prompt w)) = true.
Proof.
  intros Hcli. unfold CodexWrapper._execute.
  unfold bind at 1, get at 1. cbv zeta.
  unfold bind at 1, CodexWrapper.subprocess_run, bind at 1, lift at 1.
  destruct (argv_strings _) as [argv|e]; [|reflexivity].
  unfold bind at 1, get at 1, bind at 1, CodexWrapper.log_launch, modify, lift.
  destruct (cli _ argv) as [p|e] eqn:E; [|reflexivity].
  apply Hcli in E. apply Z.eqb_neq in E. rewrite E. reflexivity.
Qed.

(** X27. [CodexWrapper.run] raises whenever the process it launches exits
    with a code other than 0, whatever the process printed and whatever
    state the wrapper is in: the exit code is checked before the output is
    read.  (The Claude wrapper of the same template has no such check.) *)
Theorem codex_wrapper_raises_on_nonzero_exit (cli : environment)
  (prompt : string) (w : CodexWrapper.CodexWrapper) :
  (forall n argv p, cli n argv = Ok p -> returncode p <> 0%Z) ->
  raises (snd (CodexWrapper.run cli prompt w)) = true.
Proof.
  intros Hcli. unfold CodexWrapper.run. unfold bind at 1.
  destruct (CodexWrapper.get_thread_id cli w) as [w1 [tid|e]] eqn:E;
    [|reflexivity].
  apply codex_execute_nonzero_exit, Hcli.
Qed.

Lemma codex_wrapper_raises_on_nonzero_exit_witness :
  raises (snd (CodexWrapper.run failing_cli "task" saved_codex_wrapper)) = true.
Proof.
  apply (codex_wrapper_raises_on_nonzero_exit failing_cli "task"
           saved_codex_wrapper).
  intros n argv p E. inversion E. discriminate.
Defined.
